(** * Medallion data pipeline (Bronze -> Silver -> Gold -> reconciliation)

    A shallow embedding of [etl.py]: the pandas transformations of
    [build_silver], the SQL statements of [build_gold] and [reconcile], and
    the audit logging helpers, with the properties the specification states
    about them.

    Tables are modelled as pandas sees them: a list of column labels and a
    list of rows, each row a finite map from column label to cell.  The
    database and the [log/] directory are components of an explicit world
    state that every stage threads through. *)

From stdpp Require Import base option list gmap strings pretty.
From Stdlib Require Import ZArith Lia Ascii.

Local Open Scope string_scope.
Local Open Scope list_scope.

(** ** Scalars

    The numeric and timestamp domains of pandas and PostgreSQL (float64 /
    NUMERIC, datetime64 / TIMESTAMP) are kept abstract: the pipeline only
    adds, subtracts, divides, rounds and compares their values. *)

Class Scalars := {
  num : Type;
  datetime : Type;
  num_eq_dec :: EqDecision num;
  datetime_eq_dec :: EqDecision datetime;
  num_zero : num;
  num_add : num → num → num;
  num_sub : num → num → num;
  num_div : num → num → num;
  num_of_nat : nat → num;
  (** The float64 a number is rounded to: what [pd.read_sql] makes of a
      NUMERIC value ([coerce_float]) and what an operation on two float64
      values returns.  Nothing is assumed of it. *)
  num_float : num → num;
  (** [DATE_TRUNC('month', ts)::date] *)
  date_trunc_month : datetime → datetime
}.

(** A cell of a table.  [CNull] stands for pandas' NaN / NaT / None and for
    SQL's NULL ([to_sql] writes the former as the latter). *)
Inductive cell `{Scalars} : Type :=
| CNull
| CStr (s : string)
| CNum (n : num)
| CDatetime (t : datetime).

#[export] Instance cell_eq_dec `{Scalars} : EqDecision cell.
Proof. solve_decision. Defined.

Definition is_null `{Scalars} (c : cell) : bool :=
  match c with CNull => true | _ => false end.

(** A row maps column labels to cells; a label with no entry reads as null. *)
Record DataFrame `{Scalars} := {
  columns : list string;
  rows : list (gmap string cell)
}.

#[export] Instance DataFrame_eq_dec `{Scalars} : EqDecision DataFrame.
Proof. solve_decision. Defined.

(** ** What the libraries compute

    [pd.to_numeric] and [pd.to_datetime] convert a column; the conversion of
    one cell may depend on the column it stands in (format inference), so both
    take the column.  [None] is a cell that cannot be converted.  [to_csv] is
    the byte serialisation of [DataFrame.to_csv(index=False)] and [md5] is
    [hashlib.md5(...).hexdigest()].  [now n] is what the n-th call of
    [datetime.now()] returns: the wall clock of the machine, of which nothing
    is assumed (it can stand still or be set back between two calls). *)
Class Library `{Scalars} := {
  to_numeric_scalar : list cell → cell → option num;
  to_datetime_scalar : list cell → cell → option datetime;
  to_csv : DataFrame → string;
  md5 : string → string;
  now : nat → datetime
}.

(** ** Exceptions *)

Inductive error :=
| KeyError (label : string)
| UndefinedTable (schema table : string)
| UndefinedColumn (table column : string).

Inductive result (A : Type) :=
| Ok (a : A)
| Err (e : error).
Arguments Ok {A} a.
Arguments Err {A} e.

#[export] Instance error_eq_dec : EqDecision error.
Proof. solve_decision. Defined.

#[export] Instance result_eq_dec {A} `{EqDecision A} : EqDecision (result A).
Proof. solve_decision. Defined.

#[export] Instance result_ret : MRet result := λ A a, Ok a.
#[export] Instance result_bind : MBind result := λ A B f m,
  match m with Ok a => f a | Err e => Err e end.

Abbreviation row := (gmap string cell).

Section Pandas.
Context `{Scalars} `{!Library}.

(** [r[c]] for a row of a frame. *)
Definition cell_of (r : row) (c : string) : cell := default CNull (r !! c).

Definition len (df : DataFrame) : nat := length (rows df).

(** [df[c]]: the column as a list of cells; [KeyError] when [c] is no column. *)
Definition getitem (df : DataFrame) (c : string) : result (list cell) :=
  if decide (c ∈ columns df)
  then Ok ((λ r, cell_of r c) <$> rows df)
  else Err (KeyError c).

(** [df[c] = values] with [values] aligned to the rows of [df]. *)
Definition setitem (df : DataFrame) (c : string) (values : list cell) : DataFrame :=
  {| columns := if decide (c ∈ columns df) then columns df else columns df ++ [c];
     rows := zip_with (λ r v, <[c := v]> r) (rows df) values |}.

(** [drop_duplicates(subset=c)], keep="first": a row is kept unless an earlier
    row carried the same key.  pandas treats two missing keys as duplicates of
    each other, as syntactic equality on [cell] does. *)
Fixpoint drop_dups (key : row → cell) (seen : list cell) (rs : list row) : list row :=
  match rs with
  | [] => []
  | r :: rs' =>
      if decide (key r ∈ seen)
      then drop_dups key seen rs'
      else r :: drop_dups key (key r :: seen) rs'
  end.

Definition drop_duplicates (subset : string) (df : DataFrame) : result DataFrame :=
  if decide (subset ∈ columns df)
  then Ok {| columns := columns df;
             rows := drop_dups (λ r, cell_of r subset) [] (rows df) |}
  else Err (KeyError subset).

(** [pd.to_numeric(col, errors="coerce")] and
    [pd.to_datetime(col, errors="coerce")]. *)
Definition to_numeric (col : list cell) : list cell :=
  (λ c, match to_numeric_scalar col c with
        | Some n => CNum n
        | None => CNull
        end) <$> col.

Definition to_datetime (col : list cell) : list cell :=
  (λ c, match to_datetime_scalar col c with
        | Some t => CDatetime t
        | None => CNull
        end) <$> col.

(** [series.isin(values)] on one cell. *)
Definition isin (values : list cell) (c : cell) : bool :=
  bool_decide (c ∈ values).

(** [df[df[c].isin(values)]] *)
Definition mask_isin (df : DataFrame) (c : string) (values : list cell) : result DataFrame :=
  if decide (c ∈ columns df)
  then Ok {| columns := columns df;
             rows := filter (λ r, isin values (cell_of r c) = true) (rows df) |}
  else Err (KeyError c).

(** [df.isna().sum().sum()]: the null cells over all columns. *)
Definition isna_sum_sum (df : DataFrame) : nat :=
  sum_list ((λ r, length (filter (λ c, is_null (cell_of r c) = true) (columns df)))
            <$> rows df).

(** [series.isna().sum()] *)
Definition isna_sum (col : list cell) : nat :=
  length (filter (λ c, is_null c = true) col).

End Pandas.

(** ** The world: database schemas, log directory, clock, console *)

(** A row of [audit.rejected_rows] and of [log/silver/<table>_dq.csv]. *)
Record dq_record `{Scalars} := {
  table_name : string;
  missing_values : nat;
  invalid_values : nat;
  processed_at : datetime
}.

(** The dictionary [results] of [reconcile]. *)
Record results `{Scalars} := {
  silver_trips_sum : num;
  silver_payments_sum : num;
  gold_fact_sum : num;
  trips_count_silver : nat;
  payments_count_silver : nat;
  fact_trips_count_gold : nat;
  fare_diff_silver : num;
  silver_vs_gold_sum_diff : num;
  trips_count_diff : Z
}.

(** A row of [audit.reconciliation_log] and of [log/gold/reconciliation.csv]:
    the results and [checked_at]. *)
Record recon_record `{Scalars} := {
  metrics : results;
  checked_at : datetime
}.

(** Rows of the three Gold tables, with the columns their SELECT lists fix.
    The casts PostgreSQL applies on INSERT (ids to TEXT) are not modelled:
    a Gold column carries the cell it was computed from. *)
Record driver_performance_row `{Scalars} := {
  dp_driver_id : cell;
  dp_driver_name : cell;
  dp_vehicle_type : cell;
  dp_trips_count : nat;
  dp_total_fare : option num;
  dp_avg_fare : option num
}.

Record route_performance_row `{Scalars} := {
  rp_pickup_location : cell;
  rp_drop_location : cell;
  rp_trips_count : nat;
  rp_total_fare : option num;
  rp_avg_fare : option num
}.

Record fact_row `{Scalars} := {
  f_trip_id : cell;
  f_customer_id : cell;
  f_customer_name : cell;
  f_signup_date : cell;
  f_signup_month : cell;
  f_driver_id : cell;
  f_driver_name : cell;
  f_vehicle_type : cell;
  f_pickup_location : cell;
  f_drop_location : cell;
  f_trip_fare : cell;
  f_paid_fare : cell;
  f_mode_of_payment : cell;
  (** a nullable boolean: [None] is SQL's NULL *)
  f_fare_matches : option bool
}.

Record GoldTables `{Scalars} := {
  driver_performance : list driver_performance_row;
  route_performance : list route_performance_row;
  fact_trips_dashboard : list fact_row
}.

(** [clock] counts the calls of [datetime.now()] so far: the next call
    returns [now clock]. *)
Record World `{Scalars} := {
  bronze : gmap string DataFrame;
  silver : gmap string DataFrame;
  gold : option GoldTables;
  audit_rejected_rows : list dq_record;
  audit_reconciliation_log : list recon_record;
  (** [log/<layer>/<table>.csv], by (layer, table) *)
  log_snapshots : gmap (string * string) string;
  (** [log/silver/<table>_dq.csv], by table *)
  log_dq_csv : gmap string (list dq_record);
  (** [log/gold/reconciliation.csv] *)
  log_reconciliation_csv : option (list recon_record);
  clock : nat
}.

(** What a stage prints. *)
Inductive line `{Scalars} :=
| PrintMissingCsv (table : string)
| PrintSnapshot (layer table : string) (n_rows : nat) (checksum : string)
| PrintDQ (label : string) (n : nat)
| PrintReconciliation (r : results)
| PrintDone (stage : string).

(** Equality of records, tables and worlds is decidable, so that a run of
    the pipeline can be compared with its expected outcome by evaluation. *)
#[export] Instance dq_record_eq_dec `{Scalars} : EqDecision dq_record.
Proof. solve_decision. Defined.

#[export] Instance results_eq_dec `{Scalars} : EqDecision results.
Proof. solve_decision. Defined.

#[export] Instance recon_record_eq_dec `{Scalars} : EqDecision recon_record.
Proof. solve_decision. Defined.

#[export] Instance driver_performance_row_eq_dec `{Scalars} : EqDecision driver_performance_row.
Proof. solve_decision. Defined.

#[export] Instance route_performance_row_eq_dec `{Scalars} : EqDecision route_performance_row.
Proof. solve_decision. Defined.

#[export] Instance fact_row_eq_dec `{Scalars} : EqDecision fact_row.
Proof. solve_decision. Defined.

#[export] Instance GoldTables_eq_dec `{Scalars} : EqDecision GoldTables.
Proof. solve_decision. Defined.

#[export] Instance World_eq_dec `{Scalars} : EqDecision World.
Proof. solve_decision. Defined.

#[export] Instance line_eq_dec `{Scalars} : EqDecision line.
Proof. solve_decision. Defined.

Section Pipeline.
Context `{Scalars} `{!Library}.

(** ** Config *)

Definition BRONZE_FILES : list string := ["customers"; "drivers"; "trips"; "payments"].

Definition VALID_VEHICLE_TYPES : list cell :=
  [CStr "Sedan"; CStr "SUV"; CStr "Hatchback"; CStr "Mini"].

(** ** Helpers *)

(** [md5_checksum(path)] of a file with the given contents. *)
Definition md5_checksum (contents : string) : string := md5 contents.

(** [log_rows_and_checksum]: the snapshot file is rewritten ([to_csv] opens it
    for writing), the row count and checksum are only printed. *)
Definition log_rows_and_checksum (df : DataFrame) (layer table : string) (w : World)
  : World * line :=
  let out := to_csv df in
  ({| bronze := bronze w; silver := silver w; gold := gold w;
      audit_rejected_rows := audit_rejected_rows w;
      audit_reconciliation_log := audit_reconciliation_log w;
      log_snapshots := <[(layer, table) := out]> (log_snapshots w);
      log_dq_csv := log_dq_csv w;
      log_reconciliation_csv := log_reconciliation_csv w;
      clock := clock w |},
   PrintSnapshot layer table (len df) (md5_checksum out)).

(** [log_dq]: a one-row frame is written over [log/silver/<table>_dq.csv] and
    appended to [audit.rejected_rows] ([if_exists="append"]). *)
Definition log_dq (table : string) (missing invalid : nat) (w : World) : World :=
  let row := {| table_name := table; missing_values := missing;
                invalid_values := invalid; processed_at := now (clock w) |} in
  let df := [row] in
  {| bronze := bronze w; silver := silver w; gold := gold w;
     audit_rejected_rows := audit_rejected_rows w ++ df;
     audit_reconciliation_log := audit_reconciliation_log w;
     log_snapshots := log_snapshots w;
     log_dq_csv := <[table := df]> (log_dq_csv w);
     log_reconciliation_csv := log_reconciliation_csv w;
     clock := S (clock w) |}.

(** [log_reconciliation]: when [log/gold/reconciliation.csv] exists, [df] is
    rebound to the rows read back from it followed by the new row; that
    frame is written over the file, and the same frame, history included, is
    appended to [audit.reconciliation_log]. *)
Definition log_reconciliation (r : results) (w : World) : World :=
  let df := [{| metrics := r; checked_at := now (clock w) |}] in
  let df :=
    match log_reconciliation_csv w with
    | Some existing => existing ++ df
    | None => df
    end in
  {| bronze := bronze w; silver := silver w; gold := gold w;
     audit_rejected_rows := audit_rejected_rows w;
     audit_reconciliation_log := audit_reconciliation_log w ++ df;
     log_snapshots := log_snapshots w;
     log_dq_csv := log_dq_csv w;
     log_reconciliation_csv := Some df;
     clock := S (clock w) |}.

(** [df.to_sql(table, schema=..., if_exists="replace")] *)
Definition to_sql_bronze (table : string) (df : DataFrame) (w : World) : World :=
  {| bronze := <[table := df]> (bronze w); silver := silver w; gold := gold w;
     audit_rejected_rows := audit_rejected_rows w;
     audit_reconciliation_log := audit_reconciliation_log w;
     log_snapshots := log_snapshots w; log_dq_csv := log_dq_csv w;
     log_reconciliation_csv := log_reconciliation_csv w; clock := clock w |}.

Definition to_sql_silver (table : string) (df : DataFrame) (w : World) : World :=
  {| bronze := bronze w; silver := <[table := df]> (silver w); gold := gold w;
     audit_rejected_rows := audit_rejected_rows w;
     audit_reconciliation_log := audit_reconciliation_log w;
     log_snapshots := log_snapshots w; log_dq_csv := log_dq_csv w;
     log_reconciliation_csv := log_reconciliation_csv w; clock := clock w |}.

(** [pd.read_sql("SELECT * FROM <schema>.<table>")] *)
Definition read_sql (schema : string) (tables : gmap string DataFrame) (table : string)
  : result DataFrame :=
  match tables !! table with
  | Some df => Ok df
  | None => Err (UndefinedTable schema table)
  end.

(** ** Bronze *)

(** One turn of the loop of [load_bronze]; [raw] maps an entity to the frame
    [pd.read_csv] returns for its file, and has no entry when the file is
    absent. *)
Definition load_bronze_table (raw : gmap string DataFrame) (acc : World * list line)
  (table : string) : World * list line :=
  match raw !! table with
  | None => (acc.1, acc.2 ++ [PrintMissingCsv table])
  | Some df =>
      let '(w, l) := log_rows_and_checksum df "bronze" table (to_sql_bronze table df acc.1) in
      (w, acc.2 ++ [l])
  end.

Definition load_bronze (raw : gmap string DataFrame) (w : World)
  : result (World * list line) :=
  let '(w, out) := foldl (load_bronze_table raw) (w, []) BRONZE_FILES in
  Ok (w, out ++ [PrintDone "Bronze load complete."]).

(** ** Silver *)

Record SilverFrames := {
  df_customers : DataFrame;
  df_drivers : DataFrame;
  df_trips : DataFrame;
  df_payments : DataFrame
}.

#[export] Instance SilverFrames_eq_dec : EqDecision SilverFrames.
Proof. solve_decision. Defined.

(** Dedupe by PKs. *)
Definition silver_dedupe (b : SilverFrames) : result SilverFrames :=
  c ← drop_duplicates "customer_id" (df_customers b);
  d ← drop_duplicates "driver_id" (df_drivers b);
  t ← drop_duplicates "trip_id" (df_trips b);
  p ← drop_duplicates "payment_id" (df_payments b);
  mret {| df_customers := c; df_drivers := d; df_trips := t; df_payments := p |}.

(** Types. *)
Definition silver_types (b : SilverFrames) : result SilverFrames :=
  signup_date ← getitem (df_customers b) "signup_date";
  let c := setitem (df_customers b) "signup_date" (to_datetime signup_date) in
  trip_fare ← getitem (df_trips b) "trip_fare";
  let t := setitem (df_trips b) "trip_fare" (to_numeric trip_fare) in
  paid_fare ← getitem (df_payments b) "trip_fare";
  let p := setitem (df_payments b) "trip_fare" (to_numeric paid_fare) in
  mret {| df_customers := c; df_drivers := df_drivers b; df_trips := t; df_payments := p |}.

(** Enum normalization. *)
Definition silver_enum (b : SilverFrames) : result SilverFrames :=
  d ← (if decide ("vehicle_type" ∈ columns (df_drivers b))
       then mask_isin (df_drivers b) "vehicle_type" VALID_VEHICLE_TYPES
       else Ok (df_drivers b));
  mret {| df_customers := df_customers b; df_drivers := d;
          df_trips := df_trips b; df_payments := df_payments b |}.

(** FK checks.  The parents' key columns exist here (the dedupe read them),
    so only the children's lookups can raise. *)
Definition silver_fk (b : SilverFrames) : result SilverFrames :=
  customer_ids ← getitem (df_customers b) "customer_id";
  t ← mask_isin (df_trips b) "customer_id" customer_ids;
  driver_ids ← getitem (df_drivers b) "driver_id";
  t ← mask_isin t "driver_id" driver_ids;
  trip_ids ← getitem t "trip_id";
  p ← mask_isin (df_payments b) "trip_id" trip_ids;
  mret {| df_customers := df_customers b; df_drivers := df_drivers b;
          df_trips := t; df_payments := p |}.

(** The frames [build_silver] holds when it reaches its DQ checks. *)
Definition silver_frames (b : SilverFrames) : result SilverFrames :=
  b ← silver_dedupe b;
  b ← silver_types b;
  b ← silver_enum b;
  silver_fk b.

Definition read_bronze (w : World) : result SilverFrames :=
  c ← read_sql "bronze" (bronze w) "customers";
  d ← read_sql "bronze" (bronze w) "drivers";
  t ← read_sql "bronze" (bronze w) "trips";
  p ← read_sql "bronze" (bronze w) "payments";
  mret {| df_customers := c; df_drivers := d; df_trips := t; df_payments := p |}.

Definition build_silver (w : World) : result (World * list line) :=
  b ← read_bronze w;
  s ← silver_frames b;
  (* DQ checks *)
  let missing_customers := isna_sum_sum (df_customers s) in
  let missing_drivers := isna_sum_sum (df_drivers s) in
  trip_fare ← getitem (df_trips s) "trip_fare";
  let invalid_trip_fare := isna_sum trip_fare in
  paid_fare ← getitem (df_payments s) "trip_fare";
  let invalid_pay_fare := isna_sum paid_fare in
  let w := log_dq "customers" missing_customers 0 w in
  let w := log_dq "drivers" missing_drivers 0 w in
  let w := log_dq "trips" 0 invalid_trip_fare w in
  let w := log_dq "payments" 0 invalid_pay_fare w in
  (* Save Silver *)
  let w := to_sql_silver "customers" (df_customers s) w in
  let w := to_sql_silver "drivers" (df_drivers s) w in
  let w := to_sql_silver "trips" (df_trips s) w in
  let w := to_sql_silver "payments" (df_payments s) w in
  (* Log silver snapshots + checksums *)
  let '(w, l1) := log_rows_and_checksum (df_customers s) "silver" "customers" w in
  let '(w, l2) := log_rows_and_checksum (df_drivers s) "silver" "drivers" w in
  let '(w, l3) := log_rows_and_checksum (df_trips s) "silver" "trips" w in
  let '(w, l4) := log_rows_and_checksum (df_payments s) "silver" "payments" w in
  mret (w, [PrintDQ "Customers missing" missing_customers;
            PrintDQ "Drivers missing" missing_drivers;
            PrintDQ "Trips invalid fare" invalid_trip_fare;
            PrintDQ "Pays invalid fare" invalid_pay_fare;
            l1; l2; l3; l4; PrintDone "Silver build complete."]).

(** ** Gold: the SQL of [build_gold]

    Comparison is three-valued: [a = b] is NULL as soon as one side is NULL,
    and a join keeps a pair only when its ON condition is true.  Aggregates
    skip NULLs; [SUM] and [AVG] over no value are NULL. *)

Definition sql_eq (a b : cell) : option bool :=
  match a, b with
  | CNull, _ | _, CNull => None
  | _, _ => Some (bool_decide (a = b))
  end.

Definition is_true (o : option bool) : bool :=
  match o with Some true => true | _ => false end.

(** The value of a cell of a numeric column; after [to_numeric] such a
    column holds numbers and nulls only. *)
Definition sql_num (c : cell) : option num :=
  match c with CNum n => Some n | _ => None end.

Definition SUM (cs : list cell) : option num :=
  match omap sql_num cs with
  | [] => None
  | x :: xs => Some (foldl num_add x xs)
  end.

Definition AVG (cs : list cell) : option num :=
  match omap sql_num cs with
  | [] => None
  | x :: xs => Some (num_div (foldl num_add x xs) (num_of_nat (length (x :: xs))))
  end.

Definition COALESCE {A} (o : option A) (d : A) : A := default d o.

(** [COALESCE(c, 'Unknown')] on a cell. *)
Definition coalesce_cell (c d : cell) : cell :=
  match c with CNull => d | _ => c end.

(** The rows of a table a statement reads, once the table and every column
    the statement names exist. *)
Definition from_table (schema : string) (tables : gmap string DataFrame)
  (table : string) (referenced : list string) : result (list row) :=
  match tables !! table with
  | None => Err (UndefinedTable schema table)
  | Some df =>
      match filter (λ c, c ∉ columns df) referenced with
      | [] => Ok (rows df)
      | c :: _ => Err (UndefinedColumn table c)
      end
  end.

(** [FROM l JOIN rs ON on] *)
Definition inner_join {A} (on : A → row → bool) (l : list A) (rs : list row)
  : list (A * row) :=
  a ← l; (λ r, (a, r)) <$> filter (λ r, on a r = true) rs.

(** [FROM l LEFT JOIN rs ON on]: a left row with no partner is kept once,
    with NULLs on the right. *)
Definition left_join {A} (on : A → row → bool) (l : list A) (rs : list row)
  : list (A * option row) :=
  a ← l;
  match filter (λ r, on a r = true) rs with
  | [] => [(a, None)]
  | ms => (λ r, (a, Some r)) <$> ms
  end.

(** A column of the right side of a left join. *)
Definition ocell (o : option row) (c : string) : cell :=
  match o with Some r => cell_of r c | None => CNull end.

(** [GROUP BY key]: the groups, each with its rows in table order.  GROUP BY
    puts NULL keys in one group, as syntactic equality does. *)
Definition group_by {A K} `{EqDecision K} (key : A → K) (l : list A)
  : list (K * list A) :=
  (λ k, (k, filter (λ x, key x = k) l)) <$> remove_dups (key <$> l).

Definition driver_key (d : row) : cell * cell * cell :=
  (cell_of d "driver_id", cell_of d "driver_name", cell_of d "vehicle_type").

Definition trip_fare_of (t : row) : cell := cell_of t "trip_fare".

Definition select_driver_performance (trips drivers : list row)
  : list driver_performance_row :=
  let joined :=
    inner_join (λ t d, is_true (sql_eq (cell_of d "driver_id") (cell_of t "driver_id")))
               trips drivers in
  (λ '(k, g),
     {| dp_driver_id := k.1.1;
        dp_driver_name := k.1.2;
        dp_vehicle_type := k.2;
        dp_trips_count := length g;
        dp_total_fare := SUM ((λ td, trip_fare_of td.1) <$> g);
        dp_avg_fare := AVG ((λ td, trip_fare_of td.1) <$> g) |})
  <$> group_by (λ td, driver_key td.2) joined.

Definition select_route_performance (trips : list row) : list route_performance_row :=
  (λ '(k, g),
     {| rp_pickup_location := k.1;
        rp_drop_location := k.2;
        rp_trips_count := length g;
        rp_total_fare := SUM (trip_fare_of <$> g);
        rp_avg_fare := AVG (trip_fare_of <$> g) |})
  <$> group_by (λ t, (cell_of t "pickup_location", cell_of t "drop_location")) trips.

(** [DATE_TRUNC('month', c.signup_date)::date] *)
Definition signup_month (c : cell) : cell :=
  match c with CDatetime t => CDatetime (date_trunc_month t) | _ => CNull end.

Definition fact_of (t : row) (c d p : option row) : fact_row :=
  {| f_trip_id := cell_of t "trip_id";
     f_customer_id := cell_of t "customer_id";
     f_customer_name := ocell c "customer_name";
     f_signup_date := ocell c "signup_date";
     f_signup_month := signup_month (ocell c "signup_date");
     f_driver_id := cell_of t "driver_id";
     f_driver_name := ocell d "driver_name";
     f_vehicle_type := ocell d "vehicle_type";
     f_pickup_location := cell_of t "pickup_location";
     f_drop_location := cell_of t "drop_location";
     f_trip_fare := cell_of t "trip_fare";
     f_paid_fare := ocell p "trip_fare";
     f_mode_of_payment := coalesce_cell (ocell p "mode_of_payment") (CStr "Unknown");
     f_fare_matches := sql_eq (ocell p "trip_fare") (cell_of t "trip_fare") |}.

Definition on_key (child parent : string) (t r : row) : bool :=
  is_true (sql_eq (cell_of r parent) (cell_of t child)).

Definition select_fact_trips_dashboard (trips customers drivers payments : list row)
  : list fact_row :=
  let tc := left_join (on_key "customer_id" "customer_id") trips customers in
  let tcd := left_join (λ x, on_key "driver_id" "driver_id" x.1) tc drivers in
  let tcdp := left_join (λ x, on_key "trip_id" "trip_id" x.1.1) tcd payments in
  (λ x, fact_of x.1.1.1 x.1.1.2 x.1.2 x.2) <$> tcdp.

Definition set_gold (g : GoldTables) (w : World) : World :=
  {| bronze := bronze w; silver := silver w; gold := Some g;
     audit_rejected_rows := audit_rejected_rows w;
     audit_reconciliation_log := audit_reconciliation_log w;
     log_snapshots := log_snapshots w; log_dq_csv := log_dq_csv w;
     log_reconciliation_csv := log_reconciliation_csv w; clock := clock w |}.

(** The three statements run in one transaction ([engine.begin()]): each
    table is truncated and repopulated, or nothing changes. *)
Definition build_gold (w : World) : result (World * list line) :=
  (* driver_performance *)
  t ← from_table "silver" (silver w) "trips" ["trip_fare"; "driver_id"];
  d ← from_table "silver" (silver w) "drivers" ["driver_id"; "driver_name"; "vehicle_type"];
  let dp := select_driver_performance t d in
  (* route_performance *)
  t ← from_table "silver" (silver w) "trips" ["pickup_location"; "drop_location"; "trip_fare"];
  let rp := select_route_performance t in
  (* fact_trips_dashboard *)
  t ← from_table "silver" (silver w) "trips"
        ["trip_id"; "customer_id"; "driver_id"; "pickup_location"; "drop_location"; "trip_fare"];
  c ← from_table "silver" (silver w) "customers" ["customer_name"; "signup_date"; "customer_id"];
  d ← from_table "silver" (silver w) "drivers" ["driver_name"; "vehicle_type"; "driver_id"];
  p ← from_table "silver" (silver w) "payments" ["trip_fare"; "mode_of_payment"; "trip_id"];
  let fact := select_fact_trips_dashboard t c d p in
  mret (set_gold {| driver_performance := dp; route_performance := rp;
                    fact_trips_dashboard := fact |} w,
        [PrintDone "Gold layer built: driver_performance, route_performance, fact_trips_dashboard"]).

(** ** Reconciliation *)

Definition reconcile (w : World) : result (World * list line) :=
  (* Pull aggregates *)
  t ← from_table "silver" (silver w) "trips" ["trip_fare"];
  p ← from_table "silver" (silver w) "payments" ["trip_fare"];
  g ← match gold w with
      | Some g => Ok (fact_trips_dashboard g)
      | None => Err (UndefinedTable "gold" "fact_trips_dashboard")
      end;
  (* [pd.read_sql] hands each sum over as a float64 *)
  let silver_trips_sum := num_float (COALESCE (SUM (trip_fare_of <$> t)) num_zero) in
  let silver_pay_sum := num_float (COALESCE (SUM (trip_fare_of <$> p)) num_zero) in
  let gold_fact_sum := num_float (COALESCE (SUM (f_trip_fare <$> g)) num_zero) in
  let trips_count_s := length t in
  let pays_count_s := length p in
  let fact_count_g := length g in
  (* [float] of a float64 is that float64; the difference of two float64
     values is the float64 their difference is rounded to *)
  let results :=
    {| silver_trips_sum := silver_trips_sum;
       silver_payments_sum := silver_pay_sum;
       gold_fact_sum := gold_fact_sum;
       trips_count_silver := trips_count_s;
       payments_count_silver := pays_count_s;
       fact_trips_count_gold := fact_count_g;
       fare_diff_silver := num_float (num_sub silver_trips_sum silver_pay_sum);
       silver_vs_gold_sum_diff := num_float (num_sub silver_trips_sum gold_fact_sum);
       trips_count_diff := (Z.of_nat trips_count_s - Z.of_nat fact_count_g)%Z |} in
  mret (log_reconciliation results w,
        [PrintReconciliation results; PrintDone "Reconciliation logged (CSV + DB)."]).

(** ** The stages of the command line *)

Inductive stage :=
| LoadBronze (raw : gmap string DataFrame)
| BuildSilver
| BuildGold
| Reconcile.

Definition run_stage (s : stage) (w : World) : result (World * list line) :=
  match s with
  | LoadBronze raw => load_bronze raw w
  | BuildSilver => build_silver w
  | BuildGold => build_gold w
  | Reconcile => reconcile w
  end.

(** The world a stage leaves: an exception leaves it as it was. *)
Definition after (s : stage) (w : World) : World :=
  match run_stage s w with
  | Ok (w', _) => w'
  | Err _ => w
  end.

End Pipeline.

(** ** The command line of [etl.py]

    An uncaught exception ends the process: the stages that ran keep their
    effects, the later ones do not run. *)

Section CommandLine.
Context `{Scalars} `{!Library}.

Definition STEP_CHOICES : list string :=
  ["extract"; "load_bronze"; "build_silver"; "build_gold"; "all"].

Record outcome := {
  final : World;
  console : list line;
  raised : option error
}.

#[export] Instance outcome_eq_dec : EqDecision outcome.
Proof. solve_decision. Defined.

(** One more call in a run that may already have raised. *)
Definition and_then (o : outcome) (f : World → result (World * list line)) : outcome :=
  match raised o with
  | Some _ => o
  | None =>
      match f (final o) with
      | Ok (w, out) => {| final := w; console := console o ++ out; raised := None |}
      | Err e => {| final := final o; console := console o; raised := Some e |}
      end
  end.

(** The [__main__] block: [step] is the positional argument when one is
    given; argparse refuses a step that is no choice before any stage runs
    ([None]). *)
Definition main (step : option string) (raw : gmap string DataFrame) (w : World)
  : option outcome :=
  let step := default "all" step in
  if decide (step ∈ STEP_CHOICES) then
    let o := {| final := w; console := []; raised := None |} in
    let o := if decide (step ∈ ["extract"; "load_bronze"; "all"])
             then and_then o (load_bronze raw) else o in
    let o := if decide (step ∈ ["build_silver"; "all"])
             then and_then o build_silver else o in
    let o := if decide (step ∈ ["build_gold"; "all"])
             then and_then (and_then o build_gold) reconcile else o in
    Some o
  else None.

End CommandLine.

(** ** The script [silver_etl.py]

    The Silver transformation once more, at the top level of a script: the
    vehicle-type filter is not guarded, nothing is written to the audit
    schema or to [log/]. *)

Section SilverScript.
Context `{Scalars} `{!Library}.

Definition valid_vehicle_types : list cell :=
  [CStr "Sedan"; CStr "SUV"; CStr "Hatchback"; CStr "Mini"].

(** 5. Enum normalization *)
Definition silver_etl_enum (b : SilverFrames) : result SilverFrames :=
  d ← mask_isin (df_drivers b) "vehicle_type" valid_vehicle_types;
  mret {| df_customers := df_customers b; df_drivers := d;
          df_trips := df_trips b; df_payments := df_payments b |}.

(** [df[df[c].isna()].shape[0]] *)
Definition isna_rows (df : DataFrame) (c : string) : result nat :=
  _ ← getitem df c;
  mret (length (filter (λ r, is_null (cell_of r c) = true) (rows df))).

Definition silver_etl (w : World) : result (World * list line) :=
  (* 2. Read Bronze tables *)
  b ← read_bronze w;
  (* 3. Remove duplicates *)
  b ← silver_dedupe b;
  (* 4. Type enforcement *)
  b ← silver_types b;
  b ← silver_etl_enum b;
  (* 6. Foreign Key (FK) checks *)
  s ← silver_fk b;
  (* 7. Data Quality (DQ) checks *)
  let missing_customers := isna_sum_sum (df_customers s) in
  let missing_drivers := isna_sum_sum (df_drivers s) in
  invalid_trip_fare ← isna_rows (df_trips s) "trip_fare";
  invalid_payment_fare ← isna_rows (df_payments s) "trip_fare";
  (* 8. Save to Silver schema *)
  let w := to_sql_silver "customers" (df_customers s) w in
  let w := to_sql_silver "drivers" (df_drivers s) w in
  let w := to_sql_silver "trips" (df_trips s) w in
  let w := to_sql_silver "payments" (df_payments s) w in
  mret (w, [PrintDQ "Customers with missing values" missing_customers;
            PrintDQ "Drivers with missing values" missing_drivers;
            PrintDQ "Trips with invalid fare" invalid_trip_fare;
            PrintDQ "Payments with invalid fare" invalid_payment_fare;
            PrintDone "Silver tables created and loaded successfully!"]).

End SilverScript.

(** ** The loader of [main.py] *)

(** [Series.dt.date]: the calendar date of a timestamp. *)
Class DateAccessor `{Scalars} := {
  dt_date : datetime → datetime
}.

(** A row whose cells were converted column by column. *)
Definition cast_row `{Scalars} (cast : string → cell → cell) (r : gmap string cell)
  : gmap string cell :=
  map_imap (λ c v, Some (cast c v)) r.

(** [INSERT] into a table that exists converts every value to the type of
    its column: [insert_cast old c v] is what column [c] of the table [old]
    stores, and hands back to [read_sql], for an inserted [v] (a date
    inserted into a TEXT column comes back as text).  Two facts of
    PostgreSQL are assumed: inserting rows does not change the types of the
    columns, and a value the table holds under a column is stored as it is
    when it is inserted there again. *)
Class Postgres `{Scalars} := {
  insert_cast : DataFrame → string → cell → cell;
  insert_cast_inserted : ∀ old rs c v,
    insert_cast {| columns := columns old;
                   rows := rows old ++ (cast_row (insert_cast old) <$> rs) |} c v
    = insert_cast old c v;
  insert_cast_stored : ∀ old r c,
    r ∈ rows old → insert_cast old c (cell_of r c) = cell_of r c
}.

Inductive loader_line :=
| PrintLoaded (row_count : nat) (schema table : string)
| PrintChecksum (checksum : string).

#[export] Instance loader_line_eq_dec : EqDecision loader_line.
Proof. solve_decision. Defined.

Section Loader.
Context `{Scalars} `{!Library} `{!DateAccessor} `{!Postgres}.

(** [checksum(file_path)] of a file with the given bytes. *)
Definition checksum (contents : string) : string := md5 contents.

(** [pd.to_datetime(col, errors='coerce').dt.date] *)
Definition to_date (col : list cell) : list cell :=
  (λ c, match c with CDatetime t => CDatetime (dt_date t) | _ => c end) <$> to_datetime col.

(** The loop over [date_cols]: a label that is no column raises. *)
Fixpoint convert_date_cols (date_cols : list string) (df : DataFrame) : result DataFrame :=
  match date_cols with
  | [] => Ok df
  | col :: date_cols' =>
      values ← getitem df col;
      convert_date_cols date_cols' (setitem df col (to_date values))
  end.

(** [df.to_sql(table, schema="bronze", if_exists="append")]: the table is
    created from the frame when it is not there; otherwise the rows are
    inserted under the frame's labels, which the table must have, each value
    converted to the type of its column, and a label of the table that the
    frame lacks is left null. *)
Definition to_sql_append (table : string) (df : DataFrame) (tables : gmap string DataFrame)
  : result (gmap string DataFrame) :=
  match tables !! table with
  | None => Ok (<[table := df]> tables)
  | Some old =>
      match filter (λ c, c ∉ columns old) (columns df) with
      | [] => Ok (<[table := {| columns := columns old;
                               rows := rows old ++ (cast_row (insert_cast old) <$> rows df) |}]>
                    tables)
      | c :: _ => Err (UndefinedColumn table c)
      end
  end.

(** [load_csv_to_postgres(file_path, table_name, date_cols=...)] with the
    default schema; [contents] are the bytes of the file and [csv] the frame
    [pd.read_csv] makes of them. *)
Definition load_csv_to_postgres (contents : string) (csv : DataFrame) (table_name : string)
  (date_cols : list string) (w : World) : result (World * list loader_line) :=
  df ← convert_date_cols date_cols csv;
  let row_count := len df in
  tables ← to_sql_append table_name df (bronze w);
  mret ({| bronze := tables; silver := silver w; gold := gold w;
           audit_rejected_rows := audit_rejected_rows w;
           audit_reconciliation_log := audit_reconciliation_log w;
           log_snapshots := log_snapshots w; log_dq_csv := log_dq_csv w;
           log_reconciliation_csv := log_reconciliation_csv w; clock := clock w |},
        [PrintLoaded row_count "bronze" table_name; PrintChecksum (checksum contents)]).

End Loader.

(** ** Vocabulary of the properties *)

Section Vocabulary.
Context `{Scalars} `{!Library}.

(** The column [c] of a frame, whether or not [c] is one of its labels. *)
Definition column (c : string) (df : DataFrame) : list cell :=
  (λ r, cell_of r c) <$> rows df.

(** The first row of [rs] whose key is [k]. *)
Definition first_with (key : row → cell) (k : cell) (rs : list row) : option row :=
  head (filter (λ r, key r = k) rs).

(** The frames each step of [silver_frames] hands to the next when it does
    not raise. *)
Definition dedupe_frame (c : string) (df : DataFrame) : DataFrame :=
  {| columns := columns df; rows := drop_dups (λ r, cell_of r c) [] (rows df) |}.

Definition keep_isin (c : string) (values : list cell) (df : DataFrame) : DataFrame :=
  {| columns := columns df;
     rows := filter (λ r, isin values (cell_of r c) = true) (rows df) |}.

Definition deduped (b : SilverFrames) : SilverFrames :=
  {| df_customers := dedupe_frame "customer_id" (df_customers b);
     df_drivers := dedupe_frame "driver_id" (df_drivers b);
     df_trips := dedupe_frame "trip_id" (df_trips b);
     df_payments := dedupe_frame "payment_id" (df_payments b) |}.

Definition typed (b : SilverFrames) : SilverFrames :=
  {| df_customers :=
       setitem (df_customers b) "signup_date" (to_datetime (column "signup_date" (df_customers b)));
     df_drivers := df_drivers b;
     df_trips :=
       setitem (df_trips b) "trip_fare" (to_numeric (column "trip_fare" (df_trips b)));
     df_payments :=
       setitem (df_payments b) "trip_fare" (to_numeric (column "trip_fare" (df_payments b))) |}.

Definition enum_checked (b : SilverFrames) : SilverFrames :=
  {| df_customers := df_customers b;
     df_drivers :=
       if decide ("vehicle_type" ∈ columns (df_drivers b))
       then keep_isin "vehicle_type" VALID_VEHICLE_TYPES (df_drivers b)
       else df_drivers b;
     df_trips := df_trips b;
     df_payments := df_payments b |}.

Definition fk_trips (b : SilverFrames) : DataFrame :=
  keep_isin "driver_id" (column "driver_id" (df_drivers b))
    (keep_isin "customer_id" (column "customer_id" (df_customers b)) (df_trips b)).

Definition fk_checked (b : SilverFrames) : SilverFrames :=
  {| df_customers := df_customers b;
     df_drivers := df_drivers b;
     df_trips := fk_trips b;
     df_payments := keep_isin "trip_id" (column "trip_id" (fk_trips b)) (df_payments b) |}.

(** A frame whose column [c] was coerced: same labels, same number of rows,
    and row by row the cell under [c] is the converted value, or null when
    the conversion fails, every other cell being untouched. *)
Definition coerced_to (c : string) (convert : list cell → cell → option cell)
  (df df' : DataFrame) : Prop :=
  columns df' = columns df ∧
  len df' = len df ∧
  ∀ (i : nat) (r : row), rows df !! i = Some r →
    ∃ r', rows df' !! i = Some r' ∧
      cell_of r' c = default CNull (convert (column c df) (cell_of r c)) ∧
      ∀ c', c' ≠ c → r' !! c' = r !! c'.


(** The non-null fares of some rows. *)
Definition fares (rs : list row) : list num := omap sql_num (trip_fare_of <$> rs).



(** The four Silver tables of a world, when they are all there. *)
Definition silver_snapshot (w : World) : option SilverFrames :=
  c ← silver w !! "customers";
  d ← silver w !! "drivers";
  t ← silver w !! "trips";
  p ← silver w !! "payments";
  Some {| df_customers := c; df_drivers := d; df_trips := t; df_payments := p |}.

(** The four Bronze tables of a world, when they are all there. *)
Definition bronze_snapshot (w : World) : option SilverFrames :=
  c ← bronze w !! "customers";
  d ← bronze w !! "drivers";
  t ← bronze w !! "trips";
  p ← bronze w !! "payments";
  Some {| df_customers := c; df_drivers := d; df_trips := t; df_payments := p |}.

(** The columns [build_silver] reads without a guard. *)
Definition silver_columns_present (b : SilverFrames) : Prop :=
  ["customer_id"; "signup_date"] ⊆ columns (df_customers b) ∧
  ["driver_id"] ⊆ columns (df_drivers b) ∧
  ["trip_id"; "trip_fare"; "customer_id"; "driver_id"] ⊆ columns (df_trips b) ∧
  ["payment_id"; "trip_fare"; "trip_id"] ⊆ columns (df_payments b).

Definition number_or_null (c : cell) : Prop := c = CNull ∨ ∃ n, c = CNum n.

Definition datetime_or_null (c : cell) : Prop := c = CNull ∨ ∃ t, c = CDatetime t.

(** The route of a trip, as [route_performance] groups by it. *)
Definition route_of (t : row) : cell * cell :=
  (cell_of t "pickup_location", cell_of t "drop_location").

(** The records [log/gold/reconciliation.csv] holds, an absent file holding
    none. *)
Definition reconciliation_file (w : World) : list recon_record :=
  default [] (log_reconciliation_csv w).

(** The snapshots a stage takes when it returns in [w']: the Bronze load one
    of every extract that is there, the Silver build one of each of the four
    Silver tables. *)
Definition snapshot_taken (st : stage) (w' : World) (layer table : string) (df : DataFrame)
  : Prop :=
  table ∈ BRONZE_FILES ∧
  match st with
  | LoadBronze raw => layer = "bronze" ∧ raw !! table = Some df
  | BuildSilver => layer = "silver" ∧ silver w' !! table = Some df
  | BuildGold | Reconcile => False
  end.

(** The three tables [build_gold] selects from four Silver frames. *)
Definition gold_tables_of (s : SilverFrames) : GoldTables :=
  {| driver_performance :=
       select_driver_performance (rows (df_trips s)) (rows (df_drivers s));
     route_performance := select_route_performance (rows (df_trips s));
     fact_trips_dashboard :=
       select_fact_trips_dashboard (rows (df_trips s)) (rows (df_customers s))
         (rows (df_drivers s)) (rows (df_payments s)) |}.

(** The columns the statements of [build_gold] name. *)
Definition gold_columns_present (s : SilverFrames) : Prop :=
  ["customer_name"; "signup_date"; "customer_id"] ⊆ columns (df_customers s) ∧
  ["driver_id"; "driver_name"; "vehicle_type"] ⊆ columns (df_drivers s) ∧
  ["trip_id"; "customer_id"; "driver_id"; "pickup_location"; "drop_location"; "trip_fare"]
    ⊆ columns (df_trips s) ∧
  ["trip_fare"; "mode_of_payment"; "trip_id"] ⊆ columns (df_payments s).

(** The nine metrics, as [reconcile] derives them from the rows of the Silver
    trips and payments and of the fact table. *)
Definition metrics_of (t p : list row) (g : list fact_row) : results :=
  {| silver_trips_sum := num_float (COALESCE (SUM (trip_fare_of <$> t)) num_zero);
     silver_payments_sum := num_float (COALESCE (SUM (trip_fare_of <$> p)) num_zero);
     gold_fact_sum := num_float (COALESCE (SUM (f_trip_fare <$> g)) num_zero);
     trips_count_silver := length t;
     payments_count_silver := length p;
     fact_trips_count_gold := length g;
     fare_diff_silver :=
       num_float (num_sub (num_float (COALESCE (SUM (trip_fare_of <$> t)) num_zero))
                          (num_float (COALESCE (SUM (trip_fare_of <$> p)) num_zero)));
     silver_vs_gold_sum_diff :=
       num_float (num_sub (num_float (COALESCE (SUM (trip_fare_of <$> t)) num_zero))
                          (num_float (COALESCE (SUM (f_trip_fare <$> g)) num_zero)));
     trips_count_diff := (Z.of_nat (length t) - Z.of_nat (length g))%Z |}.

(** What [load_bronze] makes of the Bronze tables: each entity whose file is
    there is replaced by the file's frame. *)
Definition bronze_loaded (raw tables : gmap string DataFrame) (table : string)
  : option DataFrame :=
  match (if decide (table ∈ BRONZE_FILES) then raw !! table else None) with
  | Some df => Some df
  | None => tables !! table
  end.

(** The line [load_bronze] prints for an entity. *)
Definition bronze_line (raw : gmap string DataFrame) (table : string) : line :=
  match raw !! table with
  | Some df => PrintSnapshot "bronze" table (len df) (md5_checksum (to_csv df))
  | None => PrintMissingCsv table
  end.

(** The counts a run prints as data-quality warnings, in order. *)
Definition dq_counts (out : list line) : list nat :=
  omap (λ l, match l with PrintDQ _ n => Some n | _ => None end) out.

End Vocabulary.

(** Inclusions of a literal list of labels, taken apart and put together. *)
Ltac split_labels :=
  repeat match goal with
         | H : _ :: _ ⊆ _ |- _ => apply list_subseteq_cons_iff in H as [? H]
         end.

Ltac solve_labels :=
  repeat (apply list_subseteq_cons_iff; split; [done|]); apply list_subseteq_nil.

(** ** A concrete runtime

    Integers for numbers, ISO strings for dates, and small stand-ins for the
    parsers, the CSV writer and the digest, to run the pipeline on data. *)

Module Run.

Definition digit_of (a : ascii) : option Z :=
  let n := Z.of_nat (nat_of_ascii a) in
  if ((48 <=? n) && (n <=? 57))%Z then Some (n - 48)%Z else None.

Fixpoint parse_digits (acc : Z) (s : string) : option Z :=
  match s with
  | EmptyString => Some acc
  | String a s' =>
      match digit_of a with
      | Some d => parse_digits (acc * 10 + d)%Z s'
      | None => None
      end
  end.

Definition parse_number (s : string) : option Z :=
  match s with
  | EmptyString => None
  | _ => parse_digits 0 s
  end.

(** YYYY-MM-DD *)
Definition parse_date (s : string) : option string :=
  if (String.length s =? 10)%nat then Some s else None.

(** The float64 nearest to an integer, ties to even: an integer below 2^53
    in absolute value is a float64; past that the low bits are rounded
    away. *)
Definition round_float (z : Z) : Z :=
  let a := Z.abs z in
  if (a <? 2 ^ 53)%Z then z
  else
    let e := (Z.log2 a - 52)%Z in
    let q := Z.shiftr a e in
    let r := Z.land a (Z.ones e) in
    let half := Z.shiftl 1 (e - 1) in
    let q := if (half <? r)%Z then (q + 1)%Z
             else if (r =? half)%Z then (if Z.even q then q else q + 1)%Z
             else q in
    (Z.sgn z * Z.shiftl q e)%Z.

#[export] Instance scalars : Scalars := {|
  num := Z;
  datetime := string;
  num_zero := 0%Z;
  num_add := Z.add;
  num_sub := Z.sub;
  num_div := Z.div;
  num_of_nat := Z.of_nat;
  num_float := round_float;
  date_trunc_month := λ s, (String.substring 0 8 s +:+ "01")%string
|}.

Definition show_cell (c : cell) : string :=
  match c with
  | CNull => ""
  | CStr s => s
  | CNum n => if (n <? 0)%Z then "-" +:+ pretty (Z.abs n) else pretty n
  | CDatetime t => t
  end.

Definition join_with (sep : string) (l : list string) : string :=
  match l with
  | [] => ""
  | x :: xs => foldl (λ acc y, acc +:+ sep +:+ y) x xs
  end.

Definition write_csv (df : DataFrame) : string :=
  join_with "|" (join_with "," (columns df)
                 :: ((λ r, join_with "," ((λ c, show_cell (default CNull (r !! c))) <$> columns df))
                     <$> rows df)).

(** Not MD5: a checksum that is a function of the bytes, which is all the
    pipeline uses of it. *)
Definition digest (s : string) : string :=
  pretty (foldl (λ acc a, (acc * 31 + Z.of_nat (nat_of_ascii a)) mod 65521)%Z 7%Z
                (String.list_ascii_of_string s)).

#[export] Instance library : Library := {|
  to_numeric_scalar := λ _ c,
    match c with CNum n => Some n | CStr s => parse_number s | _ => None end;
  to_datetime_scalar := λ _ c,
    match c with CDatetime t => Some t | CStr s => parse_date s | _ => None end;
  to_csv := write_csv;
  md5 := digest;
  now := λ n, "reading " +:+ pretty (Z.of_nat n)
|}.

(** A row, and a frame, from a header and the values under it. *)
Definition record (header : list string) (values : list cell) : row :=
  list_to_map (zip header values).

Definition frame (header : list string) (records : list (list cell)) : DataFrame :=
  {| columns := header; rows := record header <$> records |}.

Definition empty_world : World :=
  {| bronze := ∅; silver := ∅; gold := None;
     audit_rejected_rows := []; audit_reconciliation_log := [];
     log_snapshots := ∅; log_dq_csv := ∅; log_reconciliation_csv := None;
     clock := 0 |}.

Definition customers_header := ["customer_id"; "customer_name"; "signup_date"].
Definition drivers_header := ["driver_id"; "driver_name"; "vehicle_type"].
Definition trips_header :=
  ["trip_id"; "customer_id"; "driver_id"; "pickup_location"; "drop_location"; "trip_fare"].
Definition payments_header := ["payment_id"; "trip_id"; "trip_fare"; "mode_of_payment"].

Definition alice := [CStr "C1"; CStr "Alice"; CStr "2024-01-10"].
Definition trip1 (fare : cell) :=
  [CStr "T1"; CStr "C1"; CStr "D1"; CStr "A"; CStr "B"; fare].
Definition payment (id : string) (fare : cell) :=
  [CStr id; CStr "T1"; fare; CStr "Card"].

(** The extracts of a run: one customer, one trip, and the given drivers,
    trip fare and payments. *)
Definition raw_store (drivers : list (list cell)) (fare : cell)
  (payments : list (list cell)) : gmap string DataFrame :=
  list_to_map
    [("customers", frame customers_header [alice]);
     ("drivers", frame drivers_header drivers);
     ("trips", frame trips_header [trip1 fare]);
     ("payments", frame payments_header payments)].

Definition bob := [CStr "D1"; CStr "Bob"; CStr "Sedan"].
Definition bob_van := [CStr "D1"; CStr "Bob"; CStr "Van"].

(** The scenario of the specification: everything valid. *)
Definition raw_valid := raw_store [bob] (CNum 100%Z) [payment "P1" (CNum 100%Z)].
(** The driver drives a van. *)
Definition raw_van := raw_store [bob_van] (CNum 100%Z) [payment "P1" (CNum 100%Z)].
(** The driver id occurs twice, the valid row first. *)
Definition raw_dup_driver := raw_store [bob; bob_van] (CNum 100%Z) [payment "P1" (CNum 100%Z)].
(** A trip whose fare does not parse. *)
Definition raw_bad_fare := raw_store [bob] (CStr "n/a") [payment "P1" (CNum 100%Z)].
(** Drivers without a vehicle_type column. *)
Definition raw_no_vehicle_type : gmap string DataFrame :=
  <["drivers" := frame ["driver_id"; "driver_name"] [[CStr "D1"; CStr "Bob"]]]> raw_valid.

(** Worlds after a sequence of stages, starting from nothing. *)
Definition run (stages : list stage) : World := foldl (λ w s, after s w) empty_world stages.

Definition pipeline (raw : gmap string DataFrame) : list stage :=
  [LoadBronze raw; BuildSilver; BuildGold; Reconcile].

Definition bronze_frames (raw : gmap string DataFrame) : SilverFrames :=
  {| df_customers := default (frame [] []) (raw !! "customers");
     df_drivers := default (frame [] []) (raw !! "drivers");
     df_trips := default (frame [] []) (raw !! "trips");
     df_payments := default (frame [] []) (raw !! "payments") |}.

(** The frames [build_silver] computes from these extracts. *)
Definition silver_of (raw : gmap string DataFrame) : SilverFrames :=
  match silver_frames (bronze_frames raw) with
  | Ok s => s
  | Err _ => bronze_frames raw
  end.

(** The worlds along a first run of the pipeline. *)
Definition bronze_world (raw : gmap string DataFrame) : World := run [LoadBronze raw].
Definition silver_world (raw : gmap string DataFrame) : World :=
  run [LoadBronze raw; BuildSilver].
Definition gold_world (raw : gmap string DataFrame) : World :=
  run [LoadBronze raw; BuildSilver; BuildGold].

Definition printed (r : result (World * list line)) : list line :=
  match r with
  | Ok (_, out) => out
  | Err _ => []
  end.

Definition silver_table (w : World) (table : string) : DataFrame :=
  default (frame [] []) (silver w !! table).


Definition gold_tables (w : World) : GoldTables :=
  default {| driver_performance := []; route_performance := [];
             fact_trips_dashboard := [] |} (gold w).

(** The outcome of a full run of the command line on an empty database. *)
Definition full_run (raw : gmap string DataFrame) : outcome :=
  default {| final := empty_world; console := []; raised := None |}
          (main (Some "all") raw empty_world).

(** The calendar date of an ISO timestamp: its first ten characters. *)
#[export] Instance date_accessor : DateAccessor := {|
  dt_date := λ t, String.substring 0 10 t
|}.

(** A stand-in for the types of the columns of a table: a column that holds
    text and nulls only is TEXT and stores what is inserted as text; any
    other column stores a value as it is. *)
Definition is_text (c : cell) : bool :=
  match c with CNull | CStr _ => true | _ => false end.

Definition as_text (c : cell) : cell :=
  match c with CNum _ | CDatetime _ => CStr (show_cell c) | _ => c end.

Definition text_cast (old : DataFrame) (c : string) (v : cell) : cell :=
  if forallb (λ r, is_text (cell_of r c)) (rows old) then as_text v else v.

#[export, refine] Instance postgres : Postgres := {| insert_cast := text_cast |}.
Proof.
  - intros old rs c v. unfold text_cast at 1 3. cbn [rows]. rewrite forallb_app.
    destruct (forallb _ (rows old)) eqn:Hold; [|done].
    assert (forallb (λ r, is_text (cell_of r c)) (cast_row (text_cast old) <$> rs) = true)
      as ->; [|done].
    induction rs as [|r rs IH]; [done|]. rewrite fmap_cons. cbn [forallb].
    rewrite IH, andb_true_r. unfold cell_of, cast_row. rewrite map_lookup_imap.
    destruct (r !! c) as [x|]; [|done]. cbn. unfold text_cast. rewrite Hold.
    by destruct x.
  - intros old r c Hr. unfold text_cast.
    destruct (forallb _ (rows old)) eqn:Hall; [|done].
    assert (is_text (cell_of r c) = true) as Ht.
    { revert Hall Hr. induction (rows old) as [|r0 l IH]; intros Hall Hr;
        [by apply elem_of_nil in Hr|].
      cbn [forallb] in Hall. apply andb_true_iff in Hall as [H1 H2].
      apply elem_of_cons in Hr as [->|Hr]; [done|by apply IH]. }
    by destruct (cell_of r c).
Defined.



(** The customers extract as [main.py] reads it. *)
Definition customers_bytes : string :=
  "customer_id,customer_name,signup_date|C1,Alice,2024-01-10".

Definition customers_csv : DataFrame := frame customers_header [alice].

Definition load_customers (w : World) : result (World * list loader_line) :=
  load_csv_to_postgres customers_bytes customers_csv "customers" ["signup_date"] w.

Definition loaded (r : result (World * list loader_line)) : World :=
  match r with
  | Ok (w, _) => w
  | Err _ => empty_world
  end.

Definition loader_printed (r : result (World * list loader_line)) : list loader_line :=
  match r with
  | Ok (_, out) => out
  | Err _ => []
  end.

End Run.

(** * Properties *)

(** ** Deduplication *)

Section Dedup.
Context `{Scalars}.
Implicit Types (key : row → cell) (seen : list cell) (rs : list row) (k : cell).

Lemma elem_of_drop_dups_keys key seen rs k :
  k ∈ key <$> drop_dups key seen rs ↔ k ∈ key <$> rs ∧ k ∉ seen.
Proof.
  revert seen. induction rs as [|r rs IH]; intros seen; simpl.
  - rewrite elem_of_nil. tauto.
  - destruct (decide (key r ∈ seen)) as [Hin|Hout].
    + rewrite IH, elem_of_cons. split; [tauto|].
      intros [[->|?] ?]; tauto.
    + rewrite fmap_cons, !elem_of_cons, IH, elem_of_cons.
      destruct (decide (k = key r)) as [->|]; tauto.
Qed.

Lemma NoDup_drop_dups_keys key seen rs : NoDup (key <$> drop_dups key seen rs).
Proof.
  revert seen. induction rs as [|r rs IH]; intros seen; simpl.
  - constructor.
  - destruct (decide (key r ∈ seen)); [apply IH|].
    rewrite fmap_cons. constructor; [|apply IH].
    rewrite elem_of_drop_dups_keys, elem_of_cons. tauto.
Qed.

Lemma drop_dups_sublist key seen rs : drop_dups key seen rs `sublist_of` rs.
Proof.
  revert seen. induction rs as [|r rs IH]; intros seen; simpl; [constructor|].
  destruct (decide (key r ∈ seen)); [apply sublist_cons|apply sublist_skip]; apply IH.
Qed.

(** The rows kept for a key: the first row carrying it, unless the key was
    seen before. *)
Lemma filter_key_drop_dups key seen rs k :
  filter (λ r, key r = k) (drop_dups key seen rs)
  = if decide (k ∈ seen) then [] else option_list (head (filter (λ r, key r = k) rs)).
Proof.
  revert seen. induction rs as [|r rs IH]; intros seen; simpl.
  - by destruct (decide (k ∈ seen)).
  - destruct (decide (key r ∈ seen)) as [Hin|Hout].
    + rewrite IH. destruct (decide (k ∈ seen)); [done|].
      rewrite filter_cons_False by congruence. done.
    + destruct (decide (key r = k)) as [<-|Hne].
      * rewrite !filter_cons_True by done. simpl.
        rewrite IH, decide_True by (apply elem_of_cons; by left).
        by rewrite decide_False.
      * rewrite !filter_cons_False by done. rewrite IH.
        destruct (decide (k ∈ seen)) as [?|?].
        -- rewrite decide_True by (apply elem_of_cons; by right). done.
        -- rewrite decide_False; [done|]. rewrite elem_of_cons. intros [?|?]; congruence.
Qed.

(** Two duplicate-free enumerations of the same keys have the same length. *)
Lemma length_drop_dups key rs (ks : list cell) :
  NoDup ks → (∀ k, k ∈ ks ↔ k ∈ key <$> rs) →
  length (drop_dups key [] rs) = length ks.
Proof.
  intros Hnd Hks.
  rewrite <-(length_fmap key).
  apply Permutation_length, NoDup_Permutation; [apply NoDup_drop_dups_keys|done|].
  intros k. rewrite elem_of_drop_dups_keys, Hks, elem_of_nil. tauto.
Qed.

Lemma filter_none {A} (P : A → Prop) `{∀ x, Decision (P x)} (l : list A) :
  (∀ x, x ∈ l → ¬ P x) → filter P l = [].
Proof.
  induction l as [|a l IH]; intros Hl; [done|].
  rewrite filter_cons_False by (apply Hl; left).
  apply IH. intros x Hx. apply Hl. by right.
Qed.


End Dedup.

(** ** The steps of the Silver build, inverted *)

Section SilverSteps.
Context `{Scalars} `{!Library}.

Lemma bind_Ok {A B} (m : result A) (f : A → result B) (b : B) :
  m ≫= f = Ok b ↔ ∃ a, m = Ok a ∧ f a = Ok b.
Proof.
  destruct m as [a|e]; simpl; split.
  - intros Hf. by exists a.
  - by intros (a' & [= ->] & Hf).
  - done.
  - by intros (a' & [=] & _).
Qed.

Lemma zip_with_fmap_r {A B C} (g : A → B → C) (h : A → B) (l : list A) :
  zip_with g l (h <$> l) = (λ x, g x (h x)) <$> l.
Proof. induction l as [|a l IH]; [done|]. rewrite fmap_cons. simpl. by f_equal. Qed.

Lemma cell_of_insert_ne (r : row) (c c' : string) (v : cell) :
  c ≠ c' → cell_of (<[c := v]> r) c' = cell_of r c'.
Proof. intros Hne. unfold cell_of. by rewrite lookup_insert_ne. Qed.

Lemma cell_of_insert_eq (r : row) (c : string) (v : cell) :
  cell_of (<[c := v]> r) c = v.
Proof. unfold cell_of. by rewrite lookup_insert_eq. Qed.

(** [df[c] = f(df[c])]: the rows, one by one. *)
Lemma rows_setitem_fmap (df : DataFrame) (c : string) (f : cell → cell) :
  rows (setitem df c (f <$> ((λ r, cell_of r c) <$> rows df)))
  = (λ r, <[c := f (cell_of r c)]> r) <$> rows df.
Proof. simpl. rewrite <-list_fmap_compose. apply zip_with_fmap_r. Qed.

Lemma columns_setitem_in (df : DataFrame) (c : string) (values : list cell) :
  c ∈ columns df → columns (setitem df c values) = columns df.
Proof. intros Hc. simpl. by rewrite decide_True. Qed.

Lemma drop_duplicates_Ok (c : string) (df df' : DataFrame) :
  drop_duplicates c df = Ok df' ↔
  c ∈ columns df ∧
  df' = {| columns := columns df;
           rows := drop_dups (λ r, cell_of r c) [] (rows df) |}.
Proof.
  unfold drop_duplicates. case_decide; split.
  - by intros [= <-].
  - by intros [_ ->].
  - done.
  - tauto.
Qed.

Lemma getitem_Ok (df : DataFrame) (c : string) (col : list cell) :
  getitem df c = Ok col ↔ c ∈ columns df ∧ col = (λ r, cell_of r c) <$> rows df.
Proof.
  unfold getitem. case_decide; split.
  - by intros [= <-].
  - by intros [_ ->].
  - done.
  - tauto.
Qed.

Lemma mask_isin_Ok (df df' : DataFrame) (c : string) (values : list cell) :
  mask_isin df c values = Ok df' ↔
  c ∈ columns df ∧
  df' = {| columns := columns df;
           rows := filter (λ r, isin values (cell_of r c) = true) (rows df) |}.
Proof.
  unfold mask_isin. case_decide; split.
  - by intros [= <-].
  - by intros [_ ->].
  - done.
  - tauto.
Qed.

Lemma isin_true (values : list cell) (c : cell) : isin values c = true ↔ c ∈ values.
Proof. unfold isin. apply bool_decide_eq_true. Qed.

Lemma silver_dedupe_Ok (b dd : SilverFrames) :
  silver_dedupe b = Ok dd ↔
  "customer_id" ∈ columns (df_customers b) ∧ "driver_id" ∈ columns (df_drivers b) ∧
  "trip_id" ∈ columns (df_trips b) ∧ "payment_id" ∈ columns (df_payments b) ∧
  dd = deduped b.
Proof.
  unfold silver_dedupe, deduped, dedupe_frame. split.
  - intros Hb.
    apply bind_Ok in Hb as (c & Hc%drop_duplicates_Ok & Hb).
    apply bind_Ok in Hb as (d & Hd%drop_duplicates_Ok & Hb).
    apply bind_Ok in Hb as (t & Ht%drop_duplicates_Ok & Hb).
    apply bind_Ok in Hb as (p & Hp%drop_duplicates_Ok & Hb).
    injection Hb as <-. destruct Hc as [? ->], Hd as [? ->], Ht as [? ->], Hp as [? ->].
    done.
  - intros (Hc & Hd & Ht & Hp & ->). unfold drop_duplicates.
    by rewrite !decide_True.
Qed.

Lemma silver_types_Ok (b td : SilverFrames) :
  silver_types b = Ok td ↔
  "signup_date" ∈ columns (df_customers b) ∧ "trip_fare" ∈ columns (df_trips b) ∧
  "trip_fare" ∈ columns (df_payments b) ∧ td = typed b.
Proof.
  unfold silver_types, typed, column. split.
  - intros Hb.
    apply bind_Ok in Hb as (c & [? ->]%getitem_Ok & Hb).
    apply bind_Ok in Hb as (t & [? ->]%getitem_Ok & Hb).
    apply bind_Ok in Hb as (p & [? ->]%getitem_Ok & Hb).
    by injection Hb as <-.
  - intros (Hc & Ht & Hp & ->). unfold getitem. by rewrite !decide_True.
Qed.

Lemma silver_enum_Ok (b : SilverFrames) : silver_enum b = Ok (enum_checked b).
Proof.
  unfold silver_enum, enum_checked, mask_isin, keep_isin.
  by destruct (decide ("vehicle_type" ∈ columns (df_drivers b))).
Qed.

Lemma silver_fk_Ok (b s : SilverFrames) :
  silver_fk b = Ok s ↔
  "customer_id" ∈ columns (df_customers b) ∧ "customer_id" ∈ columns (df_trips b) ∧
  "driver_id" ∈ columns (df_drivers b) ∧ "driver_id" ∈ columns (df_trips b) ∧
  "trip_id" ∈ columns (df_trips b) ∧ "trip_id" ∈ columns (df_payments b) ∧
  s = fk_checked b.
Proof.
  unfold silver_fk, fk_checked, fk_trips, keep_isin, column. split.
  - intros Hb.
    apply bind_Ok in Hb as (cids & [? ->]%getitem_Ok & Hb).
    apply bind_Ok in Hb as (t & [? ->]%mask_isin_Ok & Hb).
    apply bind_Ok in Hb as (dids & [? ->]%getitem_Ok & Hb).
    apply bind_Ok in Hb as (t' & [? ->]%mask_isin_Ok & Hb).
    apply bind_Ok in Hb as (tids & [? ->]%getitem_Ok & Hb).
    apply bind_Ok in Hb as (p & [? ->]%mask_isin_Ok & Hb).
    injection Hb as <-. simpl in *. done.
  - intros (? & ? & ? & ? & ? & ? & ->). unfold getitem, mask_isin.
    repeat (rewrite decide_True by done; simpl). done.
Qed.

(** Where [silver_frames] returns, it returns the composition of the steps. *)
Lemma silver_frames_Ok (b s : SilverFrames) :
  silver_frames b = Ok s →
  silver_dedupe b = Ok (deduped b) ∧
  silver_types (deduped b) = Ok (typed (deduped b)) ∧
  silver_fk (enum_checked (typed (deduped b))) = Ok s ∧
  s = fk_checked (enum_checked (typed (deduped b))).
Proof.
  unfold silver_frames. intros Hb.
  apply bind_Ok in Hb as (dd & Hdd & Hb).
  apply bind_Ok in Hb as (td & Htd & Hb).
  apply bind_Ok in Hb as (ed & Hed & Hb).
  pose proof Hdd as (_ & _ & _ & _ & ->)%silver_dedupe_Ok.
  pose proof Htd as (_ & _ & _ & ->)%silver_types_Ok.
  rewrite silver_enum_Ok in Hed. injection Hed as <-.
  pose proof Hb as (_ & _ & _ & _ & _ & _ & ->)%silver_fk_Ok.
  done.
Qed.

Lemma silver_frames_columns (b s : SilverFrames) :
  silver_frames b = Ok s →
  "trip_fare" ∈ columns (df_trips s) ∧ "trip_fare" ∈ columns (df_payments s).
Proof.
  intros (_ & (_ & Ht & Hp & _)%silver_types_Ok & _ & ->)%silver_frames_Ok.
  simpl in *. by rewrite !decide_True.
Qed.

(** [build_silver] returns exactly when Bronze can be read and the frames
    computed; the world it leaves is the old one with the four Silver tables
    and snapshot files replaced and four rows appended to the DQ table. *)
Lemma build_silver_Ok (w w1 : World) (out : list line) :
  build_silver w = Ok (w1, out) →
  ∃ b s, read_bronze w = Ok b ∧ silver_frames b = Ok s ∧
    bronze w1 = bronze w ∧
    silver w1 = <["payments" := df_payments s]> (<["trips" := df_trips s]>
                  (<["drivers" := df_drivers s]> (<["customers" := df_customers s]> (silver w)))) ∧
    gold w1 = gold w ∧
    (∃ recs, audit_rejected_rows w1 = audit_rejected_rows w ++ recs ∧
             table_name <$> recs = BRONZE_FILES) ∧
    audit_reconciliation_log w1 = audit_reconciliation_log w ∧
    log_reconciliation_csv w1 = log_reconciliation_csv w ∧
    log_snapshots w1 =
      <[("silver", "payments") := to_csv (df_payments s)]>
        (<[("silver", "trips") := to_csv (df_trips s)]>
           (<[("silver", "drivers") := to_csv (df_drivers s)]>
              (<[("silver", "customers") := to_csv (df_customers s)]> (log_snapshots w)))) ∧
    out = [PrintDQ "Customers missing" (isna_sum_sum (df_customers s));
           PrintDQ "Drivers missing" (isna_sum_sum (df_drivers s));
           PrintDQ "Trips invalid fare" (isna_sum (column "trip_fare" (df_trips s)));
           PrintDQ "Pays invalid fare" (isna_sum (column "trip_fare" (df_payments s)));
           PrintSnapshot "silver" "customers" (len (df_customers s))
             (md5_checksum (to_csv (df_customers s)));
           PrintSnapshot "silver" "drivers" (len (df_drivers s))
             (md5_checksum (to_csv (df_drivers s)));
           PrintSnapshot "silver" "trips" (len (df_trips s))
             (md5_checksum (to_csv (df_trips s)));
           PrintSnapshot "silver" "payments" (len (df_payments s))
             (md5_checksum (to_csv (df_payments s)));
           PrintDone "Silver build complete."].
Proof.
  unfold build_silver. intros Hw.
  apply bind_Ok in Hw as (b & Hb & Hw).
  apply bind_Ok in Hw as (s & Hs & Hw).
  apply bind_Ok in Hw as (tf & [_ ->]%getitem_Ok & Hw).
  apply bind_Ok in Hw as (pf & [_ ->]%getitem_Ok & Hw).
  simpl in Hw. injection Hw as <- <-.
  exists b, s. simpl. repeat split; try done.
  eexists. rewrite <-!(assoc_L (++)). split; [reflexivity|done].
Qed.

Lemma build_silver_returns (w : World) (b s : SilverFrames) :
  read_bronze w = Ok b → silver_frames b = Ok s →
  ∃ w1 out, build_silver w = Ok (w1, out).
Proof.
  intros Hb Hs. destruct (silver_frames_columns _ _ Hs) as [Ht Hp].
  unfold build_silver. rewrite Hb. simpl. rewrite Hs. simpl.
  unfold getitem. rewrite !decide_True by done. simpl. eauto.
Qed.

End SilverSteps.

(** ** The Silver build *)

Section SilverClaims.
Context `{Scalars} `{!Library}.

(** C6. Deduplicating a table on its natural key keeps as many rows as there
    are distinct key values (K, the length of any duplicate-free enumeration
    of the keys that occur), and for every key the only row kept is the first
    input row that carries it. *)
Theorem C6_drop_duplicates_first_row_per_key (subset : string) (df : DataFrame) :
  subset ∈ columns df →
  ∃ df', drop_duplicates subset df = Ok df' ∧
    columns df' = columns df ∧
    (∀ ks : list cell,
       NoDup ks → (∀ k, k ∈ ks ↔ k ∈ column subset df) → len df' = length ks) ∧
    (∀ k, filter (λ r, cell_of r subset = k) (rows df')
          = option_list (first_with (λ r, cell_of r subset) k (rows df))).
Proof.
  intros Hc. eexists. split; [apply drop_duplicates_Ok; by split|].
  split; [done|]. split.
  - intros ks Hnd Hks. by apply length_drop_dups.
  - intros k. simpl. rewrite filter_key_drop_dups.
    rewrite decide_False by apply not_elem_of_nil. done.
Qed.

Lemma coerced_setitem (c : string) (convert : list cell → cell → option cell)
  (df : DataFrame) (values : list cell) :
  c ∈ columns df →
  values = (λ x, default CNull (convert (column c df) x)) <$> column c df →
  coerced_to c convert df (setitem df c values).
Proof.
  intros Hc ->. unfold column. split; [by apply columns_setitem_in|].
  unfold len. rewrite rows_setitem_fmap. split; [by rewrite length_fmap|].
  intros i r Hr. eexists. rewrite list_lookup_fmap, Hr. split; [done|]. split.
  - apply cell_of_insert_eq.
  - intros c' Hne. by rewrite lookup_insert_ne.
Qed.

(** C9. Given the typed columns, the coercion step returns: each frame keeps
    its rows, and in every row the typed cell becomes the parsed value, or
    null when the value does not parse, the other cells as they were. *)
Theorem C9_coercion_failures_become_null (b : SilverFrames) :
  "signup_date" ∈ columns (df_customers b) →
  "trip_fare" ∈ columns (df_trips b) →
  "trip_fare" ∈ columns (df_payments b) →
  ∃ b', silver_types b = Ok b' ∧
    coerced_to "signup_date" (λ col c, CDatetime <$> to_datetime_scalar col c)
      (df_customers b) (df_customers b') ∧
    df_drivers b' = df_drivers b ∧
    coerced_to "trip_fare" (λ col c, CNum <$> to_numeric_scalar col c)
      (df_trips b) (df_trips b') ∧
    coerced_to "trip_fare" (λ col c, CNum <$> to_numeric_scalar col c)
      (df_payments b) (df_payments b').
Proof.
  intros Hc Ht Hp. exists (typed b). split; [by apply silver_types_Ok|].
  unfold typed; simpl. split; [|split; [done|split]].
  all: apply coerced_setitem; [done|].
  all: unfold to_datetime, to_numeric; apply list_fmap_ext; intros _ x _.
  - by destruct (to_datetime_scalar _ x).
  - by destruct (to_numeric_scalar _ x).
  - by destruct (to_numeric_scalar _ x).
Qed.

Lemma elem_of_keep_isin (c : string) (values : list cell) (df : DataFrame) (x : row) :
  x ∈ rows (keep_isin c values df) ↔ cell_of x c ∈ values ∧ x ∈ rows df.
Proof. simpl. by rewrite list_elem_of_filter, isin_true. Qed.

Lemma elem_of_column (c : string) (df : DataFrame) (k : cell) :
  k ∈ column c df ↔ ∃ x, x ∈ rows df ∧ cell_of x c = k.
Proof.
  unfold column. rewrite list_elem_of_fmap. split.
  - intros (x & -> & Hx). by exists x.
  - intros (x & Hx & <-). by exists x.
Qed.

(** The coerced frame row by row: only the cell under [c] changes. *)
Lemma elem_of_rows_setitem_to_numeric (c : string) (df : DataFrame) (x : row) :
  x ∈ rows (setitem df c (to_numeric (column c df))) →
  ∃ x0 v, x0 ∈ rows df ∧ x = <[c := v]> x0.
Proof.
  unfold to_numeric, column. rewrite rows_setitem_fmap.
  intros (x0 & -> & Hx0)%list_elem_of_fmap. eauto.
Qed.

Lemma columns_enum_drivers (b : SilverFrames) :
  columns (df_drivers (enum_checked b)) = columns (df_drivers b).
Proof. unfold enum_checked; simpl. by case_decide. Qed.

(** C10. When the Bronze drivers table has no vehicle_type column, the Silver
    drivers are exactly the deduplicated drivers, and a trip (deduplicated,
    fare coerced) reaches Silver exactly when its customer key is among the
    Silver customers and its driver key among all deduplicated drivers. *)
Theorem C10_no_vehicle_type_column_no_filter (b s : SilverFrames) :
  "vehicle_type" ∉ columns (df_drivers b) →
  silver_frames b = Ok s →
  drop_duplicates "driver_id" (df_drivers b) = Ok (df_drivers s) ∧
  ∀ t, t ∈ rows (df_trips s) ↔
       t ∈ rows (df_trips (typed (deduped b))) ∧
       cell_of t "customer_id" ∈ column "customer_id" (df_customers s) ∧
       cell_of t "driver_id" ∈ column "driver_id" (df_drivers s).
Proof.
  intros Hvt (Hdd & _ & _ & ->)%silver_frames_Ok.
  apply silver_dedupe_Ok in Hdd as (_ & Hd & _).
  assert (df_drivers (enum_checked (typed (deduped b)))
          = dedupe_frame "driver_id" (df_drivers b)) as Hdrivers.
  { unfold enum_checked; simpl. by rewrite decide_False. }
  split.
  - apply drop_duplicates_Ok. split; [done|].
    cbn [fk_checked df_drivers]. by rewrite Hdrivers.
  - intros t. cbn [fk_checked df_trips df_drivers df_customers]. unfold fk_trips.
    rewrite !elem_of_keep_isin. cbn [enum_checked df_trips df_customers]. tauto.
Qed.

(** C4, as the code has it. With a vehicle_type column, a driver row whose
    vehicle type is not valid never reaches Silver.  When that row is the first
    Bronze row carrying its driver_id, Silver holds no driver and no trip with
    that driver_id, and no payment whose trip_id is that of a Bronze trip of
    that driver which is the first row carrying its trip_id. *)
Theorem C4_invalid_first_driver_row_cascades (b s : SilverFrames) (d : row) :
  "vehicle_type" ∈ columns (df_drivers b) →
  silver_frames b = Ok s →
  isin VALID_VEHICLE_TYPES (cell_of d "vehicle_type") = false →
  (d ∉ rows (df_drivers s)) ∧
  (first_with (λ r, cell_of r "driver_id") (cell_of d "driver_id") (rows (df_drivers b)) = Some d →
   (∀ x, x ∈ rows (df_drivers s) → cell_of x "driver_id" ≠ cell_of d "driver_id") ∧
   (∀ t, t ∈ rows (df_trips s) → cell_of t "driver_id" ≠ cell_of d "driver_id") ∧
   (∀ t p,
      first_with (λ r, cell_of r "trip_id") (cell_of t "trip_id") (rows (df_trips b)) = Some t →
      cell_of t "driver_id" = cell_of d "driver_id" →
      p ∈ rows (df_payments s) → cell_of p "trip_id" ≠ cell_of t "trip_id")).
Proof.
  intros Hvt (_ & _ & _ & ->)%silver_frames_Ok Hbad.
  assert (df_drivers (enum_checked (typed (deduped b)))
          = keep_isin "vehicle_type" VALID_VEHICLE_TYPES
              (dedupe_frame "driver_id" (df_drivers b))) as Hdrivers.
  { unfold enum_checked; simpl. by rewrite decide_True. }
  assert (∀ x, x ∈ rows (df_drivers (enum_checked (typed (deduped b)))) →
               x ≠ d ∧ x ∈ drop_dups (λ r, cell_of r "driver_id") [] (rows (df_drivers b)))
    as Hvalid.
  { intros x. rewrite Hdrivers, elem_of_keep_isin. intros [Hx Hin]. split; [|done].
    intros ->. apply isin_true in Hx. congruence. }
  cbn [fk_checked df_drivers df_trips df_payments].
  split; [intros Hd; by destruct (Hvalid d Hd)|].
  intros Hfirst.
  assert (∀ x, x ∈ rows (df_drivers (enum_checked (typed (deduped b)))) →
               cell_of x "driver_id" ≠ cell_of d "driver_id") as Hno_driver.
  { intros x Hx Heq. destruct (Hvalid x Hx) as (Hne & Hin).
    assert (x ∈ filter (λ r, cell_of r "driver_id" = cell_of d "driver_id")
                  (drop_dups (λ r, cell_of r "driver_id") [] (rows (df_drivers b)))) as Hx'.
    { by apply list_elem_of_filter. }
    rewrite filter_key_drop_dups, decide_False in Hx' by apply not_elem_of_nil.
    unfold first_with in Hfirst. rewrite Hfirst in Hx'. simpl in Hx'.
    apply list_elem_of_singleton in Hx'. done. }
  assert (∀ t, t ∈ rows (fk_trips (enum_checked (typed (deduped b)))) →
               cell_of t "driver_id" ≠ cell_of d "driver_id") as Hno_trip.
  { intros t. unfold fk_trips. rewrite elem_of_keep_isin.
    intros [(x & Hx & Hid)%elem_of_column _] Heq.
    apply (Hno_driver x Hx). congruence. }
  split; [done|]. split; [done|].
  intros t p Ht Hdrv. rewrite elem_of_keep_isin.
  intros [(t' & Ht' & Hid)%elem_of_column _] Heq.
  apply (Hno_trip t' Ht').
  unfold fk_trips in Ht'. rewrite !elem_of_keep_isin in Ht'.
  destruct Ht' as (_ & _ & Ht').
  cbn [enum_checked typed df_trips] in Ht'.
  apply elem_of_rows_setitem_to_numeric in Ht' as (t0 & v & Ht0 & ->).
  rewrite cell_of_insert_ne in Hid by done.
  rewrite cell_of_insert_ne by done.
  assert (t0 ∈ filter (λ r, cell_of r "trip_id" = cell_of t "trip_id")
                 (drop_dups (λ r, cell_of r "trip_id") [] (rows (df_trips b)))) as Hin.
  { apply list_elem_of_filter. split; [congruence|done]. }
  rewrite filter_key_drop_dups, decide_False in Hin by apply not_elem_of_nil.
  unfold first_with in Ht. rewrite Ht in Hin. simpl in Hin.
  apply list_elem_of_singleton in Hin. by subst.
Qed.

(** Writing four tables a second time with the same contents changes
    nothing. *)
Lemma replace_four_again {K V} `{Countable K} (m : gmap K V) (k1 k2 k3 k4 : K)
  (v1 v2 v3 v4 : V) :
  let m' := <[k4 := v4]> (<[k3 := v3]> (<[k2 := v2]> (<[k1 := v1]> m))) in
  <[k4 := v4]> (<[k3 := v3]> (<[k2 := v2]> (<[k1 := v1]> m'))) = m'.
Proof.
  intros m'. subst m'. apply map_eq. intros k.
  rewrite !lookup_insert. repeat case_decide; done.
Qed.

Lemma read_bronze_ext (w w' : World) :
  bronze w' = bronze w → read_bronze w' = read_bronze w.
Proof. unfold read_bronze. by intros ->. Qed.

(** C5. A second run of the Silver build over the Bronze tables the first run
    read returns, leaves the Silver tables and the snapshot files byte for
    byte as the first run left them, and prints the same data-quality counts,
    row counts and checksums. *)
Theorem C5_build_silver_idempotent (w w1 : World) (out1 : list line) :
  build_silver w = Ok (w1, out1) →
  ∃ w2 out2, build_silver w1 = Ok (w2, out2) ∧
    bronze w2 = bronze w ∧
    silver w2 = silver w1 ∧
    log_snapshots w2 = log_snapshots w1 ∧
    out2 = out1.
Proof.
  intros (b & s & Hb & Hs & Hbronze & Hsilver & _ & _ & _ & _ & Hsnap & Hout)%build_silver_Ok.
  rewrite <-(read_bronze_ext w w1 Hbronze) in Hb.
  destruct (build_silver_returns w1 b s Hb Hs) as (w2 & out2 & Hrun).
  exists w2, out2. split; [done|].
  apply build_silver_Ok in Hrun
    as (b' & s' & Hb' & Hs' & Hbronze' & Hsilver' & _ & _ & _ & _ & Hsnap' & Hout').
  assert (b' = b) as -> by congruence.
  assert (s' = s) as -> by congruence.
  split; [congruence|]. split; [|split; [|congruence]].
  - rewrite Hsilver', Hsilver. apply replace_four_again.
  - rewrite Hsnap', Hsnap. apply replace_four_again.
Qed.

End SilverClaims.

(** ** Joins and groups *)

Section Joins.
Context `{Scalars}.

Lemma sql_eq_true (a b : cell) : is_true (sql_eq a b) = true ↔ a ≠ CNull ∧ a = b.
Proof.
  destruct a, b; simpl; try case_bool_decide; split;
    (congruence || (intros [? ?]; congruence) || (split; congruence)).
Qed.






Lemma elem_of_inner_join {A} (on : A → row → bool) (l : list A) (rs : list row)
  (a : A) (r : row) :
  (a, r) ∈ inner_join on l rs ↔ a ∈ l ∧ r ∈ rs ∧ on a r = true.
Proof.
  unfold inner_join. rewrite list_elem_of_bind. split.
  - intros (a' & (r' & [= -> ->] & Hr)%list_elem_of_fmap & Ha').
    apply list_elem_of_filter in Hr as [Hon Hr]. done.
  - intros (Ha & Hr & Hon). exists a. split; [|done].
    apply (list_elem_of_fmap_2' _ _ r); [|done]. by apply list_elem_of_filter.
Qed.

Lemma filter_fmap {A B} (P : B → Prop) `{∀ y, Decision (P y)} (f : A → B) (l : list A) :
  filter P (f <$> l) = f <$> filter (λ x, P (f x)) l.
Proof.
  induction l as [|a l IH]; [done|]. rewrite fmap_cons.
  destruct (decide (P (f a))).
  - rewrite !filter_cons_True by done. rewrite fmap_cons. by f_equal.
  - by rewrite !filter_cons_False.
Qed.

(** The only row carrying a key that occurs once. *)
Lemma filter_unique_key {A} (f : A → cell) (l : list A) (x0 : A) :
  NoDup (f <$> l) → x0 ∈ l → filter (λ x, f x = f x0) l = [x0].
Proof.
  induction l as [|a l IH]; [by intros _ ?%elem_of_nil|].
  rewrite fmap_cons, NoDup_cons, elem_of_cons. intros [Hnotin Hnd] [->|Hin].
  - rewrite filter_cons_True by done. f_equal.
    apply filter_none. intros x Hx Heq. apply Hnotin. rewrite <-Heq.
    by apply list_elem_of_fmap_2.
  - rewrite filter_cons_False; [by apply IH|].
    intros Heq. apply Hnotin. rewrite Heq. by apply list_elem_of_fmap_2.
Qed.






Lemma sum_list_with_fmap {A B} (f : B → nat) (g : A → B) (l : list A) :
  sum_list_with f (g <$> l) = sum_list_with (λ a, f (g a)) l.
Proof. induction l as [|a l IH]; [done|]. rewrite fmap_cons. simpl. by f_equal. Qed.





End Joins.

(** ** The Gold build *)

Section GoldClaims.
Context `{Scalars} `{!Library}.

Lemma from_table_Ok (schema : string) (tables : gmap string DataFrame) (table : string)
  (referenced : list string) (rs : list row) :
  from_table schema tables table referenced = Ok rs →
  ∃ df, tables !! table = Some df ∧ rs = rows df.
Proof.
  unfold from_table. destruct (tables !! table) as [df|]; [|done].
  destruct (filter _ referenced); [|done]. intros [= <-]. by exists df.
Qed.

(** Where [build_gold] returns, the three tables are the three SELECTs over
    the Silver tables, and nothing else changes. *)
Lemma build_gold_Ok (w w' : World) (out : list line) :
  build_gold w = Ok (w', out) →
  ∃ t c d p,
    silver w !! "trips" = Some t ∧ silver w !! "customers" = Some c ∧
    silver w !! "drivers" = Some d ∧ silver w !! "payments" = Some p ∧
    w' = set_gold
           {| driver_performance := select_driver_performance (rows t) (rows d);
              route_performance := select_route_performance (rows t);
              fact_trips_dashboard :=
                select_fact_trips_dashboard (rows t) (rows c) (rows d) (rows p) |} w.
Proof.
  unfold build_gold. intros Hw.
  apply bind_Ok in Hw as (t1 & (t & Ht & ->)%from_table_Ok & Hw).
  apply bind_Ok in Hw as (d1 & (d & Hd & ->)%from_table_Ok & Hw).
  apply bind_Ok in Hw as (t2 & (t' & Ht' & ->)%from_table_Ok & Hw).
  apply bind_Ok in Hw as (t3 & (t'' & Ht'' & ->)%from_table_Ok & Hw).
  apply bind_Ok in Hw as (c1 & (c & Hc & ->)%from_table_Ok & Hw).
  apply bind_Ok in Hw as (d2 & (d' & Hd' & ->)%from_table_Ok & Hw).
  apply bind_Ok in Hw as (p1 & (p & Hp & ->)%from_table_Ok & Hw).
  injection Hw as <- <-.
  assert (t' = t) as -> by congruence. assert (t'' = t) as -> by congruence.
  assert (d' = d) as -> by congruence.
  by exists t, c, d, p.
Qed.

(** The Silver tables a successful Silver build leaves. *)
Lemma build_silver_tables (w0 w1 : World) (out : list line) :
  build_silver w0 = Ok (w1, out) →
  ∃ b s, silver_frames b = Ok s ∧
    silver w1 !! "customers" = Some (df_customers s) ∧
    silver w1 !! "drivers" = Some (df_drivers s) ∧
    silver w1 !! "trips" = Some (df_trips s) ∧
    silver w1 !! "payments" = Some (df_payments s).
Proof.
  intros (b & s & _ & Hs & _ & -> & _)%build_silver_Ok.
  exists b, s. split; [done|]. by rewrite !lookup_insert.
Qed.

Lemma column_setitem_ne (df : DataFrame) (c c' : string) (f : cell → cell) :
  c ≠ c' →
  column c' (setitem df c (f <$> column c df)) = column c' df.
Proof.
  intros Hne. unfold column. rewrite rows_setitem_fmap, <-list_fmap_compose.
  apply list_fmap_ext. intros _ r _. simpl. by apply cell_of_insert_ne.
Qed.

(** Silver customers and drivers carry each key once. *)
Lemma silver_keys_NoDup (b s : SilverFrames) :
  silver_frames b = Ok s →
  NoDup (column "customer_id" (df_customers s)) ∧ NoDup (column "driver_id" (df_drivers s)).
Proof.
  intros (_ & _ & _ & ->)%silver_frames_Ok. split.
  - cbn [fk_checked enum_checked typed df_customers]. unfold to_datetime.
    rewrite column_setitem_ne by done. apply NoDup_drop_dups_keys.
  - cbn [fk_checked df_drivers]. unfold enum_checked; cbn [df_drivers typed deduped].
    case_decide; [|apply NoDup_drop_dups_keys].
    unfold column, keep_isin; simpl.
    eapply sublist_NoDup; [|apply fmap_sublist, sublist_filter].
    apply NoDup_drop_dups_keys.
Qed.







(** ** Reconciliation *)


End GoldClaims.

(** ** Audit records *)

Section AuditClaims.
Context `{Scalars} `{!Library}.

Lemma reconcile_Ok (w w' : World) (out : list line) :
  reconcile w = Ok (w', out) → ∃ r, w' = log_reconciliation r w.
Proof.
  unfold reconcile. intros Hw.
  apply bind_Ok in Hw as (t & _ & Hw).
  apply bind_Ok in Hw as (p & _ & Hw).
  apply bind_Ok in Hw as (g & _ & Hw).
  injection Hw as <- _. eauto.
Qed.

Lemma load_bronze_audit (raw : gmap string DataFrame) (w w' : World) (out : list line) :
  load_bronze raw w = Ok (w', out) →
  audit_rejected_rows w' = audit_rejected_rows w ∧
  audit_reconciliation_log w' = audit_reconciliation_log w ∧
  log_reconciliation_csv w' = log_reconciliation_csv w.
Proof.
  unfold load_bronze, BRONZE_FILES, load_bronze_table. cbn [foldl].
  destruct (raw !! "customers"), (raw !! "drivers"), (raw !! "trips"), (raw !! "payments");
    cbn; by intros [= <- _].
Qed.

End AuditClaims.


(** ** What the Silver build guarantees *)

Section SilverInvariants.
Context `{Scalars} `{!Library}.

Lemma read_bronze_snapshot (w : World) (b : SilverFrames) :
  read_bronze w = Ok b ↔ bronze_snapshot w = Some b.
Proof.
  unfold read_bronze, bronze_snapshot, read_sql.
  destruct (bronze w !! "customers"), (bronze w !! "drivers"),
    (bronze w !! "trips"), (bronze w !! "payments"); simpl;
    (split; [intros [= <-]|intros [= <-]]; done).
Qed.

Lemma build_silver_snapshot (w0 w1 : World) (out : list line) :
  build_silver w0 = Ok (w1, out) →
  ∃ b s, bronze_snapshot w0 = Some b ∧ silver_frames b = Ok s ∧ silver_snapshot w1 = Some s.
Proof.
  intros Hrun. pose proof Hrun as (b & s & Hb & Hs & Hrest)%build_silver_Ok.
  apply build_silver_tables in Hrun as (b' & s' & Hs' & Hc & Hd & Ht & Hp).
  exists b, s. split; [by apply read_bronze_snapshot|]. split; [done|].
  destruct Hrest as (_ & Hsilver & _).
  unfold silver_snapshot. rewrite Hsilver, !lookup_insert. simpl. by destruct s.
Qed.

Lemma column_setitem_to_numeric_ne (df : DataFrame) (c c' : string) :
  c ≠ c' → column c' (setitem df c (to_numeric (column c df))) = column c' df.
Proof. intros Hne. unfold to_numeric. by apply column_setitem_ne. Qed.

Lemma column_keep_isin_sublist (c' c : string) (values : list cell) (df : DataFrame) :
  column c' (keep_isin c values df) `sublist_of` column c' df.
Proof. unfold column, keep_isin; simpl. apply fmap_sublist, sublist_filter. Qed.

Lemma typed_numeric_cell (c : string) (df : DataFrame) (x : row) :
  x ∈ rows (setitem df c (to_numeric (column c df))) → number_or_null (cell_of x c).
Proof.
  unfold to_numeric, column. rewrite rows_setitem_fmap.
  intros (x0 & -> & _)%list_elem_of_fmap. rewrite cell_of_insert_eq.
  destruct (to_numeric_scalar _ _) as [n|]; [right; by exists n|by left].
Qed.

Lemma typed_datetime_cell (c : string) (df : DataFrame) (x : row) :
  x ∈ rows (setitem df c (to_datetime (column c df))) → datetime_or_null (cell_of x c).
Proof.
  unfold to_datetime, column. rewrite rows_setitem_fmap.
  intros (x0 & -> & _)%list_elem_of_fmap. rewrite cell_of_insert_eq.
  destruct (to_datetime_scalar _ _) as [t|]; [right; by exists t|by left].
Qed.

(** X1. Referential integrity of Silver: after a Silver build, every Silver
    trip carries the key of a Silver customer and of a Silver driver, and
    every Silver payment the key of a Silver trip (two missing keys counting
    as equal, as [isin] has it). *)
Theorem X1_silver_referential_integrity (w0 w1 : World) (out : list line) (s : SilverFrames) :
  build_silver w0 = Ok (w1, out) →
  silver_snapshot w1 = Some s →
  (∀ t, t ∈ rows (df_trips s) →
        cell_of t "customer_id" ∈ column "customer_id" (df_customers s) ∧
        cell_of t "driver_id" ∈ column "driver_id" (df_drivers s)) ∧
  (∀ p, p ∈ rows (df_payments s) →
        cell_of p "trip_id" ∈ column "trip_id" (df_trips s)).
Proof.
  intros (b & s' & _ & Hs & Hsnap)%build_silver_snapshot Hsnap'.
  assert (s' = s) as -> by congruence.
  apply silver_frames_Ok in Hs as (_ & _ & _ & ->).
  cbn [fk_checked df_trips df_customers df_drivers df_payments]. split.
  - intros t. unfold fk_trips. rewrite !elem_of_keep_isin. tauto.
  - intros p. rewrite elem_of_keep_isin. tauto.
Qed.

(** X2. After a Silver build each Silver table carries every value of its
    natural key once. *)
Theorem X2_silver_keys_unique (w0 w1 : World) (out : list line) (s : SilverFrames) :
  build_silver w0 = Ok (w1, out) →
  silver_snapshot w1 = Some s →
  NoDup (column "customer_id" (df_customers s)) ∧
  NoDup (column "driver_id" (df_drivers s)) ∧
  NoDup (column "trip_id" (df_trips s)) ∧
  NoDup (column "payment_id" (df_payments s)).
Proof.
  intros (b & s' & _ & Hs & Hsnap)%build_silver_snapshot Hsnap'.
  assert (s' = s) as -> by congruence.
  destruct (silver_keys_NoDup b s Hs) as [Hc Hd].
  apply silver_frames_Ok in Hs as (_ & _ & _ & ->).
  split; [done|]. split; [done|].
  cbn [fk_checked df_trips df_payments enum_checked typed deduped]. split.
  - unfold fk_trips. cbn [enum_checked typed deduped df_trips].
    eapply sublist_NoDup; [|apply column_keep_isin_sublist].
    eapply sublist_NoDup; [|apply column_keep_isin_sublist].
    rewrite column_setitem_to_numeric_ne by done. apply NoDup_drop_dups_keys.
  - eapply sublist_NoDup; [|apply column_keep_isin_sublist].
    rewrite column_setitem_to_numeric_ne by done. apply NoDup_drop_dups_keys.
Qed.

(** X3. When the Silver drivers table has a vehicle_type column, every Silver
    driver has one of the four valid vehicle types. *)
Theorem X3_silver_vehicle_types_valid (w0 w1 : World) (out : list line) (s : SilverFrames) :
  build_silver w0 = Ok (w1, out) →
  silver_snapshot w1 = Some s →
  "vehicle_type" ∈ columns (df_drivers s) →
  ∀ d, d ∈ rows (df_drivers s) → cell_of d "vehicle_type" ∈ VALID_VEHICLE_TYPES.
Proof.
  intros (b & s' & _ & Hs & Hsnap)%build_silver_snapshot Hsnap'.
  assert (s' = s) as -> by congruence.
  apply silver_frames_Ok in Hs as (_ & _ & _ & ->).
  cbn [fk_checked df_drivers]. rewrite columns_enum_drivers.
  unfold enum_checked; cbn [df_drivers typed]. intros Hvt.
  rewrite decide_True by done. intros d. rewrite elem_of_keep_isin. tauto.
Qed.

(** X4. After a Silver build the typed columns hold what their type allows:
    every fare of a Silver trip or payment is a number or null, and every
    signup_date a timestamp or null. *)
Theorem X4_silver_typed_columns (w0 w1 : World) (out : list line) (s : SilverFrames) :
  build_silver w0 = Ok (w1, out) →
  silver_snapshot w1 = Some s →
  (∀ c, c ∈ rows (df_customers s) → datetime_or_null (cell_of c "signup_date")) ∧
  (∀ t, t ∈ rows (df_trips s) → number_or_null (cell_of t "trip_fare")) ∧
  (∀ p, p ∈ rows (df_payments s) → number_or_null (cell_of p "trip_fare")).
Proof.
  intros (b & s' & _ & Hs & Hsnap)%build_silver_snapshot Hsnap'.
  assert (s' = s) as -> by congruence.
  apply silver_frames_Ok in Hs as (_ & _ & _ & ->).
  cbn [fk_checked df_trips df_payments df_customers enum_checked typed]. split; [|split].
  - intros c. apply typed_datetime_cell.
  - intros t. unfold fk_trips. rewrite !elem_of_keep_isin.
    cbn [enum_checked typed df_trips]. intros (_ & _ & Ht). by apply typed_numeric_cell in Ht.
  - intros p. rewrite elem_of_keep_isin. intros [_ Hp]. by apply typed_numeric_cell in Hp.
Qed.

End SilverInvariants.

(** ** More on the Silver build: accounting, failure, provenance *)

Section SilverAccounting.
Context `{Scalars} `{!Library}.

Lemma isna_plus_fares (rs : list row) :
  (∀ r, r ∈ rs → number_or_null (cell_of r "trip_fare")) →
  isna_sum ((λ r, cell_of r "trip_fare") <$> rs) + length (fares rs) = length rs.
Proof.
  unfold isna_sum, fares, trip_fare_of.
  induction rs as [|r rs IH]; intros Hrs; [done|].
  rewrite !fmap_cons. cbn [omap list_omap].
  specialize (IH ltac:(intros r' Hr'; apply Hrs; by right)).
  destruct (Hrs r ltac:(by left)) as [->|[n ->]].
  - rewrite filter_cons_True by done. simpl in *. lia.
  - rewrite filter_cons_False by done. simpl in *. lia.
Qed.

Lemma build_silver_dq (w0 w1 : World) (out : list line) (s : SilverFrames) :
  build_silver w0 = Ok (w1, out) →
  silver_snapshot w1 = Some s →
  ∃ t1 t2 t3 t4,
    audit_rejected_rows w1
    = audit_rejected_rows w0 ++
      [{| table_name := "customers"; missing_values := isna_sum_sum (df_customers s);
          invalid_values := 0; processed_at := t1 |};
       {| table_name := "drivers"; missing_values := isna_sum_sum (df_drivers s);
          invalid_values := 0; processed_at := t2 |};
       {| table_name := "trips"; missing_values := 0;
          invalid_values := isna_sum (column "trip_fare" (df_trips s));
          processed_at := t3 |};
       {| table_name := "payments"; missing_values := 0;
          invalid_values := isna_sum (column "trip_fare" (df_payments s));
          processed_at := t4 |}] ∧
    log_dq_csv w1
    = <["payments" := [{| table_name := "payments"; missing_values := 0;
                          invalid_values := isna_sum (column "trip_fare" (df_payments s));
                          processed_at := t4 |}]]>
        (<["trips" := [{| table_name := "trips"; missing_values := 0;
                          invalid_values := isna_sum (column "trip_fare" (df_trips s));
                          processed_at := t3 |}]]>
           (<["drivers" := [{| table_name := "drivers";
                               missing_values := isna_sum_sum (df_drivers s);
                               invalid_values := 0; processed_at := t2 |}]]>
              (<["customers" := [{| table_name := "customers";
                                    missing_values := isna_sum_sum (df_customers s);
                                    invalid_values := 0; processed_at := t1 |}]]>
                 (log_dq_csv w0)))) ∧
    dq_counts out = [isna_sum_sum (df_customers s); isna_sum_sum (df_drivers s);
                     isna_sum (column "trip_fare" (df_trips s));
                     isna_sum (column "trip_fare" (df_payments s))].
Proof.
  intros Hrun Hsnap.
  destruct (build_silver_snapshot _ _ _ Hrun) as (b & s' & Hb & Hs & Hsnap').
  assert (s' = s) as -> by congruence.
  apply read_bronze_snapshot in Hb.
  revert Hrun. unfold build_silver. rewrite Hb. simpl. rewrite Hs. simpl. intros Hw.
  apply bind_Ok in Hw as (tf & [_ ->]%getitem_Ok & Hw).
  apply bind_Ok in Hw as (pf & [_ ->]%getitem_Ok & Hw).
  simpl in Hw. injection Hw as <- <-. simpl.
  rewrite <-!(assoc_L (++)). eexists _, _, _, _. split_and!; reflexivity.
Qed.

(** X5. The data-quality records of a Silver build: four rows are appended
    to the audit table, one per entity in the order customers, drivers,
    trips, payments; each carries the count the build prints for its entity,
    and the data-quality file of the entity holds that row and no other.
    The invalid count logged for trips (payments) is the number of null
    fares: with the number of non-null fares it adds up to the number of
    Silver trips (payments). *)
Theorem X5_dq_records_account_for_rows (w0 w1 : World) (out : list line) (s : SilverFrames) :
  build_silver w0 = Ok (w1, out) →
  silver_snapshot w1 = Some s →
  (table_name <$> drop (length (audit_rejected_rows w0)) (audit_rejected_rows w1))
  = ["customers"; "drivers"; "trips"; "payments"] ∧
  ((λ r, missing_values r + invalid_values r)
   <$> drop (length (audit_rejected_rows w0)) (audit_rejected_rows w1))
  = dq_counts out ∧
  (invalid_values <$> drop (length (audit_rejected_rows w0)) (audit_rejected_rows w1))
  = [0; 0; isna_sum (column "trip_fare" (df_trips s));
     isna_sum (column "trip_fare" (df_payments s))] ∧
  (∀ r, r ∈ drop (length (audit_rejected_rows w0)) (audit_rejected_rows w1) →
        log_dq_csv w1 !! table_name r = Some [r]) ∧
  isna_sum (column "trip_fare" (df_trips s)) + length (fares (rows (df_trips s)))
  = len (df_trips s) ∧
  isna_sum (column "trip_fare" (df_payments s)) + length (fares (rows (df_payments s)))
  = len (df_payments s).
Proof.
  intros Hrun Hsnap.
  destruct (build_silver_dq _ _ _ _ Hrun Hsnap) as (t1 & t2 & t3 & t4 & -> & -> & ->).
  rewrite drop_app_length. split; [done|]. split; [by rewrite !fmap_cons, !Nat.add_0_r|].
  split; [done|]. split.
  { intros r Hr. repeat (apply elem_of_cons in Hr as [->|Hr]; [by rewrite !lookup_insert|]).
    by apply elem_of_nil in Hr. }
  destruct (build_silver_snapshot _ _ _ Hrun) as (b & s' & _ & Hs & Hsnap').
  assert (s' = s) as -> by congruence.
  apply silver_frames_Ok in Hs as (_ & _ & _ & ->).
  cbn [fk_checked df_trips df_payments enum_checked typed]. unfold column, len. split.
  - apply isna_plus_fares. intros t. unfold fk_trips. rewrite !elem_of_keep_isin.
    cbn [enum_checked typed df_trips]. intros (_ & _ & Ht). by apply typed_numeric_cell in Ht.
  - apply isna_plus_fares. intros p. rewrite elem_of_keep_isin.
    intros [_ Hp]. by apply typed_numeric_cell in Hp.
Qed.

(** The snapshot file, the table and the printed line of each entity agree. *)
Lemma build_silver_snapshot_lines (w0 w1 : World) (out : list line) (s : SilverFrames) :
  build_silver w0 = Ok (w1, out) →
  silver_snapshot w1 = Some s →
  ∀ table df,
    (table, df) ∈ [("customers", df_customers s); ("drivers", df_drivers s);
                   ("trips", df_trips s); ("payments", df_payments s)] →
    silver w1 !! table = Some df ∧
    log_snapshots w1 !! ("silver", table) = Some (to_csv df) ∧
    PrintSnapshot "silver" table (len df) (md5 (to_csv df)) ∈ out.
Proof.
  intros Hrun Hsnap.
  apply build_silver_Ok in Hrun
    as (b' & s' & _ & _ & _ & Hsilver & _ & _ & _ & _ & Hlog & ->).
  assert (silver_snapshot w1 = Some s') as Hsnap'.
  { unfold silver_snapshot. rewrite Hsilver, !lookup_insert. simpl. by destruct s'. }
  assert (s' = s) as -> by congruence.
  intros table df Hin. rewrite Hsilver, Hlog. unfold md5_checksum.
  repeat (apply elem_of_cons in Hin as [[= -> ->]|Hin];
          [rewrite !lookup_insert; simpl; split; [done|split; [done|]];
           rewrite !elem_of_cons; tauto|]).
  by apply elem_of_nil in Hin.
Qed.

(** X6. For each entity, after a Silver build, the file
    [log/silver/<entity>.csv] holds the bytes of the Silver table now in the
    database, and the line printed for the entity gives that table's row
    count and the MD5 of those bytes. *)
Theorem X6_silver_snapshot_matches_table (w0 w1 : World) (out : list line)
  (table : string) (df : DataFrame) :
  build_silver w0 = Ok (w1, out) →
  table ∈ BRONZE_FILES →
  silver w1 !! table = Some df →
  log_snapshots w1 !! ("silver", table) = Some (to_csv df) ∧
  PrintSnapshot "silver" table (len df) (md5_checksum (to_csv df)) ∈ out.
Proof.
  intros Hrun Htable Hdf.
  destruct (build_silver_snapshot _ _ _ Hrun) as (b & s & _ & _ & Hsnap).
  pose proof (build_silver_snapshot_lines _ _ _ _ Hrun Hsnap) as Hall.
  unfold BRONZE_FILES in Htable.
  repeat (apply elem_of_cons in Htable as [->|Htable];
          [match goal with
           | |- context [("silver", ?t)] =>
               match constr:([("customers", df_customers s); ("drivers", df_drivers s);
                              ("trips", df_trips s); ("payments", df_payments s)]) with
               | context [(t, ?d)] =>
                   destruct (Hall t d) as (Hd & Hlog & Hline);
                   [rewrite !elem_of_cons; tauto|];
                   assert (d = df) as <- by congruence; by split
               end
           end|]).
  by apply elem_of_nil in Htable.
Qed.

End SilverAccounting.

Section SilverFailure.
Context `{Scalars} `{!Library}.

Lemma subseteq_cons_l {A} (x : A) (l k : list A) : x :: l ⊆ k ↔ x ∈ k ∧ l ⊆ k.
Proof.
  split.
  - intros Hsub. split; [apply Hsub; by left|]. intros y Hy. apply Hsub. by right.
  - intros [Hx Hl] y [->|Hy]%elem_of_cons; [done|by apply Hl].
Qed.

Lemma silver_frames_returns_iff (b : SilverFrames) :
  (∃ s, silver_frames b = Ok s) ↔ silver_columns_present b.
Proof.
  unfold silver_columns_present. rewrite !subseteq_cons_l. split.
  - intros [s (Hdd & Htd & Hfk & _)%silver_frames_Ok].
    apply silver_dedupe_Ok in Hdd as (? & ? & ? & ? & _).
    apply silver_types_Ok in Htd as (? & ? & ? & _).
    apply silver_fk_Ok in Hfk as (_ & Hc & _ & Hd & _ & Hp & _).
    cbn [enum_checked typed deduped df_trips df_payments dedupe_frame] in *.
    rewrite columns_setitem_in in Hc, Hd, Hp by done.
    repeat split; try done; apply list_subseteq_nil.
  - intros ((Hc1 & Hc2 & _) & (Hd1 & _) & (Ht1 & Ht2 & Ht3 & Ht4 & _) & (Hp1 & Hp2 & Hp3 & _)).
    exists (fk_checked (enum_checked (typed (deduped b)))). unfold silver_frames.
    rewrite (proj2 (silver_dedupe_Ok b (deduped b))) by done. simpl.
    rewrite (proj2 (silver_types_Ok (deduped b) (typed (deduped b)))) by done. simpl.
    rewrite silver_enum_Ok. simpl.
    apply silver_fk_Ok. rewrite columns_enum_drivers.
    cbn [enum_checked typed deduped df_trips df_payments df_customers df_drivers
         dedupe_frame columns].
    rewrite !columns_setitem_in by done. done.
Qed.

(** X7. The Silver build returns exactly when the four Bronze tables exist
    and carry the columns it reads without a guard: the natural keys, the
    typed columns and the foreign keys (vehicle_type is not among them).
    Otherwise it raises.  (Raising is a failed lookup of a table or of a
    column label: no other failure is modelled.) *)
Theorem X7_build_silver_returns_iff (w : World) :
  (∃ w1 out, build_silver w = Ok (w1, out)) ↔
  (∃ b, bronze_snapshot w = Some b ∧ silver_columns_present b).
Proof.
  split.
  - intros (w1 & out & (b & s & Hb & Hs & _)%build_silver_Ok).
    exists b. split; [by apply read_bronze_snapshot|].
    apply silver_frames_returns_iff. by exists s.
  - intros (b & Hb%read_bronze_snapshot & [s Hs]%silver_frames_returns_iff).
    by apply (build_silver_returns w b s).
Qed.

(** X8. The Silver build invents nothing: each Silver table has the columns
    of its Bronze table and no more rows; the Silver drivers are Bronze
    driver rows in their Bronze order; a Silver customer, trip or payment is
    a Bronze row in which only the typed cell was replaced. *)
Theorem X8_silver_rows_come_from_bronze (w0 w1 : World) (out : list line)
  (b s : SilverFrames) :
  build_silver w0 = Ok (w1, out) →
  bronze_snapshot w0 = Some b →
  silver_snapshot w1 = Some s →
  (columns (df_customers s) = columns (df_customers b) ∧
   columns (df_drivers s) = columns (df_drivers b) ∧
   columns (df_trips s) = columns (df_trips b) ∧
   columns (df_payments s) = columns (df_payments b)) ∧
  (len (df_customers s) ≤ len (df_customers b) ∧
   len (df_drivers s) ≤ len (df_drivers b) ∧
   len (df_trips s) ≤ len (df_trips b) ∧
   len (df_payments s) ≤ len (df_payments b))%nat ∧
  rows (df_drivers s) `sublist_of` rows (df_drivers b) ∧
  (∀ c, c ∈ rows (df_customers s) →
        ∃ c0 v, c0 ∈ rows (df_customers b) ∧ c = <["signup_date" := v]> c0) ∧
  (∀ t, t ∈ rows (df_trips s) →
        ∃ t0 v, t0 ∈ rows (df_trips b) ∧ t = <["trip_fare" := v]> t0) ∧
  (∀ p, p ∈ rows (df_payments s) →
        ∃ p0 v, p0 ∈ rows (df_payments b) ∧ p = <["trip_fare" := v]> p0).
Proof.
  intros (b' & s' & Hb' & Hs & Hsnap)%build_silver_snapshot Hb Hsnap'.
  assert (b' = b) as -> by congruence. assert (s' = s) as -> by congruence.
  pose proof Hs as (_ & (Hsd & Htf & Hpf & _)%silver_types_Ok & _ & ->)%silver_frames_Ok.
  cbn [deduped dedupe_frame df_customers df_trips df_payments columns] in Hsd, Htf, Hpf.
  assert (rows (df_drivers (fk_checked (enum_checked (typed (deduped b)))))
          `sublist_of` rows (df_drivers b)) as Hdrivers.
  { cbn [fk_checked df_drivers]. unfold enum_checked; cbn [df_drivers typed deduped].
    case_decide; simpl; [etrans; [apply sublist_filter|]|]; apply drop_dups_sublist. }
  split; [|split; [|split; [done|]]].
  - cbn [fk_checked df_customers df_drivers df_trips df_payments]. rewrite columns_enum_drivers.
    cbn [enum_checked typed deduped df_customers df_drivers df_trips df_payments fk_trips
         keep_isin dedupe_frame columns].
    by rewrite !columns_setitem_in.
  - unfold len. split; [|split; [by apply sublist_length|split]].
    + cbn [fk_checked enum_checked typed deduped df_customers]. unfold to_datetime, column.
      rewrite rows_setitem_fmap, length_fmap. apply sublist_length, drop_dups_sublist.
    + cbn [fk_checked df_trips]. unfold fk_trips. cbn [keep_isin rows enum_checked typed df_trips].
      etrans; [apply length_filter|]. etrans; [apply length_filter|].
      unfold to_numeric, column.
      rewrite rows_setitem_fmap, length_fmap. apply sublist_length, drop_dups_sublist.
    + cbn [fk_checked df_payments keep_isin rows enum_checked typed].
      etrans; [apply length_filter|]. unfold to_numeric, column.
      rewrite rows_setitem_fmap, length_fmap. apply sublist_length, drop_dups_sublist.
  - split; [|split].
    + intros c. cbn [fk_checked enum_checked typed deduped df_customers].
      unfold to_datetime, column. rewrite rows_setitem_fmap.
      intros (c0 & -> & Hc0)%list_elem_of_fmap. eexists c0, _. split; [|done].
      eapply elem_of_sublist; [done|apply drop_dups_sublist].
    + intros t. cbn [fk_checked df_trips]. unfold fk_trips. rewrite !elem_of_keep_isin.
      cbn [enum_checked typed deduped df_trips]. intros (_ & _ & Ht).
      apply elem_of_rows_setitem_to_numeric in Ht as (t0 & v & Ht0 & ->).
      exists t0, v. split; [|done].
      eapply elem_of_sublist; [done|apply drop_dups_sublist].
    + intros p. cbn [fk_checked df_payments]. rewrite elem_of_keep_isin.
      cbn [enum_checked typed deduped df_payments]. intros (_ & Hp).
      apply elem_of_rows_setitem_to_numeric in Hp as (p0 & v & Hp0 & ->).
      exists p0, v. split; [|done].
      eapply elem_of_sublist; [done|apply drop_dups_sublist].
Qed.

End SilverFailure.

(** ** Deduplication, again *)

Section DedupMore.
Context `{Scalars}.
Implicit Types (key : row → cell) (seen : list cell) (rs : list row).

Lemma drop_dups_all_seen key seen rs :
  (∀ r, r ∈ rs → key r ∈ seen) → drop_dups key seen rs = [].
Proof.
  induction rs as [|r rs IH]; intros Hrs; [done|]. simpl.
  rewrite decide_True by (apply Hrs; by left). apply IH. intros r' Hr'. apply Hrs. by right.
Qed.

Lemma drop_dups_app key seen seen' rs rs' :
  (∀ k, k ∈ seen' ↔ k ∈ seen ∨ k ∈ key <$> rs) →
  drop_dups key seen (rs ++ rs') = drop_dups key seen rs ++ drop_dups key seen' rs'.
Proof.
  revert seen. induction rs as [|r rs IH]; intros seen Hseen.
  - simpl. revert seen seen' Hseen. induction rs' as [|r' rs' IH']; intros seen seen' Hseen; [done|].
    simpl. assert (key r' ∈ seen ↔ key r' ∈ seen') as Hiff.
    { rewrite Hseen, fmap_nil, elem_of_nil. tauto. }
    destruct (decide (key r' ∈ seen)), (decide (key r' ∈ seen')); try tauto.
    + by apply IH'.
    + f_equal. apply IH'. intros k. rewrite !elem_of_cons, Hseen, fmap_nil, elem_of_nil. tauto.
  - simpl. destruct (decide (key r ∈ seen)) as [Hin|Hout].
    + apply IH. intros k. rewrite Hseen, fmap_cons, elem_of_cons.
      split; [intros [?|[->|?]]; tauto|tauto].
    + simpl. f_equal. apply IH. intros k. rewrite Hseen, fmap_cons, !elem_of_cons. tauto.
Qed.

Lemma drop_dups_unique key seen rs :
  NoDup (key <$> rs) → (∀ r, r ∈ rs → key r ∉ seen) → drop_dups key seen rs = rs.
Proof.
  revert seen. induction rs as [|r rs IH]; intros seen Hnd Hrs; [done|].
  rewrite fmap_cons in Hnd. apply NoDup_cons in Hnd as [Hr Hnd]. simpl.
  rewrite decide_False by (apply Hrs; by left). f_equal. apply IH; [done|].
  intros r' Hr' [Heq|Hin]%elem_of_cons.
  - apply Hr. rewrite <-Heq. by apply list_elem_of_fmap_2.
  - apply (Hrs r'); [by right|done].
Qed.

(** X9. Deduplication is idempotent, and it absorbs rows appended after the
    fact: when every appended row carries a key that already occurs in the
    table, deduplicating the longer table gives the same result. *)
Theorem X9_drop_duplicates_absorbs_repeats (subset : string) (df df1 : DataFrame)
  (extra : list row) :
  drop_duplicates subset df = Ok df1 →
  (∀ r, r ∈ extra → cell_of r subset ∈ column subset df) →
  drop_duplicates subset df1 = Ok df1 ∧
  drop_duplicates subset {| columns := columns df; rows := rows df ++ extra |} = Ok df1.
Proof.
  intros [Hc ->]%drop_duplicates_Ok Hextra. split.
  - apply drop_duplicates_Ok. split; [done|]. simpl. f_equal.
    symmetry. apply drop_dups_unique; [apply NoDup_drop_dups_keys|].
    intros r _. apply not_elem_of_nil.
  - apply drop_duplicates_Ok. split; [done|]. simpl. f_equal.
    rewrite (drop_dups_app _ [] ((λ r, cell_of r subset) <$> rows df)).
    + rewrite (drop_dups_all_seen _ _ extra) by exact Hextra. by rewrite app_nil_r.
    + intros k. rewrite elem_of_nil. tauto.
Qed.

End DedupMore.

(** ** More on the Gold build *)

Section GoldMore.
Context `{Scalars} `{!Library}.

Lemma filter_nil_iff {A} (P : A → Prop) `{∀ x, Decision (P x)} (l : list A) :
  filter P l = [] ↔ ∀ x, x ∈ l → ¬ P x.
Proof.
  split; [|apply filter_none].
  intros Hnil x Hx HP. by apply (filter_nil_not_elem_of P l x).
Qed.

Lemma from_table_iff (schema : string) (tables : gmap string DataFrame) (table : string)
  (referenced : list string) (rs : list row) :
  from_table schema tables table referenced = Ok rs ↔
  ∃ df, tables !! table = Some df ∧ referenced ⊆ columns df ∧ rs = rows df.
Proof.
  unfold from_table. destruct (tables !! table) as [df|]; [|split; [done|by intros (? & ? & _)]].
  destruct (filter _ referenced) as [|c l] eqn:Hf; split.
  - intros [= <-]. exists df. split; [done|]. split; [|done].
    intros c Hc. apply filter_nil_iff with (x := c) in Hf; [|done]. by apply dec_stable.
  - intros (df' & [= <-] & _ & ->). done.
  - done.
  - intros (df' & [= <-] & Hsub & _).
    assert (c ∈ filter (λ c, c ∉ columns df) referenced) as Hc by (rewrite Hf; by left).
    apply list_elem_of_filter in Hc as [Hnot Hin]. destruct Hnot. by apply Hsub.
Qed.

Lemma silver_snapshot_Some (w : World) (s : SilverFrames) :
  silver_snapshot w = Some s ↔
  silver w !! "customers" = Some (df_customers s) ∧ silver w !! "drivers" = Some (df_drivers s) ∧
  silver w !! "trips" = Some (df_trips s) ∧ silver w !! "payments" = Some (df_payments s).
Proof.
  unfold silver_snapshot.
  destruct (silver w !! "customers"), (silver w !! "drivers"),
    (silver w !! "trips"), (silver w !! "payments"); simpl; destruct s; simpl;
    (split; [intros [= <- <- <- <-]; done|intros ([=] & [=] & [=] & [=]); congruence]).
Qed.

Lemma bronze_snapshot_Some (w : World) (b : SilverFrames) :
  bronze_snapshot w = Some b ↔
  bronze w !! "customers" = Some (df_customers b) ∧ bronze w !! "drivers" = Some (df_drivers b) ∧
  bronze w !! "trips" = Some (df_trips b) ∧ bronze w !! "payments" = Some (df_payments b).
Proof.
  unfold bronze_snapshot.
  destruct (bronze w !! "customers"), (bronze w !! "drivers"),
    (bronze w !! "trips"), (bronze w !! "payments"); simpl; destruct b; simpl;
    (split; [intros [= <- <- <- <-]; done|intros ([=] & [=] & [=] & [=]); congruence]).
Qed.

(** [build_gold] returns exactly on a world whose Silver tables carry the
    columns its statements name, and then replaces the three Gold tables. *)
Lemma build_gold_iff (w w' : World) (out : list line) :
  build_gold w = Ok (w', out) ↔
  ∃ s, silver_snapshot w = Some s ∧ gold_columns_present s ∧
       w' = set_gold (gold_tables_of s) w ∧
       out = [PrintDone "Gold layer built: driver_performance, route_performance, fact_trips_dashboard"].
Proof.
  split.
  - unfold build_gold. intros Hw.
    apply bind_Ok in Hw as (t1 & (t & Ht & Hc1 & ->)%from_table_iff & Hw).
    apply bind_Ok in Hw as (d1 & (d & Hd & Hc2 & ->)%from_table_iff & Hw).
    apply bind_Ok in Hw as (t2 & (t' & Ht' & Hc3 & ->)%from_table_iff & Hw).
    apply bind_Ok in Hw as (t3 & (t'' & Ht'' & Hc4 & ->)%from_table_iff & Hw).
    apply bind_Ok in Hw as (c1 & (c & Hc & Hc5 & ->)%from_table_iff & Hw).
    apply bind_Ok in Hw as (d2 & (d' & Hd' & Hc6 & ->)%from_table_iff & Hw).
    apply bind_Ok in Hw as (p1 & (p & Hp & Hc7 & ->)%from_table_iff & Hw).
    injection Hw as <- <-.
    assert (t' = t) as -> by congruence. assert (t'' = t) as -> by congruence.
    assert (d' = d) as -> by congruence.
    split_labels.
    exists {| df_customers := c; df_drivers := d; df_trips := t; df_payments := p |}.
    split; [by apply silver_snapshot_Some|]. split; [|done].
    unfold gold_columns_present. cbn [df_customers df_drivers df_trips df_payments].
    split_and!; solve_labels.
  - intros (s & (Hc & Hd & Ht & Hp)%silver_snapshot_Some & Hcols & -> & ->).
    unfold build_gold.
    assert (∀ table df refs, silver w !! table = Some df → refs ⊆ columns df →
              from_table "silver" (silver w) table refs = Ok (rows df)) as Hfrom.
    { intros table df refs Hdf Hrefs. apply from_table_iff. by exists df. }
    destruct Hcols as (Hcc & Hdc & Htc & Hpc). split_labels.
    rewrite (Hfrom "trips" (df_trips s) ["trip_fare"; "driver_id"])
      by first [done|solve_labels].
    rewrite (Hfrom "drivers" (df_drivers s) ["driver_id"; "driver_name"; "vehicle_type"])
      by first [done|solve_labels].
    simpl.
    rewrite (Hfrom "trips" (df_trips s) ["pickup_location"; "drop_location"; "trip_fare"])
      by first [done|solve_labels].
    rewrite (Hfrom "trips" (df_trips s)
               ["trip_id"; "customer_id"; "driver_id"; "pickup_location"; "drop_location";
                "trip_fare"]) by first [done|solve_labels].
    rewrite (Hfrom "customers" (df_customers s) ["customer_name"; "signup_date"; "customer_id"])
      by first [done|solve_labels].
    rewrite (Hfrom "drivers" (df_drivers s) ["driver_name"; "vehicle_type"; "driver_id"])
      by first [done|solve_labels].
    rewrite (Hfrom "payments" (df_payments s) ["trip_fare"; "mode_of_payment"; "trip_id"])
      by first [done|solve_labels].
    done.
Qed.

(** X10. A Gold build reads Silver and writes Gold only: where it returns,
    Bronze, Silver, the audit tables, the log files and the clock are as they
    were, and a second run returns the same world and prints the same. *)
Theorem X10_build_gold_idempotent (w w1 : World) (out : list line) :
  build_gold w = Ok (w1, out) →
  build_gold w1 = Ok (w1, out) ∧
  bronze w1 = bronze w ∧ silver w1 = silver w ∧
  audit_rejected_rows w1 = audit_rejected_rows w ∧
  audit_reconciliation_log w1 = audit_reconciliation_log w ∧
  log_snapshots w1 = log_snapshots w ∧ log_dq_csv w1 = log_dq_csv w ∧
  log_reconciliation_csv w1 = log_reconciliation_csv w ∧ clock w1 = clock w.
Proof.
  intros (s & Hs & Hcols & -> & ->)%build_gold_iff. split; [|done].
  apply build_gold_iff. exists s. done.
Qed.

(** X11. A Gold build returns exactly when the four Silver tables exist and
    carry every column its three statements name.  (Raising is a failed
    lookup of a table or column: SQL type errors are not modelled.) *)
Theorem X11_build_gold_returns_iff (w : World) :
  (∃ w1 out, build_gold w = Ok (w1, out)) ↔
  (∃ s, silver_snapshot w = Some s ∧ gold_columns_present s).
Proof.
  split.
  - intros (w1 & out & (s & Hs & Hcols & _)%build_gold_iff). by exists s.
  - intros (s & Hs & Hcols). eexists _, _. apply build_gold_iff. by exists s.
Qed.

End GoldMore.

(** ** Groups *)

Section Groups.
Context `{Scalars} `{!Library}.

Lemma sum_list_with_ext {A} (f g : A → nat) (l : list A) :
  (∀ x, x ∈ l → f x = g x) → sum_list_with f l = sum_list_with g l.
Proof.
  induction l as [|a l IH]; intros Hfg; [done|]. simpl.
  rewrite (Hfg a) by (by left). rewrite IH; [done|]. intros x Hx. apply Hfg. by right.
Qed.

(** The groups of a GROUP BY partition the rows. *)
Lemma group_sizes {A K} `{EqDecision K} (key : A → K) (ks : list K) :
  NoDup ks → ∀ l : list A, (∀ x, x ∈ l → key x ∈ ks) →
  sum_list_with (λ k, length (filter (λ x, key x = k) l)) ks = length l.
Proof.
  induction 1 as [|k ks Hk Hnd IH]; intros l Hl.
  - destruct l as [|a l]; [done|]. by destruct (not_elem_of_nil (key a)); apply Hl; left.
  - cbn [sum_list_with].
    rewrite (sum_list_with_ext _ (λ k', length (filter (λ x, key x = k')
                                                  (filter (λ x, key x ≠ k) l)))).
    + rewrite IH.
      * rewrite <-(length_app (filter _ l)).
        apply Permutation_length, (filter_app_complement (λ x, key x = k)).
      * intros x [Hne Hx]%list_elem_of_filter.
        apply Hl in Hx. apply elem_of_cons in Hx as [?|?]; done.
    + intros k' Hk'. f_equal. symmetry. apply list_filter_filter_l.
      intros x -> ->. done.
Qed.




End Groups.

(** ** Gold tables and reconciliation *)

Section GoldAndReconcile.
Context `{Scalars} `{!Library}.

(** X12. The routes partition the trips: the route performance table lists
    every (pickup, drop) pair once, the trips_count of a row is the number of
    Silver trips on that route, and the counts add up to the number of Silver
    trips. *)
Theorem X12_routes_partition_trips (w w' : World) (out : list line)
  (t : DataFrame) (g : GoldTables) :
  build_gold w = Ok (w', out) →
  silver w !! "trips" = Some t →
  gold w' = Some g →
  NoDup ((λ r, (rp_pickup_location r, rp_drop_location r)) <$> route_performance g) ∧
  (∀ r, r ∈ route_performance g →
        rp_trips_count r
        = length (filter (λ x, route_of x = (rp_pickup_location r, rp_drop_location r)) (rows t)) ∧
        (1 ≤ rp_trips_count r)%nat) ∧
  sum_list_with rp_trips_count (route_performance g) = len t.
Proof.
  intros (s & (_ & _ & Ht & _)%silver_snapshot_Some & _ & -> & _)%build_gold_iff Ht' [= <-].
  assert (df_trips s = t) as Heq by congruence.
  cbn [gold_tables_of route_performance]. rewrite Heq.
  unfold select_route_performance, group_by.
  rewrite <-!list_fmap_compose. split; [|split].
  - erewrite list_fmap_ext; [rewrite list_fmap_id; apply NoDup_remove_dups|].
    by intros _ [k1 k2] _.
  - intros r (k & -> & Hk)%list_elem_of_fmap. simpl. split; [by destruct k|].
    apply elem_of_remove_dups, list_elem_of_fmap in Hk as (x & -> & Hx).
    assert (x ∈ filter (λ y, (cell_of y "pickup_location", cell_of y "drop_location")
                              = route_of x) (rows t)) as Hin
      by (by apply list_elem_of_filter).
    destruct (filter _ (rows t)); [by apply elem_of_nil in Hin|simpl; lia].
  - rewrite sum_list_with_fmap. simpl.
    apply (group_sizes route_of); [apply NoDup_remove_dups|].
    intros x Hx. apply elem_of_remove_dups. by apply list_elem_of_fmap_2.
Qed.

(** X13. After a Silver build, the driver performance table lists a driver
    only if it is a Silver driver with at least one Silver trip, and lists no
    driver_id twice; a listed driver_id is never null. *)
Theorem X13_listed_drivers_have_trips (w0 w1 w2 : World) (out1 out2 : list line)
  (s : SilverFrames) (g : GoldTables) :
  build_silver w0 = Ok (w1, out1) →
  build_gold w1 = Ok (w2, out2) →
  silver_snapshot w1 = Some s →
  gold w2 = Some g →
  NoDup (dp_driver_id <$> driver_performance g) ∧
  ∀ dp, dp ∈ driver_performance g →
    (1 ≤ dp_trips_count dp)%nat ∧
    dp_driver_id dp ≠ CNull ∧
    ∃ d, d ∈ rows (df_drivers s) ∧
         driver_key d = (dp_driver_id dp, dp_driver_name dp, dp_vehicle_type dp).
Proof.
  intros (b & s' & _ & Hs & Hsnap)%build_silver_snapshot
         (s'' & Hsnap' & _ & -> & _)%build_gold_iff Hsnap'' [= <-].
  assert (s' = s) as -> by congruence. assert (s'' = s) as -> by congruence.
  destruct (silver_keys_NoDup b s Hs) as [_ Hdu]. unfold column in Hdu.
  cbn [gold_tables_of driver_performance]. unfold select_driver_performance, group_by.
  set (joined := inner_join _ (rows (df_trips s)) (rows (df_drivers s))).
  assert (∀ k, k ∈ remove_dups ((λ td : row * row, driver_key td.2) <$> joined) →
               ∃ x d, (x, d) ∈ joined ∧ d ∈ rows (df_drivers s) ∧ driver_key d = k ∧
                      cell_of d "driver_id" ≠ CNull) as Hkeys.
  { intros k ([x d] & -> & Hxd)%elem_of_remove_dups%list_elem_of_fmap.
    exists x, d. split; [done|].
    apply elem_of_inner_join in Hxd as (_ & Hd & [Hnn _]%sql_eq_true). done. }
  rewrite <-!list_fmap_compose. split.
  - apply NoDup_fmap_2_strong; [|apply NoDup_remove_dups].
    intros k1 k2 (x1 & d1 & _ & Hd1 & <- & _)%Hkeys (x2 & d2 & _ & Hd2 & <- & _)%Hkeys.
    simpl. intros Hid.
    assert (d2 ∈ filter (λ d, cell_of d "driver_id" = cell_of d1 "driver_id")
                  (rows (df_drivers s))) as Hin by (by apply list_elem_of_filter).
    rewrite (filter_unique_key (λ d, cell_of d "driver_id") _ d1 Hdu Hd1) in Hin.
    apply list_elem_of_singleton in Hin. by subst.
  - intros dp (k & -> & Hk)%list_elem_of_fmap. simpl.
    destruct (Hkeys k Hk) as (x & d & Hxd & Hd & <- & Hnn). split; [|split; [done|]].
    + assert ((x, d) ∈ filter (λ td : row * row, driver_key td.2 = driver_key d) joined)
        as Hin by (by apply list_elem_of_filter).
      destruct (filter _ joined); [by apply elem_of_nil in Hin|simpl; lia].
    + by exists d.
Qed.

(** The first statement of [build_gold] names driver_name and vehicle_type
    of the Silver drivers: without vehicle_type it cannot run. *)
Lemma build_gold_missing_driver_column (w : World) (s : SilverFrames) :
  silver_snapshot w = Some s →
  "trip_fare" ∈ columns (df_trips s) → "driver_id" ∈ columns (df_trips s) →
  "driver_id" ∈ columns (df_drivers s) →
  "vehicle_type" ∉ columns (df_drivers s) →
  ∃ c, c ∈ ["driver_name"; "vehicle_type"] ∧ (c ∉ columns (df_drivers s)) ∧
       build_gold w = Err (UndefinedColumn "drivers" c).
Proof.
  intros (_ & Hsd & Hst & _)%silver_snapshot_Some Htf Htid Hdid Hvt.
  assert (from_table "silver" (silver w) "trips" ["trip_fare"; "driver_id"]
          = Ok (rows (df_trips s))) as Hfrom.
  { apply from_table_iff. exists (df_trips s). split; [done|]. split; [solve_labels|done]. }
  assert (∃ c, c ∈ ["driver_name"; "vehicle_type"] ∧ (c ∉ columns (df_drivers s)) ∧
               from_table "silver" (silver w) "drivers"
                 ["driver_id"; "driver_name"; "vehicle_type"]
               = Err (UndefinedColumn "drivers" c)) as (c & Hc & Hnc & Hdrivers).
  { unfold from_table. rewrite Hsd.
    rewrite (filter_cons_False _ "driver_id") by (intros Hn; by apply Hn).
    destruct (decide ("driver_name" ∈ columns (df_drivers s))) as [Hname|Hname].
    - rewrite (filter_cons_False _ "driver_name") by (intros Hn; by apply Hn).
      rewrite (filter_cons_True _ "vehicle_type") by done.
      exists "vehicle_type". split; [by right; left|done].
    - rewrite (filter_cons_True _ "driver_name") by done.
      exists "driver_name". split; [by left|done]. }
  exists c. split; [done|]. split; [done|].
  unfold build_gold. by rewrite Hfrom, Hdrivers.
Qed.

(** The Silver build keeps the columns of the Bronze tables. *)
Lemma silver_frames_same_columns (b s : SilverFrames) :
  silver_frames b = Ok s →
  columns (df_customers s) = columns (df_customers b) ∧
  columns (df_drivers s) = columns (df_drivers b) ∧
  columns (df_trips s) = columns (df_trips b) ∧
  columns (df_payments s) = columns (df_payments b).
Proof.
  intros Hs.
  pose proof Hs as (_ & (Hsd & Htf & Hpf & _)%silver_types_Ok & _ & ->)%silver_frames_Ok.
  cbn [deduped dedupe_frame df_customers df_trips df_payments columns] in Hsd, Htf, Hpf.
  cbn [fk_checked df_customers df_drivers df_trips df_payments]. rewrite columns_enum_drivers.
  cbn [enum_checked typed deduped df_customers df_drivers df_trips df_payments fk_trips
       keep_isin dedupe_frame columns].
  by rewrite !columns_setitem_in.
Qed.

(** X14. A Silver build over drivers that have no vehicle_type column
    returns, but the Gold build that follows raises: its first statement
    names a column of the Silver drivers table that is not there. *)
Theorem X14_gold_needs_vehicle_type (w0 w1 : World) (out : list line) (d : DataFrame) :
  build_silver w0 = Ok (w1, out) →
  bronze w0 !! "drivers" = Some d →
  "vehicle_type" ∉ columns d →
  ∃ c, c ∈ ["driver_name"; "vehicle_type"] ∧ (c ∉ columns d) ∧
       build_gold w1 = Err (UndefinedColumn "drivers" c).
Proof.
  intros Hrun Hd Hvt.
  pose proof Hrun
    as (b & s & (Hbc & Hbd & Hbt & Hbp)%bronze_snapshot_Some & Hs & Hsnap)%build_silver_snapshot.
  assert (df_drivers b = d) as Hdb by congruence.
  destruct (silver_frames_same_columns _ _ Hs) as (_ & Hcols & Hcolt & _).
  rewrite Hdb in Hcols. rewrite <-Hcols in *.
  assert (silver_columns_present b) as (_ & Hcd & Hct & _).
  { apply silver_frames_returns_iff. by exists s. }
  rewrite <-Hcolt in Hct. rewrite Hdb, <-Hcols in Hcd. split_labels.
  by apply (build_gold_missing_driver_column w1 s).
Qed.

End GoldAndReconcile.

(** ** Reconciliation *)

Section ReconcileMore.
Context `{Scalars} `{!Library}.

Lemma subseteq_singleton_l {A} (x : A) (k : list A) : [x] ⊆ k ↔ x ∈ k.
Proof.
  rewrite list_subseteq_cons_iff. split; [by intros [? _]|].
  intros Hx. split; [done|apply list_subseteq_nil].
Qed.



(** The file grows by the new record; the table receives the whole file. *)
Lemma log_reconciliation_file (r : results) (w : World) :
  reconciliation_file (log_reconciliation r w)
  = reconciliation_file w ++ [{| metrics := r; checked_at := now (clock w) |}] ∧
  audit_reconciliation_log (log_reconciliation r w)
  = audit_reconciliation_log w ++ reconciliation_file (log_reconciliation r w).
Proof.
  unfold reconciliation_file.
  cbn [log_reconciliation audit_reconciliation_log log_reconciliation_csv default].
  by destruct (log_reconciliation_csv w).
Qed.

(** [reconcile] returns exactly when the Silver trips and payments carry a
    trip_fare column and the Gold tables are there; the record it logs holds
    the metrics of those tables. *)
Lemma reconcile_iff (w w' : World) (out : list line) :
  reconcile w = Ok (w', out) ↔
  ∃ t p g, silver w !! "trips" = Some t ∧ "trip_fare" ∈ columns t ∧
           silver w !! "payments" = Some p ∧ "trip_fare" ∈ columns p ∧
           gold w = Some g ∧
           w' = log_reconciliation (metrics_of (rows t) (rows p) (fact_trips_dashboard g)) w ∧
           out = [PrintReconciliation (metrics_of (rows t) (rows p) (fact_trips_dashboard g));
                  PrintDone "Reconciliation logged (CSV + DB)."].
Proof.
  unfold reconcile. split.
  - intros Hw.
    apply bind_Ok in Hw as (t1 & (t & Ht & Hct%subseteq_singleton_l & ->)%from_table_iff & Hw).
    apply bind_Ok in Hw as (p1 & (p & Hp & Hcp%subseteq_singleton_l & ->)%from_table_iff & Hw).
    apply bind_Ok in Hw as (g1 & Hg & Hw).
    destruct (gold w) as [g|] eqn:Hgold; [|done]. injection Hg as <-.
    injection Hw as <- <-. by exists t, p, g.
  - intros (t & p & g & Ht & Hct & Hp & Hcp & Hg & -> & ->).
    rewrite (proj2 (from_table_iff "silver" (silver w) "trips" ["trip_fare"] (rows t)))
      by (exists t; by rewrite subseteq_singleton_l).
    rewrite (proj2 (from_table_iff "silver" (silver w) "payments" ["trip_fare"] (rows p)))
      by (exists p; by rewrite subseteq_singleton_l).
    by rewrite Hg.
Qed.

(** X15. Reconciliation returns exactly when the Silver trips and payments
    tables exist with a trip_fare column and the Gold fact table exists;
    otherwise it raises.  (Raising is a failed lookup of a table or column:
    SQL type errors are not modelled.) *)
Theorem X15_reconcile_returns_iff (w : World) :
  (∃ w1 out, reconcile w = Ok (w1, out)) ↔
  (∃ t p g, silver w !! "trips" = Some t ∧ "trip_fare" ∈ columns t ∧
            silver w !! "payments" = Some p ∧ "trip_fare" ∈ columns p ∧
            gold w = Some g).
Proof.
  split.
  - intros (w1 & out & (t & p & g & Ht & Hct & Hp & Hcp & Hg & _)%reconcile_iff).
    by exists t, p, g.
  - intros (t & p & g & Ht & Hct & Hp & Hcp & Hg). eexists _, _.
    apply reconcile_iff. by exists t, p, g.
Qed.


(** X17. What a reconciliation logs: the file [log/gold/reconciliation.csv]
    grows by the new record, and the audit table receives the whole file,
    the records of earlier runs included, with the new record last.  So the
    table holds the records of a file that was not empty once more after
    every run. *)
Theorem X17_reconciliation_table_receives_file (w w' : World) (out : list line) :
  reconcile w = Ok (w', out) →
  ∃ rec,
    out = [PrintReconciliation (metrics rec); PrintDone "Reconciliation logged (CSV + DB)."] ∧
    checked_at rec = now (clock w) ∧
    reconciliation_file w' = reconciliation_file w ++ [rec] ∧
    audit_reconciliation_log w' = audit_reconciliation_log w ++ reconciliation_file w' ∧
    length (audit_reconciliation_log w')
    = length (audit_reconciliation_log w) + length (reconciliation_file w) + 1.
Proof.
  intros (t & p & g & _ & _ & _ & _ & _ & -> & ->)%reconcile_iff.
  eexists {| metrics := _; checked_at := _ |}. split; [reflexivity|].
  unfold reconciliation_file.
  cbn [log_reconciliation audit_reconciliation_log log_reconciliation_csv checked_at default].
  split; [done|].
  destruct (log_reconciliation_csv w) as [old|]; cbn [default];
    (split; [done|]; split; [done|]); rewrite !length_app; simpl; lia.
Qed.

End ReconcileMore.

(** ** The Bronze load and the layers of the stages *)

Section Stages.
Context `{Scalars} `{!Library}.

(** Replacing the entries of [t :: ts] that a source has, one key at a time. *)
Lemma overlay_step {K V} `{Countable K} (src : K → option V) (t : K) (ts : list K)
  (m : gmap K V) (k : K) :
  match (if decide (k ∈ ts) then src k else None) with
  | Some x => Some x
  | None => match src t with Some x => <[t:=x]> m | None => m end !! k
  end
  = match (if decide (k ∈ t :: ts) then src k else None) with
    | Some x => Some x
    | None => m !! k
    end.
Proof.
  destruct (decide (k = t)) as [->|Hne].
  - rewrite (decide_True (P := t ∈ t :: ts)) by (by left).
    destruct (src t) as [x|] eqn:Hsrc.
    + case_decide; [done|]. by rewrite lookup_insert_eq.
    + by case_decide.
  - assert ((match src t with Some x => <[t:=x]> m | None => m end) !! k = m !! k) as ->.
    { destruct (src t); [by rewrite lookup_insert_ne|done]. }
    destruct (decide (k ∈ ts)) as [Hin|Hnin].
    + by rewrite decide_True by (by right).
    + rewrite decide_False; [done|]. by intros [?|?]%elem_of_cons.
Qed.

Lemma load_bronze_fold (raw : gmap string DataFrame) (ts : list string)
  (acc : World * list line) :
  (∀ k, bronze (foldl (load_bronze_table raw) acc ts).1 !! k
        = match (if decide (k ∈ ts) then raw !! k else None) with
          | Some df => Some df
          | None => bronze acc.1 !! k
          end) ∧
  (∀ k, log_snapshots (foldl (load_bronze_table raw) acc ts).1 !! k
        = match (if decide (k ∈ pair "bronze" <$> ts) then to_csv <$> raw !! k.2 else None) with
          | Some out => Some out
          | None => log_snapshots acc.1 !! k
          end) ∧
  silver (foldl (load_bronze_table raw) acc ts).1 = silver acc.1 ∧
  gold (foldl (load_bronze_table raw) acc ts).1 = gold acc.1 ∧
  audit_rejected_rows (foldl (load_bronze_table raw) acc ts).1 = audit_rejected_rows acc.1 ∧
  audit_reconciliation_log (foldl (load_bronze_table raw) acc ts).1
  = audit_reconciliation_log acc.1 ∧
  log_dq_csv (foldl (load_bronze_table raw) acc ts).1 = log_dq_csv acc.1 ∧
  log_reconciliation_csv (foldl (load_bronze_table raw) acc ts).1
  = log_reconciliation_csv acc.1 ∧
  clock (foldl (load_bronze_table raw) acc ts).1 = clock acc.1 ∧
  (foldl (load_bronze_table raw) acc ts).2 = acc.2 ++ (bronze_line raw <$> ts).
Proof.
  revert acc. induction ts as [|t ts IH]; intros acc.
  - simpl. rewrite app_nil_r. split_and!; try done; intros k; by case_decide.
  - cbn [foldl].
    destruct (IH (load_bronze_table raw acc t))
      as (Hb & Hl & -> & -> & -> & -> & -> & -> & -> & ->).
    assert (bronze (load_bronze_table raw acc t).1
            = match raw !! t with Some df => <[t:=df]> (bronze acc.1) | None => bronze acc.1 end
            ∧ log_snapshots (load_bronze_table raw acc t).1
              = match to_csv <$> raw !! t with
                | Some out => <[("bronze", t):=out]> (log_snapshots acc.1)
                | None => log_snapshots acc.1
                end
            ∧ silver (load_bronze_table raw acc t).1 = silver acc.1
            ∧ gold (load_bronze_table raw acc t).1 = gold acc.1
            ∧ audit_rejected_rows (load_bronze_table raw acc t).1 = audit_rejected_rows acc.1
            ∧ audit_reconciliation_log (load_bronze_table raw acc t).1
              = audit_reconciliation_log acc.1
            ∧ log_dq_csv (load_bronze_table raw acc t).1 = log_dq_csv acc.1
            ∧ log_reconciliation_csv (load_bronze_table raw acc t).1
              = log_reconciliation_csv acc.1
            ∧ clock (load_bronze_table raw acc t).1 = clock acc.1
            ∧ (load_bronze_table raw acc t).2 = acc.2 ++ [bronze_line raw t])
      as (Hb1 & Hl1 & -> & -> & -> & -> & -> & -> & -> & ->).
    { unfold load_bronze_table, bronze_line. destruct (raw !! t); done. }
    split_and!; try done.
    + intros k. rewrite Hb, Hb1. apply (overlay_step (λ k, raw !! k)).
    + intros k. rewrite Hl, Hl1, fmap_cons.
      apply (overlay_step (λ k, to_csv <$> raw !! k.2) ("bronze", t)).
    + by rewrite fmap_cons, <-(assoc_L (++)).
Qed.

Lemma load_bronze_Ok (raw : gmap string DataFrame) (w w1 : World) (out : list line) :
  load_bronze raw w = Ok (w1, out) →
  w1 = (foldl (load_bronze_table raw) (w, []) BRONZE_FILES).1 ∧
  out = (bronze_line raw <$> BRONZE_FILES) ++ [PrintDone "Bronze load complete."].
Proof.
  unfold load_bronze.
  pose proof (load_bronze_fold raw BRONZE_FILES (w, [])) as (_ & _ & _ & _ & _ & _ & _ & _ & _ & Ho).
  destruct (foldl _ _ BRONZE_FILES) as [w' out'] eqn:Hfold.
  intros [= <- <-]. simpl in Ho. by rewrite Ho.
Qed.

Lemma World_eq (w w' : World) :
  bronze w = bronze w' → silver w = silver w' → gold w = gold w' →
  audit_rejected_rows w = audit_rejected_rows w' →
  audit_reconciliation_log w = audit_reconciliation_log w' →
  log_snapshots w = log_snapshots w' → log_dq_csv w = log_dq_csv w' →
  log_reconciliation_csv w = log_reconciliation_csv w' → clock w = clock w' →
  w = w'.
Proof. destruct w, w'; simpl; congruence. Qed.

(** X18. The Bronze load replaces the table of every entity whose extract is
    there by the extract, writes its snapshot file and prints its row count
    and checksum; an entity without an extract is reported and its table left
    as it was.  Silver and Gold are not touched. *)
Theorem X18_load_bronze_replaces_or_skips (raw : gmap string DataFrame) (w w1 : World)
  (out : list line) :
  load_bronze raw w = Ok (w1, out) →
  (∀ table, bronze w1 !! table = bronze_loaded raw (bronze w) table) ∧
  (∀ table df, table ∈ BRONZE_FILES → raw !! table = Some df →
     log_snapshots w1 !! ("bronze", table) = Some (to_csv df)) ∧
  silver w1 = silver w ∧ gold w1 = gold w ∧
  out = (bronze_line raw <$> BRONZE_FILES) ++ [PrintDone "Bronze load complete."].
Proof.
  intros [-> ->]%load_bronze_Ok.
  destruct (load_bronze_fold raw BRONZE_FILES (w, []))
    as (Hb & Hl & Hs & Hg & _).
  split_and!; try done.
  intros table df Hin Hdf. rewrite Hl.
  rewrite decide_True by (by apply (list_elem_of_fmap_2 (pair "bronze"))).
  cbn [snd]. by rewrite Hdf.
Qed.

(** X19. The Bronze load is idempotent: loading the same extracts again
    leaves the world as the first load left it and prints the same lines. *)
Theorem X19_load_bronze_idempotent (raw : gmap string DataFrame) (w w1 : World)
  (out : list line) :
  load_bronze raw w = Ok (w1, out) → load_bronze raw w1 = Ok (w1, out).
Proof.
  intros [Hw1 ->]%load_bronze_Ok.
  destruct (load_bronze_fold raw BRONZE_FILES (w, []))
    as (Hb & Hl & Hs & Hg & Hr & Ha & Hd & Hc & Hk & _).
  rewrite <-Hw1 in *. clear Hw1. simpl in *.
  destruct (load_bronze_fold raw BRONZE_FILES (w1, []))
    as (Hb' & Hl' & Hs' & Hg' & Hr' & Ha' & Hd' & Hc' & Hk' & Ho').
  unfold load_bronze.
  destruct (foldl _ (w1, []) BRONZE_FILES) as [w2 out2]. simpl in *.
  rewrite Ho'. do 2 f_equal. apply World_eq; try done.
  - apply map_eq. intros k. rewrite Hb', Hb. by destruct (if decide _ then _ else _).
  - apply map_eq. intros k. rewrite Hl', Hl. by destruct (if decide _ then _ else _).
Qed.

(** X20. Every stage writes its own layer only: the Bronze load leaves Silver
    and Gold alone, the Silver build Bronze and Gold, the Gold build Bronze
    and Silver, and reconciliation all the tables, the snapshot files and the
    rejected-rows log. *)
Theorem X20_stages_write_their_own_layer (st : stage) (w : World) :
  match st with
  | LoadBronze _ => silver (after st w) = silver w ∧ gold (after st w) = gold w
  | BuildSilver => bronze (after st w) = bronze w ∧ gold (after st w) = gold w
  | BuildGold =>
      bronze (after st w) = bronze w ∧ silver (after st w) = silver w ∧
      log_snapshots (after st w) = log_snapshots w
  | Reconcile =>
      bronze (after st w) = bronze w ∧ silver (after st w) = silver w ∧
      gold (after st w) = gold w ∧ log_snapshots (after st w) = log_snapshots w ∧
      audit_rejected_rows (after st w) = audit_rejected_rows w
  end.
Proof.
  unfold after.
  destruct st as [raw| | |]; cbn [run_stage];
    [destruct (load_bronze raw w) as [[w' out]|e] eqn:Hrun
    |destruct (build_silver w) as [[w' out]|e] eqn:Hrun
    |destruct (build_gold w) as [[w' out]|e] eqn:Hrun
    |destruct (reconcile w) as [[w' out]|e] eqn:Hrun]; try done.
  - apply load_bronze_Ok in Hrun as [-> _].
    by destruct (load_bronze_fold raw BRONZE_FILES (w, [])) as (_ & _ & Hs & Hg & _).
  - by apply build_silver_Ok in Hrun as (b & s & _ & _ & -> & _ & -> & _).
  - by apply build_gold_iff in Hrun as (s & _ & _ & -> & _).
  - by apply reconcile_Ok in Hrun as [r ->].
Qed.

End Stages.

(** ** The audit logs and the snapshot files *)

Section AuditLogs.
Context `{Scalars} `{!Library}.

(** C3, as the code has it. No stage removes or replaces a record of the two
    audit tables or of the reconciliation log file: what they held before a
    stage is a prefix of what they hold after it.  The snapshot files are
    rewritten: after a Bronze load or a Silver build that returns, the file of
    every table the stage wrote holds the CSV of that table, whatever it held
    before, and the row count and checksum of that CSV are printed.  Taking a
    snapshot prints them and adds nothing to the audit tables, to the
    data-quality files or to the reconciliation file. *)
Theorem C3_audit_tables_append_only (st : stage) (w : World) :
  audit_rejected_rows w `prefix_of` audit_rejected_rows (after st w) ∧
  audit_reconciliation_log w `prefix_of` audit_reconciliation_log (after st w) ∧
  match log_reconciliation_csv w with
  | Some old => ∃ new, log_reconciliation_csv (after st w) = Some new ∧ old `prefix_of` new
  | None => True
  end ∧
  (∀ w' out layer table df,
     run_stage st w = Ok (w', out) →
     snapshot_taken st w' layer table df →
     log_snapshots w' !! (layer, table) = Some (to_csv df) ∧
     PrintSnapshot layer table (len df) (md5_checksum (to_csv df)) ∈ out) ∧
  (∀ df layer table w0,
     (log_rows_and_checksum df layer table w0).2
     = PrintSnapshot layer table (len df) (md5_checksum (to_csv df)) ∧
     audit_rejected_rows (log_rows_and_checksum df layer table w0).1 = audit_rejected_rows w0 ∧
     audit_reconciliation_log (log_rows_and_checksum df layer table w0).1
     = audit_reconciliation_log w0 ∧
     log_dq_csv (log_rows_and_checksum df layer table w0).1 = log_dq_csv w0 ∧
     log_reconciliation_csv (log_rows_and_checksum df layer table w0).1
     = log_reconciliation_csv w0).
Proof.
  split_and!; [| | | |done].
  - unfold after. destruct (run_stage st w) as [[w' out]|e] eqn:Hrun; [|done].
    destruct st as [raw| | |]; cbn [run_stage] in Hrun.
    + by apply load_bronze_audit in Hrun as (-> & _).
    + apply build_silver_Ok in Hrun as (b & s & _ & _ & _ & _ & _ & (recs & -> & _) & _).
      by apply prefix_app_r.
    + by apply build_gold_Ok in Hrun as (t & c & d & p & _ & _ & _ & _ & ->).
    + by apply reconcile_Ok in Hrun as [r ->].
  - unfold after. destruct (run_stage st w) as [[w' out]|e] eqn:Hrun; [|done].
    destruct st as [raw| | |]; cbn [run_stage] in Hrun.
    + by apply load_bronze_audit in Hrun as (_ & -> & _).
    + by apply build_silver_Ok in Hrun as (b & s & _ & _ & _ & _ & _ & _ & -> & _).
    + by apply build_gold_Ok in Hrun as (t & c & d & p & _ & _ & _ & _ & ->).
    + apply reconcile_Ok in Hrun as [r ->]. by apply prefix_app_r.
  - assert (match log_reconciliation_csv w with
            | Some old => ∃ new, log_reconciliation_csv w = Some new ∧ old `prefix_of` new
            | None => True
            end) as Hsame.
    { destruct (log_reconciliation_csv w) as [old|]; [|done]. by exists old. }
    unfold after. destruct (run_stage st w) as [[w' out]|e] eqn:Hrun; [|done].
    destruct st as [raw| | |]; cbn [run_stage] in Hrun.
    + by apply load_bronze_audit in Hrun as (_ & _ & ->).
    + by apply build_silver_Ok in Hrun as (b & s & _ & _ & _ & _ & _ & _ & _ & -> & _).
    + by apply build_gold_Ok in Hrun as (t & c & d & p & _ & _ & _ & _ & ->).
    + apply reconcile_Ok in Hrun as [r ->]. cbn.
      destruct (log_reconciliation_csv w) as [old|]; [|done].
      eexists. split; [done|]. by apply prefix_app_r.
  - intros w' out layer table df Hrun [Htable Htaken].
    destruct st as [raw| | |]; cbn [run_stage] in Hrun; try done.
    + destruct Htaken as [-> Hdf]. apply load_bronze_Ok in Hrun as [-> ->].
      destruct (load_bronze_fold raw BRONZE_FILES (w, [])) as (_ & Hl & _).
      split.
      * rewrite Hl. rewrite decide_True by (by apply (list_elem_of_fmap_2 (pair "bronze"))).
        cbn [snd]. by rewrite Hdf.
      * apply elem_of_app. left.
        apply (list_elem_of_fmap_2' (bronze_line raw) _ table); [done|].
        unfold bronze_line. by rewrite Hdf.
    + destruct Htaken as [-> Hdf].
      destruct (build_silver_snapshot _ _ _ Hrun) as (b & s & _ & _ & Hsnap).
      pose proof (build_silver_snapshot_lines _ _ _ _ Hrun Hsnap) as Hall.
      unfold BRONZE_FILES in Htable.
      repeat (apply elem_of_cons in Htable as [->|Htable];
              [match goal with
               | |- context [("silver", ?t)] =>
                   match constr:([("customers", df_customers s); ("drivers", df_drivers s);
                                  ("trips", df_trips s); ("payments", df_payments s)]) with
                   | context [(t, ?d)] =>
                       destruct (Hall t d) as (Hd & Hlog & Hline);
                       [rewrite !elem_of_cons; tauto|];
                       assert (d = df) as <- by congruence; by split
                   end
               end|]).
      by apply elem_of_nil in Htable.
Qed.

End AuditLogs.

(** ** The command line *)

Section CommandLineProps.
Context `{Scalars} `{!Library}.

Lemma main_all (raw : gmap string DataFrame) (w : World) :
  main (Some "all") raw w
  = Some (and_then (and_then (and_then (and_then
            {| final := w; console := []; raised := None |}
            (load_bronze raw)) build_silver) build_gold) reconcile).
Proof. reflexivity. Qed.

Lemma load_bronze_returns (raw : gmap string DataFrame) (w : World) :
  ∃ w1 out, load_bronze raw w = Ok (w1, out).
Proof. unfold load_bronze. destruct (foldl _ _ _). eauto. Qed.

(** A full run without an exception is the four stages in a row. *)
Lemma full_run_Ok (raw : gmap string DataFrame) (w : World) (o : outcome) :
  main (Some "all") raw w = Some o ∧ raised o = None ↔
  ∃ wa outa wb outb wc outc wd outd,
    load_bronze raw w = Ok (wa, outa) ∧ build_silver wa = Ok (wb, outb) ∧
    build_gold wb = Ok (wc, outc) ∧ reconcile wc = Ok (wd, outd) ∧
    o = {| final := wd; console := outa ++ outb ++ outc ++ outd; raised := None |}.
Proof.
  rewrite main_all. unfold and_then. cbn [raised final console]. split.
  - intros [Ho Hnone].
    destruct (load_bronze raw w) as [[wa outa]|e] eqn:Hl; cbn [raised final console] in Ho;
      [|by injection Ho as <-].
    destruct (build_silver wa) as [[wb outb]|e] eqn:Hs; cbn [raised final console] in Ho;
      [|by injection Ho as <-].
    destruct (build_gold wb) as [[wc outc]|e] eqn:Hg; cbn [raised final console] in Ho;
      [|by injection Ho as <-].
    destruct (reconcile wc) as [[wd outd]|e] eqn:Hr; cbn [raised final console] in Ho;
      [|by injection Ho as <-].
    injection Ho as <-. exists wa, outa, wb, outb, wc, outc, wd, outd.
    split_and!; try done. by rewrite !(assoc_L (++)).
  - intros (wa & outa & wb & outb & wc & outc & wd & outd & -> & Hs & Hg & Hr & ->).
    cbn [raised final console]. rewrite Hs. cbn [raised final console].
    rewrite Hg. cbn [raised final console]. rewrite Hr.
    by rewrite !(assoc_L (++)).
Qed.

Lemma load_bronze_snapshot (raw : gmap string DataFrame) (w wa : World) (outa : list line)
  (b : SilverFrames) :
  load_bronze raw w = Ok (wa, outa) →
  raw !! "customers" = Some (df_customers b) → raw !! "drivers" = Some (df_drivers b) →
  raw !! "trips" = Some (df_trips b) → raw !! "payments" = Some (df_payments b) →
  bronze_snapshot wa = Some b.
Proof.
  intros [-> _]%load_bronze_Ok Hc Hd Ht Hp.
  destruct (load_bronze_fold raw BRONZE_FILES (w, [])) as (Hb & _).
  apply bronze_snapshot_Some.
  rewrite !Hb, Hc, Hd, Ht, Hp. done.
Qed.


(** X22. When the drivers extract has no vehicle_type column, a full run
    ends at the Gold build with an exception that names a missing column of
    the Silver drivers.  The stages before it keep their effects: Bronze and
    Silver are written; Gold and the reconciliation log are as they were. *)
Theorem X22_full_run_stops_at_gold (raw : gmap string DataFrame) (w : World)
  (b : SilverFrames) :
  raw !! "customers" = Some (df_customers b) → raw !! "drivers" = Some (df_drivers b) →
  raw !! "trips" = Some (df_trips b) → raw !! "payments" = Some (df_payments b) →
  silver_columns_present b →
  "vehicle_type" ∉ columns (df_drivers b) →
  ∃ o s c, main (Some "all") raw w = Some o ∧
           raised o = Some (UndefinedColumn "drivers" c) ∧
           c ∈ ["driver_name"; "vehicle_type"] ∧
           silver_frames b = Ok s ∧
           bronze_snapshot (final o) = Some b ∧
           silver_snapshot (final o) = Some s ∧
           gold (final o) = gold w ∧
           audit_reconciliation_log (final o) = audit_reconciliation_log w.
Proof.
  intros Hc Hd Ht Hp Hsilver Hvt.
  destruct (load_bronze_returns raw w) as (wa & outa & Hl).
  pose proof (load_bronze_snapshot _ _ _ _ b Hl Hc Hd Ht Hp) as Hb.
  pose proof Hl as (_ & Hla & _)%load_bronze_audit.
  pose proof Hl as [-> _]%load_bronze_Ok.
  destruct (load_bronze_fold raw BRONZE_FILES (w, [])) as (_ & _ & _ & Hga & _).
  destruct (proj2 (silver_frames_returns_iff b) Hsilver) as [s Hs].
  destruct (build_silver_returns _ b s (proj2 (read_bronze_snapshot _ _) Hb) Hs)
    as (wb & outb & Hrun).
  pose proof Hrun as (b' & s' & Hb' & Hs' & Hsnap)%build_silver_snapshot.
  assert (b' = b) as -> by congruence. assert (s' = s) as -> by congruence.
  pose proof Hrun as (_ & _ & _ & _ & Hbronze & _ & Hgb & _ & Hlog & _)%build_silver_Ok.
  destruct (silver_frames_same_columns _ _ Hs) as (_ & Hcd & Hct & _).
  destruct Hsilver as (_ & Hpd & Hpt & _). rewrite <-Hcd in Hpd, Hvt. rewrite <-Hct in Hpt.
  split_labels.
  destruct (build_gold_missing_driver_column wb s) as (c & Hcin & _ & Hg); try done.
  eexists _, s, c. rewrite main_all. unfold and_then. cbn [raised final console].
  rewrite Hl. cbn [raised final console]. rewrite Hrun. cbn [raised final console].
  rewrite Hg. cbn [raised final console].
  split_and!; try done; simpl.
  - unfold bronze_snapshot in *. by rewrite Hbronze.
  - by rewrite Hgb.
  - by rewrite Hlog.
Qed.

(** X23. A full run that raised nothing can be repeated: the second run
    raises nothing either, prints what the first printed, and leaves Bronze,
    Silver, Gold and the snapshot files as the first left them.  Each run
    adds a record with the same metrics to the reconciliation file, and the
    second run inserts the whole file, the first run's record included, into
    the audit table again. *)
Theorem X23_full_run_twice (raw : gmap string DataFrame) (w : World) (o : outcome) :
  main (Some "all") raw w = Some o → raised o = None →
  ∃ o', main (Some "all") raw (final o) = Some o' ∧ raised o' = None ∧
        console o' = console o ∧
        bronze (final o') = bronze (final o) ∧
        silver (final o') = silver (final o) ∧
        gold (final o') = gold (final o) ∧
        log_snapshots (final o') = log_snapshots (final o) ∧
        ∃ r c1 c2,
          reconciliation_file (final o)
          = reconciliation_file w ++ [{| metrics := r; checked_at := c1 |}] ∧
          reconciliation_file (final o')
          = reconciliation_file (final o) ++ [{| metrics := r; checked_at := c2 |}] ∧
          audit_reconciliation_log (final o')
          = audit_reconciliation_log (final o) ++ reconciliation_file (final o').
Proof.
  intros Hmain Hnone.
  destruct (proj1 (full_run_Ok raw w o) (conj Hmain Hnone))
    as (wa & outa & wb & outb & wc & outc & wd & outd & Hl & Hs & Hg & Hr & ->).
  cbn [final console]. clear Hmain Hnone.
  (* the first run *)
  pose proof Hl as [Hwa Houta]%load_bronze_Ok.
  destruct (load_bronze_fold raw BRONZE_FILES (w, []))
    as (Hba & Hla & Hsa & Hga & _ & Hra & _ & Hca & _).
  rewrite <-Hwa in Hba, Hla, Hsa, Hga, Hra, Hca.
  cbn [fst] in Hba, Hla, Hsa, Hga, Hra, Hca.
  pose proof Hs
    as (b & s & Hb & Hfr & Hbb & Hsb & Hgb & _ & Hrb & Hcb & Hlb & Houtb)%build_silver_Ok.
  pose proof Hs as (b' & s' & Hb0%read_bronze_snapshot & Hfr' & Hsnap)%build_silver_snapshot.
  assert (b' = b) as -> by congruence. assert (s' = s) as -> by congruence.
  clear Hb0 Hfr'.
  pose proof Hg as (s' & Hsnap' & Hcols & Hwc & Houtc)%build_gold_iff.
  assert (s' = s) as -> by congruence. clear Hsnap'.
  pose proof Hr as (t & p & g & Ht & Htf & Hp & Hpf & Hgold & Hwd & Houtd)%reconcile_iff.
  (* the second run *)
  destruct (load_bronze_returns raw wd) as (wa' & outa' & Hl').
  pose proof Hl' as [Hwa' Houta']%load_bronze_Ok.
  destruct (load_bronze_fold raw BRONZE_FILES (wd, []))
    as (Hba' & Hla' & Hsa' & Hga' & _ & Hra' & _ & Hca' & _).
  rewrite <-Hwa' in Hba', Hla', Hsa', Hga', Hra', Hca'.
  cbn [fst] in Hba', Hla', Hsa', Hga', Hra', Hca'.
  assert (bronze wd = bronze wa ∧ silver wd = silver wb ∧ gold wd = Some (gold_tables_of s) ∧
          log_snapshots wd = log_snapshots wb)
    as (Hbd & Hsd & Hgd & Hld).
  { rewrite Hwd, Hwc. cbn. by rewrite Hbb. }
  assert (reconciliation_file wc = reconciliation_file w) as Hfc.
  { unfold reconciliation_file. rewrite Hwc. cbn [set_gold log_reconciliation_csv].
    by rewrite Hcb, Hca. }
  assert (bronze wa' = bronze wa) as Hbronze.
  { apply map_eq. intros k. rewrite Hba', Hbd, Hba. by destruct (if decide _ then _ else _). }
  assert (read_bronze wa' = Ok b) as Hb' by (by rewrite (read_bronze_ext wa wa')).
  destruct (build_silver_returns wa' b s Hb' Hfr) as (wb' & outb' & Hs').
  pose proof Hs'
    as (b' & s' & Hb'' & Hfr' & Hbb' & Hsb' & Hgb' & _ & Hrb' & Hcb' & Hlb' & Houtb')
    %build_silver_Ok.
  assert (b' = b) as -> by congruence. assert (s' = s) as -> by congruence.
  assert (silver wb' = silver wb) as Hsilver.
  { rewrite Hsb', Hsa', Hsd, Hsb. apply replace_four_again. }
  assert (silver_snapshot wb' = Some s) as Hsnap'.
  { unfold silver_snapshot in *. by rewrite Hsilver. }
  assert (build_gold wb' = Ok (set_gold (gold_tables_of s) wb', outc)) as Hg'.
  { apply build_gold_iff. by exists s. }
  assert (g = gold_tables_of s) as -> by (rewrite Hwc in Hgold; by injection Hgold).
  assert (silver wc = silver wb) as Hsc by (by rewrite Hwc).
  assert (reconcile (set_gold (gold_tables_of s) wb')
          = Ok (log_reconciliation
                  (metrics_of (rows t) (rows p) (fact_trips_dashboard (gold_tables_of s)))
                  (set_gold (gold_tables_of s) wb'), outd)) as Hr'.
  { apply reconcile_iff. exists t, p, (gold_tables_of s).
    cbn [set_gold silver gold]. rewrite Hsilver, <-Hsc. split_and!; done. }
  eexists. split; [|split].
  { apply full_run_Ok. eexists _, _, _, _, _, _, _, _. split_and!; done. }
  { done. }
  cbn [final console].
  destruct (log_reconciliation_file
              (metrics_of (rows t) (rows p) (fact_trips_dashboard (gold_tables_of s))) wc)
    as [Hfd _].
  destruct (log_reconciliation_file
              (metrics_of (rows t) (rows p) (fact_trips_dashboard (gold_tables_of s)))
              (set_gold (gold_tables_of s) wb')) as [Hfd' Had'].
  rewrite <-Hwd, Hfc in Hfd.
  split_and!.
  - by rewrite Houta', Houta, Houtb', Houtb.
  - cbn [log_reconciliation set_gold bronze]. by rewrite Hbb', Hbronze, Hbd.
  - cbn [log_reconciliation set_gold silver]. by rewrite Hsilver, Hsd.
  - cbn [log_reconciliation set_gold gold]. by rewrite Hgd.
  - cbn [log_reconciliation set_gold log_snapshots].
    rewrite Hld, Hlb', Hlb. apply map_eq. intros k.
    rewrite !lookup_insert. repeat case_decide; try done.
    rewrite Hla', Hld, Hlb. rewrite !lookup_insert_ne by done. rewrite Hla.
    by destruct (if decide _ then _ else _).
  - eexists _, _, _. split; [exact Hfd|]. split.
    + rewrite Hfd'. f_equal. unfold reconciliation_file.
      cbn [set_gold log_reconciliation_csv]. by rewrite Hcb', Hca'.
    + rewrite Had'. f_equal. cbn [set_gold audit_reconciliation_log]. by rewrite Hrb', Hra'.
Qed.

(** X24. A full run that raises nothing is the three steps run one after
    the other: load_bronze, build_silver, then build_gold (which also
    reconciles) end in the same world and print the same lines. *)
Theorem X24_all_is_the_steps_in_a_row (raw : gmap string DataFrame) (w : World)
  (o : outcome) :
  main (Some "all") raw w = Some o → raised o = None →
  ∃ o1 o2 o3,
    main (Some "load_bronze") raw w = Some o1 ∧
    main (Some "build_silver") raw (final o1) = Some o2 ∧
    main (Some "build_gold") raw (final o2) = Some o3 ∧
    raised o1 = None ∧ raised o2 = None ∧ raised o3 = None ∧
    final o3 = final o ∧
    console o = console o1 ++ console o2 ++ console o3.
Proof.
  intros Hmain Hnone.
  destruct (proj1 (full_run_Ok raw w o) (conj Hmain Hnone))
    as (wa & outa & wb & outb & wc & outc & wd & outd & Hl & Hs & Hg & Hr & ->).
  exists {| final := wa; console := outa; raised := None |},
         {| final := wb; console := outb; raised := None |},
         {| final := wd; console := outc ++ outd; raised := None |}.
  cbn [final raised console].
  assert (main (Some "load_bronze") raw w
          = Some (and_then {| final := w; console := []; raised := None |} (load_bronze raw)))
    as -> by reflexivity.
  assert (main (Some "build_silver") raw wa
          = Some (and_then {| final := wa; console := []; raised := None |} build_silver))
    as -> by reflexivity.
  assert (main (Some "build_gold") raw wb
          = Some (and_then (and_then {| final := wb; console := []; raised := None |}
                              build_gold) reconcile))
    as -> by reflexivity.
  unfold and_then. cbn [raised final console]. rewrite Hl, Hs, Hg.
  cbn [raised final console]. rewrite Hr. done.
Qed.

End CommandLineProps.

(** ** The script [silver_etl.py] against [build_silver] *)

Section ScriptProps.
Context `{Scalars} `{!Library}.

Lemma isna_rows_Ok (df : DataFrame) (c : string) :
  c ∈ columns df → isna_rows df c = Ok (isna_sum (column c df)).
Proof.
  intros Hc. unfold isna_rows, getitem. rewrite decide_True by done. simpl.
  unfold isna_sum, column. by rewrite filter_fmap, length_fmap.
Qed.

(** X25. On Bronze drivers that have a vehicle_type column the script
    computes what [build_silver] computes: it returns, writes the same four
    Silver tables and prints the same four data-quality counts.  It writes
    nothing else: no audit row, no snapshot file. *)
Theorem X25_script_agrees_with_build_silver (w w1 : World) (out : list line)
  (d : DataFrame) :
  build_silver w = Ok (w1, out) →
  bronze w !! "drivers" = Some d →
  "vehicle_type" ∈ columns d →
  ∃ w1' out', silver_etl w = Ok (w1', out') ∧
    silver w1' = silver w1 ∧
    dq_counts out' = dq_counts out ∧
    bronze w1' = bronze w ∧ gold w1' = gold w ∧
    audit_rejected_rows w1' = audit_rejected_rows w ∧
    log_snapshots w1' = log_snapshots w ∧ log_dq_csv w1' = log_dq_csv w.
Proof.
  intros (b & s & Hb & Hs & _ & Hsilver & _ & _ & _ & _ & _ & ->)%build_silver_Ok Hd Hvt.
  pose proof Hb as (_ & Hbd & _)%read_bronze_snapshot%bronze_snapshot_Some.
  assert (df_drivers b = d) as Hdb by congruence.
  pose proof Hs as (Hdd & Htd & Hfk & Heq)%silver_frames_Ok.
  destruct (silver_frames_columns _ _ Hs) as [Htf Hpf].
  assert (silver_etl_enum (typed (deduped b)) = Ok (enum_checked (typed (deduped b)))) as Hen.
  { unfold silver_etl_enum, enum_checked, mask_isin, keep_isin.
    cbn [typed deduped df_drivers dedupe_frame columns]. rewrite Hdb.
    by rewrite !decide_True. }
  unfold silver_etl. rewrite Hb. simpl. rewrite Hdd. simpl. rewrite Htd. simpl.
  rewrite Hen. simpl. rewrite Hfk. simpl.
  rewrite !isna_rows_Ok by done. simpl.
  eexists _, _. split; [done|]. simpl. by rewrite Hsilver.
Qed.

(** X26. On Bronze drivers without a vehicle_type column the script and the
    function part ways: where [build_silver] returns, the script raises
    KeyError on the column. *)
Theorem X26_script_needs_vehicle_type (w w1 : World) (out : list line) (d : DataFrame) :
  build_silver w = Ok (w1, out) →
  bronze w !! "drivers" = Some d →
  "vehicle_type" ∉ columns d →
  silver_etl w = Err (KeyError "vehicle_type").
Proof.
  intros (b & s & Hb & Hs & _)%build_silver_Ok Hd Hvt.
  pose proof Hb as (_ & Hbd & _)%read_bronze_snapshot%bronze_snapshot_Some.
  assert (df_drivers b = d) as Hdb by congruence.
  pose proof Hs as (Hdd & Htd & _)%silver_frames_Ok.
  unfold silver_etl. rewrite Hb. simpl. rewrite Hdd. simpl. rewrite Htd. simpl.
  unfold silver_etl_enum, mask_isin.
  cbn [typed deduped df_drivers dedupe_frame columns]. rewrite Hdb.
  by rewrite decide_False.
Qed.

End ScriptProps.

(** ** The loader of [main.py] *)

Section LoaderProps.
Context `{Scalars} `{!Library} `{!DateAccessor} `{!Postgres}.

Lemma cell_of_cast_row (cast : string → cell → cell) (r : row) (c : string) :
  cell_of (cast_row cast r) c
  = match r !! c with Some v => cast c v | None => CNull end.
Proof. unfold cell_of, cast_row. rewrite map_lookup_imap. by destruct (r !! c). Qed.

Lemma rows_setitem_to_date (df : DataFrame) (c : string) :
  rows (setitem df c (to_date (column c df)))
  = (λ r, <[c := match to_datetime_scalar (column c df) (cell_of r c) with
                 | Some t => CDatetime (dt_date t)
                 | None => CNull
                 end]> r) <$> rows df.
Proof.
  unfold to_date, to_datetime, column. rewrite <-list_fmap_compose.
  rewrite rows_setitem_fmap. apply list_fmap_ext. intros _ r _. simpl.
  by destruct (to_datetime_scalar _ _).
Qed.

(** The date conversion returns exactly when every date column is a column
    of the file; it keeps the columns and the number of rows, and leaves a
    date or a null in every cell of a date column. *)
Lemma convert_date_cols_Ok (date_cols : list string) (csv df : DataFrame) :
  convert_date_cols date_cols csv = Ok df →
  date_cols ⊆ columns csv ∧ columns df = columns csv ∧ len df = len csv ∧
  ∀ c, (c ∈ date_cols ∨ ∀ r, r ∈ rows csv → datetime_or_null (cell_of r c)) →
       ∀ r, r ∈ rows df → datetime_or_null (cell_of r c).
Proof.
  revert csv. induction date_cols as [|col date_cols IH]; intros csv.
  - intros [= <-]. split; [apply list_subseteq_nil|]. split; [done|]. split; [done|].
    intros c [Hc|Hc]; [by apply elem_of_nil in Hc|done].
  - cbn [convert_date_cols]. intros Hrun.
    apply bind_Ok in Hrun as (values & [Hcol ->]%getitem_Ok & Hrun).
    fold (column col csv) in Hrun.
    apply IH in Hrun as (Hsub & Hcols & Hlen & Hdates).
    rewrite columns_setitem_in in Hsub, Hcols by done.
    split; [by apply list_subseteq_cons_iff|]. split; [done|]. split.
    { rewrite Hlen. unfold len. by rewrite rows_setitem_to_date, length_fmap. }
    intros c Hc. apply Hdates.
    destruct (decide (c = col)) as [->|Hne].
    + right. intros r. rewrite rows_setitem_to_date.
      intros (r0 & -> & _)%list_elem_of_fmap. rewrite cell_of_insert_eq.
      destruct (to_datetime_scalar _ _) as [t|]; [right; by eexists|by left].
    + destruct Hc as [[?|Hc]%elem_of_cons|Hc]; [done|by left|].
      right. intros r. rewrite rows_setitem_to_date.
      intros (r0 & -> & Hr0)%list_elem_of_fmap. rewrite cell_of_insert_ne by done.
      by apply Hc.
Qed.

Lemma convert_date_cols_returns (date_cols : list string) (csv : DataFrame) :
  date_cols ⊆ columns csv → ∃ df, convert_date_cols date_cols csv = Ok df.
Proof.
  revert csv. induction date_cols as [|col date_cols IH]; intros csv Hsub; [by eexists|].
  apply list_subseteq_cons_iff in Hsub as [Hcol Hsub].
  cbn [convert_date_cols]. unfold getitem. rewrite decide_True by done. simpl.
  apply IH. by rewrite columns_setitem_in.
Qed.

Lemma to_sql_append_Ok (table : string) (df : DataFrame) (tables tables' : gmap string DataFrame) :
  to_sql_append table df tables = Ok tables' ↔
  match tables !! table with
  | Some old =>
      columns df ⊆ columns old ∧
      tables' = <[table := {| columns := columns old;
                              rows := rows old ++ (cast_row (insert_cast old) <$> rows df) |}]>
                  tables
  | None => tables' = <[table := df]> tables
  end.
Proof.
  unfold to_sql_append. destruct (tables !! table) as [old|]; [|split; congruence].
  destruct (filter _ (columns df)) as [|c l] eqn:Hf; split.
  - intros [= <-]. split; [|done].
    intros c Hc. apply filter_nil_iff with (x := c) in Hf; [|done]. by apply dec_stable.
  - by intros [_ ->].
  - done.
  - intros [Hsub _].
    assert (c ∈ filter (λ c, c ∉ columns old) (columns df)) as Hc by (rewrite Hf; by left).
    apply list_elem_of_filter in Hc as [Hnot Hin]. destruct Hnot. by apply Hsub.
Qed.

(** X27. The loader returns exactly when every date column is a column of
    the file and, if the Bronze table exists already, the table has every
    column of the file; otherwise it raises.  (Raising is a failed lookup of
    a column: no other failure is modelled.) *)
Theorem X27_loader_returns_iff (contents : string) (csv : DataFrame) (table_name : string)
  (date_cols : list string) (w : World) :
  (∃ w1 out, load_csv_to_postgres contents csv table_name date_cols w = Ok (w1, out)) ↔
  date_cols ⊆ columns csv ∧
  match bronze w !! table_name with
  | Some old => columns csv ⊆ columns old
  | None => True
  end.
Proof.
  unfold load_csv_to_postgres. split.
  - intros (w1 & out & Hrun).
    apply bind_Ok in Hrun as (df & (Hsub & Hcols & _)%convert_date_cols_Ok & Hrun).
    apply bind_Ok in Hrun as (tables & Happ%to_sql_append_Ok & _).
    split; [done|]. destruct (bronze w !! table_name); [|done].
    rewrite <-Hcols. by destruct Happ.
  - intros [Hsub Hold]. destruct (convert_date_cols_returns _ _ Hsub) as [df Hdf].
    rewrite Hdf. simpl.
    apply convert_date_cols_Ok in Hdf as (_ & Hcols & _).
    destruct (to_sql_append table_name df (bronze w)) as [tables|e] eqn:Happ; [by eexists _, _|].
    exfalso. revert Happ. unfold to_sql_append.
    destruct (bronze w !! table_name) as [old|]; [|done].
    rewrite (proj2 (filter_nil_iff (λ c, c ∉ columns old) (columns df))); [done|].
    intros c Hc Hn. apply Hn, Hold. by rewrite <-Hcols.
Qed.

(** X28. The loader appends: the rows the table held stay where they were
    and the rows of the file follow them, as many as the file has, each
    value converted to the type of its column; when the load creates the
    table, every cell of a date column it holds is a date or null.  The
    other Bronze tables, Silver and Gold are not touched, and the row count
    printed is that of the file. *)
Theorem X28_loader_appends (contents : string) (csv : DataFrame) (table_name : string)
  (date_cols : list string) (w w1 : World) (out : list loader_line) :
  load_csv_to_postgres contents csv table_name date_cols w = Ok (w1, out) →
  ∃ new df,
    convert_date_cols date_cols csv = Ok df ∧
    bronze w1 !! table_name = Some new ∧
    match bronze w !! table_name with
    | Some old =>
        columns new = columns old ∧
        rows new = rows old ++ (cast_row (insert_cast old) <$> rows df)
    | None =>
        new = df ∧
        ∀ c r, c ∈ date_cols → r ∈ rows new → datetime_or_null (cell_of r c)
    end ∧
    len new = default 0 (len <$> bronze w !! table_name) + len csv ∧
    (∀ t, t ≠ table_name → bronze w1 !! t = bronze w !! t) ∧
    silver w1 = silver w ∧ gold w1 = gold w ∧
    out = [PrintLoaded (len csv) "bronze" table_name; PrintChecksum (md5 contents)].
Proof.
  unfold load_csv_to_postgres. intros Hrun.
  apply bind_Ok in Hrun as (df & Hdf & Hrun).
  pose proof Hdf as (Hsub & Hcols & Hlen & Hdates)%convert_date_cols_Ok.
  apply bind_Ok in Hrun as (tables & Happ%to_sql_append_Ok & Hrun).
  injection Hrun as <- <-. cbn [bronze silver gold]. rewrite Hlen.
  destruct (bronze w !! table_name) as [old|] eqn:Hold.
  - destruct Happ as [_ ->]. eexists _, df. rewrite lookup_insert_eq.
    split_and!; try done.
    + unfold len in *. cbn [rows fmap option_fmap option_map default].
      rewrite length_app, length_fmap. unfold id. lia.
    + intros t Hne. by rewrite lookup_insert_ne.
  - subst tables. exists df, df. rewrite lookup_insert_eq.
    split_and!; try done.
    + intros c r Hc. apply Hdates. by left.
    + intros t Hne. by rewrite lookup_insert_ne.
Qed.

(** X29. Running the loader twice on the same file returns again and puts
    the rows of the file into the table a second time; the deduplication by
    any key that opens the Silver build gives the same frame for the table
    loaded twice as for the table loaded once. *)
Theorem X29_second_load_is_absorbed (contents : string) (csv : DataFrame)
  (table_name : string) (date_cols : list string) (w w1 : World) (out : list loader_line) :
  load_csv_to_postgres contents csv table_name date_cols w = Ok (w1, out) →
  ∃ w2 once twice,
    load_csv_to_postgres contents csv table_name date_cols w1 = Ok (w2, out) ∧
    bronze w1 !! table_name = Some once ∧
    bronze w2 !! table_name = Some twice ∧
    len twice = len once + len csv ∧
    ∀ key, drop_duplicates key twice = drop_duplicates key once.
Proof.
  unfold load_csv_to_postgres. intros Hrun.
  apply bind_Ok in Hrun as (df & Hdf & Hrun). rewrite Hdf. simpl.
  apply convert_date_cols_Ok in Hdf as (_ & Hcols & Hlen & _).
  apply bind_Ok in Hrun as (tables & Happ%to_sql_append_Ok & Hrun).
  injection Hrun as <- <-. cbn [bronze silver gold].
  (* the table after the first load, and the keys its rows carry *)
  assert (∃ once, tables !! table_name = Some once ∧ columns df ⊆ columns once ∧
                  ∀ key r, r ∈ rows df →
                    cell_of (cast_row (insert_cast once) r) key ∈ column key once)
    as (once & Honce & Hsub & Hkeys).
  { destruct (bronze w !! table_name) as [old|].
    - destruct Happ as [Hsub ->]. eexists. rewrite lookup_insert_eq.
      split; [done|]. split; [done|].
      intros key r Hr. rewrite cell_of_cast_row.
      apply (list_elem_of_fmap_2' (λ r0, cell_of r0 key) _ (cast_row (insert_cast old) r)).
      + cbn [rows]. apply elem_of_app. right. by apply list_elem_of_fmap_2.
      + rewrite cell_of_cast_row. destruct (r !! key); [|done].
        by rewrite insert_cast_inserted.
    - subst tables. exists df. rewrite lookup_insert_eq.
      split; [done|]. split; [done|].
      intros key r Hr. rewrite cell_of_cast_row.
      apply (list_elem_of_fmap_2' (λ r0, cell_of r0 key) _ r); [done|].
      pose proof (insert_cast_stored df r key Hr) as Hstored.
      unfold cell_of in *. by destruct (r !! key). }
  assert (to_sql_append table_name df tables
          = Ok (<[table_name := {| columns := columns once;
                                   rows := rows once
                                           ++ (cast_row (insert_cast once) <$> rows df) |}]>
                  tables)) as ->.
  { apply to_sql_append_Ok. by rewrite Honce. }
  simpl. eexists _, once, _. split; [done|]. split; [done|].
  cbn [bronze]. rewrite lookup_insert_eq. split; [done|]. split.
  - unfold len. cbn [rows]. rewrite length_app, length_fmap. unfold len in Hlen. lia.
  - intros key. unfold drop_duplicates. cbn [columns rows]. case_decide; [|done].
    do 2 f_equal.
    rewrite (drop_dups_app _ [] ((λ r, cell_of r key) <$> rows once)).
    + rewrite (drop_dups_all_seen _ _ (cast_row (insert_cast once) <$> rows df));
        [by rewrite app_nil_r|].
      intros r' (r & -> & Hr)%list_elem_of_fmap. by apply Hkeys.
    + intros k. rewrite elem_of_nil. tauto.
Qed.

End LoaderProps.

(** * The pipeline on data

    The scenarios are run by evaluation: an equation between two runs is
    decided by [bool_decide], so no table is ever printed back. *)

Import Run.





(** C3 fails as stated: the per-table data-quality file and the snapshot
    files are rewritten.  A second Silver build leaves only its own record in
    [log/silver/drivers_dq.csv], and a second Bronze load leaves only the new
    bytes in [log/bronze/drivers.csv]. *)
Lemma C3_flat_files_are_rewritten :
  log_dq_csv (silver_world raw_valid) !! "drivers"
  = Some [{| table_name := "drivers"; missing_values := 0; invalid_values := 0;
             processed_at := now 1 |}] ∧
  log_dq_csv (after BuildSilver (silver_world raw_valid)) !! "drivers"
  = Some [{| table_name := "drivers"; missing_values := 0; invalid_values := 0;
             processed_at := now 5 |}] ∧
  log_snapshots (silver_world raw_valid) !! ("bronze", "drivers")
  = Some "driver_id,driver_name,vehicle_type|D1,Bob,Sedan" ∧
  log_snapshots (after (LoadBronze raw_van) (silver_world raw_valid)) !! ("bronze", "drivers")
  = Some "driver_id,driver_name,vehicle_type|D1,Bob,Van".
Proof. split_and!; compute_done. Qed.

Lemma C3_witness :
  log_snapshots (after (LoadBronze raw_van) (silver_world raw_valid)) !! ("bronze", "drivers")
  = Some (to_csv (frame drivers_header [bob_van])) ∧
  PrintSnapshot "bronze" "drivers" (len (frame drivers_header [bob_van]))
    (md5_checksum (to_csv (frame drivers_header [bob_van])))
  ∈ printed (load_bronze raw_van (silver_world raw_valid)).
Proof.
  assert (run_stage (LoadBronze raw_van) (silver_world raw_valid)
          = Ok (after (LoadBronze raw_van) (silver_world raw_valid),
                printed (load_bronze raw_van (silver_world raw_valid)))) as Hrun
    by compute_done.
  assert (snapshot_taken (LoadBronze raw_van)
            (after (LoadBronze raw_van) (silver_world raw_valid))
            "bronze" "drivers" (frame drivers_header [bob_van])) as Htaken
    by (unfold snapshot_taken; compute_done).
  pose proof (C3_audit_tables_append_only (LoadBronze raw_van) (silver_world raw_valid))
    as (_ & _ & _ & Hsnapshots & _).
  exact (Hsnapshots _ _ _ _ _ Hrun Htaken).
Defined.

(** C4 fails as stated: when an earlier row carries the same driver_id with a
    valid vehicle type, the invalid row is dropped as a duplicate and the
    driver's trip and its payment stay in Silver. *)
Lemma C4_duplicate_driver_id_keeps_trips :
  record drivers_header bob_van ∈ rows (df_drivers (bronze_frames raw_dup_driver)) ∧
  isin VALID_VEHICLE_TYPES (cell_of (record drivers_header bob_van) "vehicle_type") = false ∧
  silver_frames (bronze_frames raw_dup_driver) = Ok (silver_of raw_dup_driver) ∧
  record trips_header (trip1 (CNum 100%Z)) ∈ rows (df_trips (silver_of raw_dup_driver)) ∧
  cell_of (record trips_header (trip1 (CNum 100%Z))) "driver_id"
  = cell_of (record drivers_header bob_van) "driver_id" ∧
  record payments_header (payment "P1" (CNum 100%Z)) ∈ rows (df_payments (silver_of raw_dup_driver)).
Proof. split_and!; compute_done. Qed.

Lemma C4_witness :
  (∀ t, t ∈ rows (df_trips (silver_of raw_van)) →
        cell_of t "driver_id" ≠ cell_of (record drivers_header bob_van) "driver_id") ∧
  rows (df_trips (silver_of raw_van)) = [] ∧
  rows (df_payments (silver_of raw_van)) = [].
Proof.
  assert ("vehicle_type" ∈ columns (df_drivers (bronze_frames raw_van))) as Hvt
    by compute_done.
  assert (silver_frames (bronze_frames raw_van) = Ok (silver_of raw_van)) as Hs
    by compute_done.
  assert (isin VALID_VEHICLE_TYPES (cell_of (record drivers_header bob_van) "vehicle_type")
          = false) as Hbad by compute_done.
  assert (first_with (λ r, cell_of r "driver_id")
            (cell_of (record drivers_header bob_van) "driver_id")
            (rows (df_drivers (bronze_frames raw_van)))
          = Some (record drivers_header bob_van)) as Hfirst by compute_done.
  pose proof (C4_invalid_first_driver_row_cascades _ _ _ Hvt Hs Hbad) as [_ Hcascade].
  destruct (Hcascade Hfirst) as (_ & Htrips & _).
  split; [exact Htrips|]. split; compute_done.
Defined.

Lemma C5_witness :
  ∃ w2 out2,
    build_silver (silver_world raw_valid) = Ok (w2, out2) ∧
    bronze w2 = bronze (bronze_world raw_valid) ∧
    silver w2 = silver (silver_world raw_valid) ∧
    log_snapshots w2 = log_snapshots (silver_world raw_valid) ∧
    out2 = printed (build_silver (bronze_world raw_valid)).
Proof.
  assert (build_silver (bronze_world raw_valid)
          = Ok (silver_world raw_valid, printed (build_silver (bronze_world raw_valid))))
    as Hsilver by compute_done.
  exact (C5_build_silver_idempotent _ _ _ Hsilver).
Defined.

Lemma C6_witness :
  ∃ df', drop_duplicates "driver_id" (frame drivers_header [bob; bob_van; bob]) = Ok df' ∧
    columns df' = columns (frame drivers_header [bob; bob_van; bob]) ∧
    (∀ ks : list cell,
       NoDup ks →
       (∀ k, k ∈ ks ↔ k ∈ column "driver_id" (frame drivers_header [bob; bob_van; bob])) →
       len df' = length ks) ∧
    (∀ k, filter (λ r, cell_of r "driver_id" = k) (rows df')
          = option_list (first_with (λ r, cell_of r "driver_id") k
                           (rows (frame drivers_header [bob; bob_van; bob])))).
Proof.
  assert ("driver_id" ∈ columns (frame drivers_header [bob; bob_van; bob])) as Hc
    by compute_done.
  exact (C6_drop_duplicates_first_row_per_key _ _ Hc).
Defined.





Lemma C9_witness :
  ∃ b', silver_types (bronze_frames raw_bad_fare) = Ok b' ∧
    coerced_to "signup_date" (λ col c, CDatetime <$> to_datetime_scalar col c)
      (df_customers (bronze_frames raw_bad_fare)) (df_customers b') ∧
    df_drivers b' = df_drivers (bronze_frames raw_bad_fare) ∧
    coerced_to "trip_fare" (λ col c, CNum <$> to_numeric_scalar col c)
      (df_trips (bronze_frames raw_bad_fare)) (df_trips b') ∧
    coerced_to "trip_fare" (λ col c, CNum <$> to_numeric_scalar col c)
      (df_payments (bronze_frames raw_bad_fare)) (df_payments b').
Proof.
  assert ("signup_date" ∈ columns (df_customers (bronze_frames raw_bad_fare))) as Hc
    by compute_done.
  assert ("trip_fare" ∈ columns (df_trips (bronze_frames raw_bad_fare))) as Ht
    by compute_done.
  assert ("trip_fare" ∈ columns (df_payments (bronze_frames raw_bad_fare))) as Hp
    by compute_done.
  exact (C9_coercion_failures_become_null _ Hc Ht Hp).
Defined.

Lemma C10_witness :
  drop_duplicates "driver_id" (df_drivers (bronze_frames raw_no_vehicle_type))
  = Ok (df_drivers (silver_of raw_no_vehicle_type)) ∧
  ∀ t, t ∈ rows (df_trips (silver_of raw_no_vehicle_type)) ↔
       t ∈ rows (df_trips (typed (deduped (bronze_frames raw_no_vehicle_type)))) ∧
       cell_of t "customer_id" ∈ column "customer_id" (df_customers (silver_of raw_no_vehicle_type)) ∧
       cell_of t "driver_id" ∈ column "driver_id" (df_drivers (silver_of raw_no_vehicle_type)).
Proof.
  assert ("vehicle_type" ∉ columns (df_drivers (bronze_frames raw_no_vehicle_type))) as Hvt
    by compute_done.
  assert (silver_frames (bronze_frames raw_no_vehicle_type)
          = Ok (silver_of raw_no_vehicle_type)) as Hs by compute_done.
  exact (C10_no_vehicle_type_column_no_filter _ _ Hvt Hs).
Defined.

(** ** The further properties on the valid scenario *)

Lemma X1_witness :
  (∀ t, t ∈ rows (df_trips (silver_of raw_valid)) →
        cell_of t "customer_id" ∈ column "customer_id" (df_customers (silver_of raw_valid)) ∧
        cell_of t "driver_id" ∈ column "driver_id" (df_drivers (silver_of raw_valid))) ∧
  (∀ p, p ∈ rows (df_payments (silver_of raw_valid)) →
        cell_of p "trip_id" ∈ column "trip_id" (df_trips (silver_of raw_valid))).
Proof.
  assert (build_silver (bronze_world raw_valid)
          = Ok (silver_world raw_valid, printed (build_silver (bronze_world raw_valid))))
    as Hsilver by compute_done.
  assert (silver_snapshot (silver_world raw_valid) = Some (silver_of raw_valid)) as Hsnap
    by compute_done.
  exact (X1_silver_referential_integrity _ _ _ _ Hsilver Hsnap).
Defined.

Lemma X2_witness :
  NoDup (column "customer_id" (df_customers (silver_of raw_dup_driver))) ∧
  NoDup (column "driver_id" (df_drivers (silver_of raw_dup_driver))) ∧
  NoDup (column "trip_id" (df_trips (silver_of raw_dup_driver))) ∧
  NoDup (column "payment_id" (df_payments (silver_of raw_dup_driver))).
Proof.
  assert (build_silver (bronze_world raw_dup_driver)
          = Ok (silver_world raw_dup_driver,
                printed (build_silver (bronze_world raw_dup_driver))))
    as Hsilver by compute_done.
  assert (silver_snapshot (silver_world raw_dup_driver) = Some (silver_of raw_dup_driver))
    as Hsnap by compute_done.
  exact (X2_silver_keys_unique _ _ _ _ Hsilver Hsnap).
Defined.

Lemma X3_witness :
  "vehicle_type" ∈ columns (df_drivers (silver_of raw_dup_driver)) ∧
  ∀ d, d ∈ rows (df_drivers (silver_of raw_dup_driver)) →
       cell_of d "vehicle_type" ∈ VALID_VEHICLE_TYPES.
Proof.
  assert (build_silver (bronze_world raw_dup_driver)
          = Ok (silver_world raw_dup_driver,
                printed (build_silver (bronze_world raw_dup_driver))))
    as Hsilver by compute_done.
  assert (silver_snapshot (silver_world raw_dup_driver) = Some (silver_of raw_dup_driver))
    as Hsnap by compute_done.
  assert ("vehicle_type" ∈ columns (df_drivers (silver_of raw_dup_driver))) as Hvt
    by compute_done.
  exact (conj Hvt (X3_silver_vehicle_types_valid _ _ _ _ Hsilver Hsnap Hvt)).
Defined.

Lemma X4_witness :
  (∀ c, c ∈ rows (df_customers (silver_of raw_bad_fare)) →
        datetime_or_null (cell_of c "signup_date")) ∧
  (∀ t, t ∈ rows (df_trips (silver_of raw_bad_fare)) →
        number_or_null (cell_of t "trip_fare")) ∧
  (∀ p, p ∈ rows (df_payments (silver_of raw_bad_fare)) →
        number_or_null (cell_of p "trip_fare")).
Proof.
  assert (build_silver (bronze_world raw_bad_fare)
          = Ok (silver_world raw_bad_fare, printed (build_silver (bronze_world raw_bad_fare))))
    as Hsilver by compute_done.
  assert (silver_snapshot (silver_world raw_bad_fare) = Some (silver_of raw_bad_fare))
    as Hsnap by compute_done.
  exact (X4_silver_typed_columns _ _ _ _ Hsilver Hsnap).
Defined.

Lemma X5_witness :
  (table_name <$> drop (length (audit_rejected_rows (bronze_world raw_bad_fare)))
                       (audit_rejected_rows (silver_world raw_bad_fare)))
  = ["customers"; "drivers"; "trips"; "payments"] ∧
  ((λ r, missing_values r + invalid_values r)
   <$> drop (length (audit_rejected_rows (bronze_world raw_bad_fare)))
            (audit_rejected_rows (silver_world raw_bad_fare)))
  = dq_counts (printed (build_silver (bronze_world raw_bad_fare))) ∧
  (invalid_values <$> drop (length (audit_rejected_rows (bronze_world raw_bad_fare)))
                           (audit_rejected_rows (silver_world raw_bad_fare)))
  = [0; 0; isna_sum (column "trip_fare" (df_trips (silver_of raw_bad_fare)));
     isna_sum (column "trip_fare" (df_payments (silver_of raw_bad_fare)))] ∧
  (∀ r, r ∈ drop (length (audit_rejected_rows (bronze_world raw_bad_fare)))
                 (audit_rejected_rows (silver_world raw_bad_fare)) →
        log_dq_csv (silver_world raw_bad_fare) !! table_name r = Some [r]) ∧
  isna_sum (column "trip_fare" (df_trips (silver_of raw_bad_fare)))
  + length (fares (rows (df_trips (silver_of raw_bad_fare))))
  = len (df_trips (silver_of raw_bad_fare)) ∧
  isna_sum (column "trip_fare" (df_payments (silver_of raw_bad_fare)))
  + length (fares (rows (df_payments (silver_of raw_bad_fare))))
  = len (df_payments (silver_of raw_bad_fare)).
Proof.
  assert (build_silver (bronze_world raw_bad_fare)
          = Ok (silver_world raw_bad_fare, printed (build_silver (bronze_world raw_bad_fare))))
    as Hsilver by compute_done.
  assert (silver_snapshot (silver_world raw_bad_fare) = Some (silver_of raw_bad_fare))
    as Hsnap by compute_done.
  exact (X5_dq_records_account_for_rows _ _ _ _ Hsilver Hsnap).
Defined.

Lemma X6_witness :
  log_snapshots (silver_world raw_valid) !! ("silver", "trips")
  = Some (to_csv (silver_table (silver_world raw_valid) "trips")) ∧
  PrintSnapshot "silver" "trips" (len (silver_table (silver_world raw_valid) "trips"))
    (md5_checksum (to_csv (silver_table (silver_world raw_valid) "trips")))
  ∈ printed (build_silver (bronze_world raw_valid)).
Proof.
  assert (build_silver (bronze_world raw_valid)
          = Ok (silver_world raw_valid, printed (build_silver (bronze_world raw_valid))))
    as Hsilver by compute_done.
  assert ("trips" ∈ BRONZE_FILES) as Htable by compute_done.
  assert (silver (silver_world raw_valid) !! "trips"
          = Some (silver_table (silver_world raw_valid) "trips")) as Ht by compute_done.
  exact (X6_silver_snapshot_matches_table _ _ _ _ _ Hsilver Htable Ht).
Defined.

Lemma X8_witness :
  (columns (df_customers (silver_of raw_dup_driver))
   = columns (df_customers (bronze_frames raw_dup_driver)) ∧
   columns (df_drivers (silver_of raw_dup_driver))
   = columns (df_drivers (bronze_frames raw_dup_driver)) ∧
   columns (df_trips (silver_of raw_dup_driver))
   = columns (df_trips (bronze_frames raw_dup_driver)) ∧
   columns (df_payments (silver_of raw_dup_driver))
   = columns (df_payments (bronze_frames raw_dup_driver))) ∧
  (len (df_customers (silver_of raw_dup_driver))
   ≤ len (df_customers (bronze_frames raw_dup_driver)) ∧
   len (df_drivers (silver_of raw_dup_driver))
   ≤ len (df_drivers (bronze_frames raw_dup_driver)) ∧
   len (df_trips (silver_of raw_dup_driver)) ≤ len (df_trips (bronze_frames raw_dup_driver)) ∧
   len (df_payments (silver_of raw_dup_driver))
   ≤ len (df_payments (bronze_frames raw_dup_driver)))%nat ∧
  rows (df_drivers (silver_of raw_dup_driver))
  `sublist_of` rows (df_drivers (bronze_frames raw_dup_driver)) ∧
  (∀ c, c ∈ rows (df_customers (silver_of raw_dup_driver)) →
        ∃ c0 v, c0 ∈ rows (df_customers (bronze_frames raw_dup_driver)) ∧
                c = <["signup_date" := v]> c0) ∧
  (∀ t, t ∈ rows (df_trips (silver_of raw_dup_driver)) →
        ∃ t0 v, t0 ∈ rows (df_trips (bronze_frames raw_dup_driver)) ∧
                t = <["trip_fare" := v]> t0) ∧
  (∀ p, p ∈ rows (df_payments (silver_of raw_dup_driver)) →
        ∃ p0 v, p0 ∈ rows (df_payments (bronze_frames raw_dup_driver)) ∧
                p = <["trip_fare" := v]> p0).
Proof.
  assert (build_silver (bronze_world raw_dup_driver)
          = Ok (silver_world raw_dup_driver,
                printed (build_silver (bronze_world raw_dup_driver))))
    as Hsilver by compute_done.
  assert (bronze_snapshot (bronze_world raw_dup_driver) = Some (bronze_frames raw_dup_driver))
    as Hbronze by compute_done.
  assert (silver_snapshot (silver_world raw_dup_driver) = Some (silver_of raw_dup_driver))
    as Hsnap by compute_done.
  exact (X8_silver_rows_come_from_bronze _ _ _ _ _ Hsilver Hbronze Hsnap).
Defined.

Lemma X9_witness :
  drop_duplicates "driver_id" (frame drivers_header [bob]) = Ok (frame drivers_header [bob]) ∧
  drop_duplicates "driver_id"
    {| columns := columns (frame drivers_header [bob; bob_van]);
       rows := rows (frame drivers_header [bob; bob_van])
               ++ [record drivers_header bob_van; record drivers_header bob] |}
  = Ok (frame drivers_header [bob]).
Proof.
  assert (drop_duplicates "driver_id" (frame drivers_header [bob; bob_van])
          = Ok (frame drivers_header [bob])) as Hdedupe by compute_done.
  assert (∀ r, r ∈ [record drivers_header bob_van; record drivers_header bob] →
               cell_of r "driver_id"
               ∈ column "driver_id" (frame drivers_header [bob; bob_van])) as Hextra.
  { apply Forall_forall. compute_done. }
  exact (X9_drop_duplicates_absorbs_repeats _ _ _ _ Hdedupe Hextra).
Defined.

Lemma X10_witness :
  build_gold (gold_world raw_valid)
  = Ok (gold_world raw_valid, printed (build_gold (silver_world raw_valid))) ∧
  bronze (gold_world raw_valid) = bronze (silver_world raw_valid) ∧
  silver (gold_world raw_valid) = silver (silver_world raw_valid) ∧
  audit_rejected_rows (gold_world raw_valid) = audit_rejected_rows (silver_world raw_valid) ∧
  audit_reconciliation_log (gold_world raw_valid)
  = audit_reconciliation_log (silver_world raw_valid) ∧
  log_snapshots (gold_world raw_valid) = log_snapshots (silver_world raw_valid) ∧
  log_dq_csv (gold_world raw_valid) = log_dq_csv (silver_world raw_valid) ∧
  log_reconciliation_csv (gold_world raw_valid)
  = log_reconciliation_csv (silver_world raw_valid) ∧
  clock (gold_world raw_valid) = clock (silver_world raw_valid).
Proof.
  assert (build_gold (silver_world raw_valid)
          = Ok (gold_world raw_valid, printed (build_gold (silver_world raw_valid))))
    as Hgold by compute_done.
  exact (X10_build_gold_idempotent _ _ _ Hgold).
Defined.

Lemma X12_witness :
  NoDup ((λ r, (rp_pickup_location r, rp_drop_location r))
         <$> route_performance (gold_tables (gold_world raw_valid))) ∧
  (∀ r, r ∈ route_performance (gold_tables (gold_world raw_valid)) →
        rp_trips_count r
        = length (filter (λ x, route_of x = (rp_pickup_location r, rp_drop_location r))
                         (rows (silver_table (silver_world raw_valid) "trips"))) ∧
        (1 ≤ rp_trips_count r)%nat) ∧
  sum_list_with rp_trips_count (route_performance (gold_tables (gold_world raw_valid)))
  = len (silver_table (silver_world raw_valid) "trips").
Proof.
  assert (build_gold (silver_world raw_valid)
          = Ok (gold_world raw_valid, printed (build_gold (silver_world raw_valid))))
    as Hgold by compute_done.
  assert (silver (silver_world raw_valid) !! "trips"
          = Some (silver_table (silver_world raw_valid) "trips")) as Ht by compute_done.
  assert (gold (gold_world raw_valid) = Some (gold_tables (gold_world raw_valid))) as Hg
    by compute_done.
  exact (X12_routes_partition_trips _ _ _ _ _ Hgold Ht Hg).
Defined.

Lemma X13_witness :
  NoDup (dp_driver_id <$> driver_performance (gold_tables (gold_world raw_valid))) ∧
  ∀ dp, dp ∈ driver_performance (gold_tables (gold_world raw_valid)) →
    (1 ≤ dp_trips_count dp)%nat ∧
    dp_driver_id dp ≠ CNull ∧
    ∃ d, d ∈ rows (df_drivers (silver_of raw_valid)) ∧
         driver_key d = (dp_driver_id dp, dp_driver_name dp, dp_vehicle_type dp).
Proof.
  assert (build_silver (bronze_world raw_valid)
          = Ok (silver_world raw_valid, printed (build_silver (bronze_world raw_valid))))
    as Hsilver by compute_done.
  assert (build_gold (silver_world raw_valid)
          = Ok (gold_world raw_valid, printed (build_gold (silver_world raw_valid))))
    as Hgold by compute_done.
  assert (silver_snapshot (silver_world raw_valid) = Some (silver_of raw_valid)) as Hsnap
    by compute_done.
  assert (gold (gold_world raw_valid) = Some (gold_tables (gold_world raw_valid))) as Hg
    by compute_done.
  exact (X13_listed_drivers_have_trips _ _ _ _ _ _ _ Hsilver Hgold Hsnap Hg).
Defined.

Lemma X14_witness :
  ∃ c, c ∈ ["driver_name"; "vehicle_type"] ∧
       (c ∉ columns (df_drivers (bronze_frames raw_no_vehicle_type))) ∧
       build_gold (silver_world raw_no_vehicle_type) = Err (UndefinedColumn "drivers" c).
Proof.
  assert (build_silver (bronze_world raw_no_vehicle_type)
          = Ok (silver_world raw_no_vehicle_type,
                printed (build_silver (bronze_world raw_no_vehicle_type))))
    as Hsilver by compute_done.
  assert (bronze (bronze_world raw_no_vehicle_type) !! "drivers"
          = Some (df_drivers (bronze_frames raw_no_vehicle_type))) as Hd by compute_done.
  assert ("vehicle_type" ∉ columns (df_drivers (bronze_frames raw_no_vehicle_type))) as Hvt
    by compute_done.
  exact (X14_gold_needs_vehicle_type _ _ _ _ Hsilver Hd Hvt).
Defined.


Lemma X17_witness :
  ∃ rec,
    printed (reconcile (after Reconcile (gold_world raw_valid)))
    = [PrintReconciliation (metrics rec); PrintDone "Reconciliation logged (CSV + DB)."] ∧
    checked_at rec = now (clock (after Reconcile (gold_world raw_valid))) ∧
    reconciliation_file (after Reconcile (after Reconcile (gold_world raw_valid)))
    = reconciliation_file (after Reconcile (gold_world raw_valid)) ++ [rec] ∧
    audit_reconciliation_log (after Reconcile (after Reconcile (gold_world raw_valid)))
    = audit_reconciliation_log (after Reconcile (gold_world raw_valid))
      ++ reconciliation_file (after Reconcile (after Reconcile (gold_world raw_valid))) ∧
    length (audit_reconciliation_log (after Reconcile (after Reconcile (gold_world raw_valid))))
    = length (audit_reconciliation_log (after Reconcile (gold_world raw_valid)))
      + length (reconciliation_file (after Reconcile (gold_world raw_valid))) + 1.
Proof.
  assert (reconcile (after Reconcile (gold_world raw_valid))
          = Ok (after Reconcile (after Reconcile (gold_world raw_valid)),
                printed (reconcile (after Reconcile (gold_world raw_valid))))) as Hrun
    by compute_done.
  exact (X17_reconciliation_table_receives_file _ _ _ Hrun).
Defined.

Lemma X18_witness :
  (∀ table, bronze (bronze_world raw_valid) !! table
            = bronze_loaded raw_valid (bronze empty_world) table) ∧
  (∀ table df, table ∈ BRONZE_FILES → raw_valid !! table = Some df →
     log_snapshots (bronze_world raw_valid) !! ("bronze", table) = Some (to_csv df)) ∧
  silver (bronze_world raw_valid) = silver empty_world ∧
  gold (bronze_world raw_valid) = gold empty_world ∧
  printed (load_bronze raw_valid empty_world)
  = (bronze_line raw_valid <$> BRONZE_FILES) ++ [PrintDone "Bronze load complete."].
Proof.
  assert (load_bronze raw_valid empty_world
          = Ok (bronze_world raw_valid, printed (load_bronze raw_valid empty_world)))
    as Hload by compute_done.
  exact (X18_load_bronze_replaces_or_skips _ _ _ _ Hload).
Defined.

Lemma X19_witness :
  load_bronze raw_valid (bronze_world raw_valid)
  = Ok (bronze_world raw_valid, printed (load_bronze raw_valid empty_world)).
Proof.
  assert (load_bronze raw_valid empty_world
          = Ok (bronze_world raw_valid, printed (load_bronze raw_valid empty_world)))
    as Hload by compute_done.
  exact (X19_load_bronze_idempotent _ _ _ _ Hload).
Defined.


Lemma X22_witness :
  ∃ o s c, main (Some "all") raw_no_vehicle_type empty_world = Some o ∧
           raised o = Some (UndefinedColumn "drivers" c) ∧
           c ∈ ["driver_name"; "vehicle_type"] ∧
           silver_frames (bronze_frames raw_no_vehicle_type) = Ok s ∧
           bronze_snapshot (final o) = Some (bronze_frames raw_no_vehicle_type) ∧
           silver_snapshot (final o) = Some s ∧
           gold (final o) = gold empty_world ∧
           audit_reconciliation_log (final o) = audit_reconciliation_log empty_world.
Proof.
  assert (raw_no_vehicle_type !! "customers"
          = Some (df_customers (bronze_frames raw_no_vehicle_type))) as Hc by compute_done.
  assert (raw_no_vehicle_type !! "drivers"
          = Some (df_drivers (bronze_frames raw_no_vehicle_type))) as Hd by compute_done.
  assert (raw_no_vehicle_type !! "trips"
          = Some (df_trips (bronze_frames raw_no_vehicle_type))) as Ht by compute_done.
  assert (raw_no_vehicle_type !! "payments"
          = Some (df_payments (bronze_frames raw_no_vehicle_type))) as Hp by compute_done.
  assert (silver_columns_present (bronze_frames raw_no_vehicle_type)) as Hsilver
    by (unfold silver_columns_present; compute_done).
  assert ("vehicle_type" ∉ columns (df_drivers (bronze_frames raw_no_vehicle_type))) as Hvt
    by compute_done.
  exact (X22_full_run_stops_at_gold _ empty_world _ Hc Hd Ht Hp Hsilver Hvt).
Defined.

Lemma X23_witness :
  ∃ o', main (Some "all") raw_valid (final (full_run raw_valid)) = Some o' ∧
        raised o' = None ∧
        console o' = console (full_run raw_valid) ∧
        bronze (final o') = bronze (final (full_run raw_valid)) ∧
        silver (final o') = silver (final (full_run raw_valid)) ∧
        gold (final o') = gold (final (full_run raw_valid)) ∧
        log_snapshots (final o') = log_snapshots (final (full_run raw_valid)) ∧
        ∃ r c1 c2,
          reconciliation_file (final (full_run raw_valid))
          = reconciliation_file empty_world ++ [{| metrics := r; checked_at := c1 |}] ∧
          reconciliation_file (final o')
          = reconciliation_file (final (full_run raw_valid))
            ++ [{| metrics := r; checked_at := c2 |}] ∧
          audit_reconciliation_log (final o')
          = audit_reconciliation_log (final (full_run raw_valid))
            ++ reconciliation_file (final o').
Proof.
  assert (main (Some "all") raw_valid empty_world = Some (full_run raw_valid)) as Hmain
    by compute_done.
  assert (raised (full_run raw_valid) = None) as Hnone by compute_done.
  exact (X23_full_run_twice _ _ _ Hmain Hnone).
Defined.

Lemma X24_witness :
  ∃ o1 o2 o3,
    main (Some "load_bronze") raw_valid empty_world = Some o1 ∧
    main (Some "build_silver") raw_valid (final o1) = Some o2 ∧
    main (Some "build_gold") raw_valid (final o2) = Some o3 ∧
    raised o1 = None ∧ raised o2 = None ∧ raised o3 = None ∧
    final o3 = final (full_run raw_valid) ∧
    console (full_run raw_valid) = console o1 ++ console o2 ++ console o3.
Proof.
  assert (main (Some "all") raw_valid empty_world = Some (full_run raw_valid)) as Hmain
    by compute_done.
  assert (raised (full_run raw_valid) = None) as Hnone by compute_done.
  exact (X24_all_is_the_steps_in_a_row _ _ _ Hmain Hnone).
Defined.

Lemma X25_witness :
  ∃ w1' out', silver_etl (bronze_world raw_dup_driver) = Ok (w1', out') ∧
    silver w1' = silver (silver_world raw_dup_driver) ∧
    dq_counts out' = dq_counts (printed (build_silver (bronze_world raw_dup_driver))) ∧
    bronze w1' = bronze (bronze_world raw_dup_driver) ∧
    gold w1' = gold (bronze_world raw_dup_driver) ∧
    audit_rejected_rows w1' = audit_rejected_rows (bronze_world raw_dup_driver) ∧
    log_snapshots w1' = log_snapshots (bronze_world raw_dup_driver) ∧
    log_dq_csv w1' = log_dq_csv (bronze_world raw_dup_driver).
Proof.
  assert (build_silver (bronze_world raw_dup_driver)
          = Ok (silver_world raw_dup_driver,
                printed (build_silver (bronze_world raw_dup_driver))))
    as Hsilver by compute_done.
  assert (bronze (bronze_world raw_dup_driver) !! "drivers"
          = Some (df_drivers (bronze_frames raw_dup_driver))) as Hd by compute_done.
  assert ("vehicle_type" ∈ columns (df_drivers (bronze_frames raw_dup_driver))) as Hvt
    by compute_done.
  exact (X25_script_agrees_with_build_silver _ _ _ _ Hsilver Hd Hvt).
Defined.

Lemma X26_witness :
  silver_etl (bronze_world raw_no_vehicle_type) = Err (KeyError "vehicle_type").
Proof.
  assert (build_silver (bronze_world raw_no_vehicle_type)
          = Ok (silver_world raw_no_vehicle_type,
                printed (build_silver (bronze_world raw_no_vehicle_type))))
    as Hsilver by compute_done.
  assert (bronze (bronze_world raw_no_vehicle_type) !! "drivers"
          = Some (df_drivers (bronze_frames raw_no_vehicle_type))) as Hd by compute_done.
  assert ("vehicle_type" ∉ columns (df_drivers (bronze_frames raw_no_vehicle_type))) as Hvt
    by compute_done.
  exact (X26_script_needs_vehicle_type _ _ _ _ Hsilver Hd Hvt).
Defined.

Lemma X28_witness :
  ∃ new df,
    convert_date_cols ["signup_date"] customers_csv = Ok df ∧
    bronze (loaded (load_customers empty_world)) !! "customers" = Some new ∧
    match bronze empty_world !! "customers" with
    | Some old =>
        columns new = columns old ∧
        rows new = rows old ++ (cast_row (insert_cast old) <$> rows df)
    | None =>
        new = df ∧
        ∀ c r, c ∈ ["signup_date"] → r ∈ rows new → datetime_or_null (cell_of r c)
    end ∧
    len new = default 0 (len <$> bronze empty_world !! "customers") + len customers_csv ∧
    (∀ t, t ≠ "customers" →
          bronze (loaded (load_customers empty_world)) !! t = bronze empty_world !! t) ∧
    silver (loaded (load_customers empty_world)) = silver empty_world ∧
    gold (loaded (load_customers empty_world)) = gold empty_world ∧
    loader_printed (load_customers empty_world)
    = [PrintLoaded (len customers_csv) "bronze" "customers";
       PrintChecksum (md5 customers_bytes)].
Proof.
  assert (load_csv_to_postgres customers_bytes customers_csv "customers" ["signup_date"]
            empty_world
          = Ok (loaded (load_customers empty_world),
                loader_printed (load_customers empty_world)))
    as Hload by compute_done.
  exact (X28_loader_appends _ _ _ _ _ _ _ Hload).
Defined.

Lemma X29_witness :
  ∃ w2 once twice,
    load_csv_to_postgres customers_bytes customers_csv "customers" ["signup_date"]
      (loaded (load_customers empty_world))
    = Ok (w2, loader_printed (load_customers empty_world)) ∧
    bronze (loaded (load_customers empty_world)) !! "customers" = Some once ∧
    bronze w2 !! "customers" = Some twice ∧
    len twice = len once + len customers_csv ∧
    ∀ key, drop_duplicates key twice = drop_duplicates key once.
Proof.
  assert (load_csv_to_postgres customers_bytes customers_csv "customers" ["signup_date"]
            empty_world
          = Ok (loaded (load_customers empty_world),
                loader_printed (load_customers empty_world)))
    as Hload by compute_done.
  exact (X29_second_load_is_absorbed _ _ _ _ _ _ _ Hload).
Defined.
